(** * Verification of the hwpoison clone (memory-failure_clone.c)

    A shallow embedding of the page-failure recovery engine extracted from
    Linux 2.6.34-rc2: the safe page acquisition ([get_any_page]), the
    unpoison and soft-offline entry points, the recovery actions with their
    ordered table and dispatcher ([page_action]), and the unmap-and-notify
    protocol ([hwpoison_user_mappings], [collect_procs], [kill_procs_ao]).

    Conventions.
    - A [struct page *] is the index of the descriptor in [mem_map]; the
      frame number of a page is that index ([page_to_pfn] is the identity).
    - [int] and [atomic_t] values are [Z] wrapped to 32 bits, [long] and
      [atomic_long_t] values are [Z] wrapped to 64 bits; [page->flags] is an
      [N] whose bits are numbered by the [PG_*] constants of the kernel
      configuration.
    - Kernel services that live outside the file are calls to an oracle: the
      call is appended to the trace, its result and its effect on the page
      descriptors and on the rest of the kernel (the abstract [world]) are
      whatever the oracle says. Every theorem holds for every oracle. *)

From Stdlib Require Import ZArith NArith List Bool String Lia.
Import ListNotations.
Open Scope Z_scope.

(** ** Machine integers *)

Definition wrap (w z : Z) : Z := (z + 2 ^ (w - 1)) mod 2 ^ w - 2 ^ (w - 1).
Definition int_of (z : Z) : Z := wrap 32 z.
Definition long_of (z : Z) : Z := wrap 64 z.
Definition ulong_of (z : Z) : Z := z mod 2 ^ 64.

(** Wrapped values are computed with [vm_compute] on closed terms; [simpl]
    leaves them folded. *)
Arguments wrap : simpl never.
Arguments int_of : simpl never.
Arguments long_of : simpl never.
Arguments ulong_of : simpl never.

Definition INT_MAX : Z := 2 ^ 31 - 1.
Definition INT_MIN : Z := - 2 ^ 31.
Definition LONG_MAX : Z := 2 ^ 63 - 1.
Definition LONG_MIN : Z := - 2 ^ 63.

Definition atomic_inc (v : Z) : Z := int_of (v + 1).
Definition atomic_dec (v : Z) : Z := int_of (v - 1).
Definition atomic_long_add (i v : Z) : Z := long_of (v + i).
Definition atomic_long_dec (v : Z) : Z := long_of (v - 1).

(** errno values (asm-generic/errno-base.h) and try_to_unmap results
    (linux/rmap.h). *)
Definition EIO : Z := 5.
Definition ENXIO : Z := 6.
Definition EFAULT : Z := 14.
Definition EBUSY : Z := 16.

Definition SWAP_SUCCESS : Z := 0.
Definition SWAP_AGAIN : Z := 1.
Definition SWAP_FAIL : Z := 2.
Definition SWAP_MLOCK : Z := 3.

(** ** Page descriptors *)

Definition page_ptr := N.
Bind Scope N_scope with page_ptr.

Inductive address_space :=
| swapper_space
| file_space (m : N).

(** [page->mapping]: a null pointer, an address space, or an anon_vma
    pointer with the PAGE_MAPPING_ANON bit (and the KSM bit for a stable
    node). *)
Inductive mapping_ptr :=
| MAPPING_NULL
| MAPPING_FILE (m : N)
| MAPPING_ANON (av : N)
| MAPPING_KSM (node : N).

Record page := mkpage {
  flags : N;
  _count : Z;
  _mapcount : Z;
  private : N;
  mapping : mapping_ptr;
  index : N
}.

Definition mem := page_ptr -> page.

Definition upd_page (m : mem) (p : page_ptr) (pg : page) : mem :=
  fun q => if N.eqb q p then pg else m q.

Definition set_flags (f : N) (pg : page) : page :=
  mkpage f (_count pg) (_mapcount pg) (private pg) (mapping pg) (index pg).
Definition set_count (c : Z) (pg : page) : page :=
  mkpage (flags pg) c (_mapcount pg) (private pg) (mapping pg) (index pg).

(** The kernel configuration the file is compiled against: bit numbers of
    enum pageflags, the page-flag layout switch, and the constants of the
    headers the file includes. *)
Record config := mkconfig {
  PG_error : N;
  PG_uptodate : N;
  PG_dirty : N;
  PG_lru : N;
  PG_active : N;
  PG_slab : N;
  PG_reserved : N;
  PG_private : N;
  PG_private_2 : N;
  PG_head : N;
  PG_tail : N;
  PG_compound : N;
  PG_swapcache : N;
  PG_buddy : N;
  PG_unevictable : N;
  PG_mlocked : N;
  PG_hwpoison : N;
  CONFIG_PAGEFLAGS_EXTENDED : bool;
  MAX_ORDER : nat;
  MF_COUNT_INCREASED : Z;
  PF_MCE_PROCESS : Z;
  PF_MCE_EARLY : Z;
  PAGE_SHIFT : N;
  PAGE_CACHE_SHIFT : N
}.

(** ** Processes, mappings and the notify list *)

Record task_struct := mktask {
  tid : N;
  pid : Z;
  comm : string;
  mm : option N;
  tflags : Z
}.

Record vm_area_struct := mkvma {
  vma_id : N;
  vm_mm : N
}.

Record struct_to_kill := mk_to_kill {
  tsk : task_struct;
  addr : Z;
  addr_valid : bool
}.

Inductive signal := SIGBUS | SIGKILL.
Inductive delivery := Advisory | Forced.
Inductive si_code_t := BUS_MCEERR_AO.

Record siginfo := mksiginfo {
  si_signo : signal;
  si_errno : Z;
  si_code : si_code_t;
  si_addr : Z;
  si_trapno : Z;
  si_addr_lsb : N
}.

Inductive gfp_t := GFP_KERNEL | GFP_ATOMIC | GFP_NOIO.

(** ** Calls into the rest of the kernel *)

Inductive kcall :=
| lock_system_sleep
| unlock_system_sleep
| set_migratetype_isolate (p : page_ptr)
| unset_migratetype_isolate (p : page_ptr)
| lru_add_drain_all
| drain_all_pages
| shrink_slab (scanned : Z) (gfp : gfp_t) (lru_pages : Z)
| put_compound_page (p : page_ptr)
| __put_single_page (p : page_ptr)
| lock_page (p : page_ptr)
| lock_page_nosync (p : page_ptr)
| unlock_page (p : page_ptr)
| wait_on_page_writeback (p : page_ptr)
| invalidate_inode_page (p : page_ptr)
| isolate_lru_page (p : page_ptr)
| migrate_pages (pagelist : list page_ptr)
| delete_from_swap_cache (p : page_ptr)
| error_remove_page (m : address_space) (p : page_ptr)
| try_to_release_page (p : page_ptr) (gfp : gfp_t)
| mapping_set_error (m : address_space) (error : Z)
| page_mkclean (p : page_ptr)
| try_to_unmap (p : page_ptr) (ttu : Z)
| kmalloc_to_kill (gfp : gfp_t)
| kfree_to_kill
| send_sig_info (sig : signal) (si : siginfo) (t : N)
| force_sig (sig : signal) (t : N)
| tasklist_read_lock
| tasklist_read_unlock
| i_mmap_lock (m : address_space)
| i_mmap_unlock (m : address_space)
| page_unlock_anon_vma (p : page_ptr)
| __put_task_struct (t : N).

Inductive printk_arg :=
| Arg_num (z : Z)
| Arg_str (s : string).

Inductive event :=
| Ev_call (c : kcall)
| Ev_printk (level : string) (fmt : string) (args : list printk_arg)
| Ev_enter_collect_procs (p : page_ptr).

(** The services of the rest of the kernel. [world] is the state of that
    rest: page tables, LRU lists, free lists, the process table, the slab
    allocator. [kernel] gives the result of a call and its effect; the other
    fields are the read-only queries the file makes. *)
Record kernel_api (world : Type) := mkkernel {
  kernel : kcall -> mem -> world -> Z * mem * world;
  compound_head : mem -> page_ptr -> page_ptr;
  pfn_valid : N -> bool;
  mapping_cap_writeback_dirty : world -> address_space -> bool;
  has_error_remove_page : world -> address_space -> bool;
  for_each_process : world -> list task_struct;
  sysctl_memory_failure_early_kill : world -> Z;
  page_lock_anon_vma : mem -> world -> page_ptr -> option (list vm_area_struct);
  vma_prio_tree : world -> address_space -> N -> list vm_area_struct;
  page_mapped_in_vma : mem -> world -> page_ptr -> vm_area_struct -> bool;
  page_address_in_vma : mem -> world -> page_ptr -> vm_area_struct -> Z
}.

Arguments mkkernel {world}.
Arguments kernel {world}.
Arguments compound_head {world}.
Arguments pfn_valid {world}.
Arguments mapping_cap_writeback_dirty {world}.
Arguments has_error_remove_page {world}.
Arguments for_each_process {world}.
Arguments sysctl_memory_failure_early_kill {world}.
Arguments page_lock_anon_vma {world}.
Arguments vma_prio_tree {world}.
Arguments page_mapped_in_vma {world}.
Arguments page_address_in_vma {world}.

(** What the engine reads and writes: the page descriptors, the ledger of
    poisoned pages, the usage counts of the tasks, the number of live notify
    entries, the trace of calls and messages (oldest first), and the rest of
    the kernel. *)
Record state (world : Type) := mkstate {
  mem_map : mem;
  mce_bad_pages : Z;
  task_usage : N -> Z;
  to_kill_live : Z;
  trace : list event;
  the_world : world
}.

Arguments mkstate {world}.
Arguments mem_map {world}.
Arguments mce_bad_pages {world}.
Arguments task_usage {world}.
Arguments to_kill_live {world}.
Arguments trace {world}.
Arguments the_world {world}.

Section Engine.

Context {world : Type}.
Variable C : config.
Variable K : kernel_api world.

Local Abbreviation state := (state world).

(** *** A state monad *)

Definition M (A : Type) : Type := state -> A * state.

Definition ret {A} (a : A) : M A := fun s => (a, s).
Definition bind {A B} (m : M A) (k : A -> M B) : M B :=
  fun s => k (fst (m s)) (snd (m s)).

Notation "x <- m ;; k" := (bind m (fun x => k))
  (at level 61, m at next level, right associativity).
Notation "m ;; k" := (bind m (fun _ => k))
  (at level 61, right associativity).

Definition gets {A} (f : state -> A) : M A := fun s => (f s, s).

Definition emit (e : event) : M unit := fun s =>
  (tt, mkstate (mem_map s) (mce_bad_pages s) (task_usage s) (to_kill_live s)
               (trace s ++ [e]) (the_world s)).

Definition printk (level fmt : string) (args : list printk_arg) : M unit :=
  emit (Ev_printk level fmt args).

(** [#define DEBUG 1] turns pr_debug into a printk at KERN_DEBUG. *)
Definition pr_debug (fmt : string) (args : list printk_arg) : M unit :=
  printk "KERN_DEBUG" fmt args.

(** A call that may change page descriptors. *)
Definition call_mm (c : kcall) : M Z := fun s =>
  let r := kernel K c (mem_map s) (the_world s) in
  (fst (fst r),
   mkstate (snd (fst r)) (mce_bad_pages s) (task_usage s) (to_kill_live s)
           (trace s ++ [Ev_call c]) (snd r)).

(** A call that leaves the page descriptors alone: locks, pageblock
    isolation, signals, the allocator of notify entries. *)
Definition call_sys (c : kcall) : M Z := fun s =>
  let r := kernel K c (mem_map s) (the_world s) in
  (fst (fst r),
   mkstate (mem_map s) (mce_bad_pages s) (task_usage s) (to_kill_live s)
           (trace s ++ [Ev_call c]) (snd r)).

Definition modify_page (p : page_ptr) (f : page -> page) : M unit := fun s =>
  (tt, mkstate (upd_page (mem_map s) p (f (mem_map s p))) (mce_bad_pages s)
               (task_usage s) (to_kill_live s) (trace s) (the_world s)).

Definition set_mce_bad_pages (v : Z) : M unit := fun s =>
  (tt, mkstate (mem_map s) v (task_usage s) (to_kill_live s) (trace s)
               (the_world s)).

(** *** Page flag accessors (linux/page-flags.h) *)

Definition test_bit (nr f : N) : bool := N.testbit f nr.

Definition page_flag (nr : N) (p : page_ptr) (s : state) : bool :=
  test_bit nr (flags (mem_map s p)).
Definition set_page_flag (nr : N) (p : page_ptr) : M unit :=
  modify_page p (fun pg => set_flags (N.setbit (flags pg) nr) pg).
Definition clear_page_flag (nr : N) (p : page_ptr) : M unit :=
  modify_page p (fun pg => set_flags (N.clearbit (flags pg) nr) pg).

Definition PageDirty := page_flag (PG_dirty C).
Definition PageLRU := page_flag (PG_lru C).
Definition PageSlab := page_flag (PG_slab C).
Definition PageReserved := page_flag (PG_reserved C).
Definition PageSwapCache := page_flag (PG_swapcache C).
Definition PageBuddy := page_flag (PG_buddy C).
Definition PageHWPoison := page_flag (PG_hwpoison C).
Definition PageCompound (p : page_ptr) (s : state) : bool :=
  if CONFIG_PAGEFLAGS_EXTENDED C
  then page_flag (PG_head C) p s || page_flag (PG_tail C) p s
  else page_flag (PG_compound C) p s.
Definition page_has_private (p : page_ptr) (s : state) : bool :=
  page_flag (PG_private C) p s || page_flag (PG_private_2 C) p s.

Definition SetPageDirty := set_page_flag (PG_dirty C).
Definition SetPageError := set_page_flag (PG_error C).
Definition SetPageHWPoison := set_page_flag (PG_hwpoison C).
Definition ClearPageDirty := clear_page_flag (PG_dirty C).
Definition ClearPageUptodate := clear_page_flag (PG_uptodate C).
Definition ClearPageActive := clear_page_flag (PG_active C).
Definition ClearPageUnevictable := clear_page_flag (PG_unevictable C).

Definition TestClearPageHWPoison (p : page_ptr) : M bool :=
  old <- gets (PageHWPoison p) ;;
  clear_page_flag (PG_hwpoison C) p ;;
  ret old.

(** *** Reference counts and mappings (linux/mm.h, mm/swap.c) *)

Definition page_count (p : page_ptr) (s : state) : Z :=
  _count (mem_map s (compound_head K (mem_map s) p)).
Definition page_mapped (p : page_ptr) (s : state) : bool :=
  0 <=? _mapcount (mem_map s p).
Definition page_mapcount (p : page_ptr) (s : state) : Z :=
  int_of (_mapcount (mem_map s p) + 1).
Definition page_order (p : page_ptr) (s : state) : N :=
  private (mem_map s p).

Definition PageAnon (p : page_ptr) (s : state) : bool :=
  match mapping (mem_map s p) with
  | MAPPING_ANON _ | MAPPING_KSM _ => true
  | _ => false
  end.
Definition PageKsm (p : page_ptr) (s : state) : bool :=
  match mapping (mem_map s p) with
  | MAPPING_KSM _ => true
  | _ => false
  end.
Definition page_mapping (p : page_ptr) (s : state) : option address_space :=
  if PageSwapCache p s then Some swapper_space
  else match mapping (mem_map s p) with
       | MAPPING_FILE m => Some (file_space m)
       | _ => None
       end.

(** atomic_inc_not_zero on the reference count. *)
Definition get_page_unless_zero (p : page_ptr) : M bool := fun s =>
  if _count (mem_map s p) =? 0 then (false, s)
  else (true, snd (modify_page p
                       (fun pg => set_count (atomic_inc (_count pg)) pg) s)).

Definition page_to_pfn (p : page_ptr) : N := p.
Definition pfn_to_page (pfn : N) : page_ptr := pfn.

(** put_page of mm/swap.c; page_cache_release is the same function. *)
Definition put_page (p : page_ptr) : M unit :=
  compound <- gets (PageCompound p) ;;
  if compound then call_mm (put_compound_page p) ;; ret tt
  else
    modify_page p (fun pg => set_count (atomic_dec (_count pg)) pg) ;;
    c <- gets (fun s => _count (mem_map s p)) ;;
    if c =? 0 then call_mm (__put_single_page p) ;; ret tt else ret tt.

Definition page_cache_release := put_page.

Definition get_task_struct (t : task_struct) : M unit := fun s =>
  (tt, mkstate (mem_map s) (mce_bad_pages s)
         (fun x => if N.eqb x (tid t) then atomic_inc (task_usage s x)
                   else task_usage s x)
         (to_kill_live s) (trace s) (the_world s)).

Definition put_task_struct (t : task_struct) : M unit :=
  (fun s =>
     (tt, mkstate (mem_map s) (mce_bad_pages s)
            (fun x => if N.eqb x (tid t) then atomic_dec (task_usage s x)
                      else task_usage s x)
            (to_kill_live s) (trace s) (the_world s))) ;;
  u <- gets (fun s => task_usage s (tid t)) ;;
  if u =? 0 then call_sys (__put_task_struct (tid t)) ;; ret tt else ret tt.

Definition add_to_kill_live (d : Z) : M unit := fun s =>
  (tt, mkstate (mem_map s) (mce_bad_pages s) (task_usage s)
         (to_kill_live s + d) (trace s) (the_world s)).

(** kmalloc(sizeof(struct to_kill), gfp): true when an object was
    obtained. *)
Definition kmalloc (gfp : gfp_t) : M bool :=
  r <- call_sys (kmalloc_to_kill gfp) ;;
  if r =? 0 then ret false else add_to_kill_live 1 ;; ret true.

(** kfree of a notify entry; kfree(NULL) does nothing. *)
Definition kfree (present : bool) : M unit :=
  if present then call_sys kfree_to_kill ;; add_to_kill_live (-1)
  else ret tt.

(** *** From page_alloc.c *)

Fixpoint buddy_scan (n order : nat) (page : page_ptr) (pfn : N) (s : state)
  : nat :=
  match n with
  | O => order
  | S n' =>
      let page_head :=
        (page - N.land pfn (N.shiftl 1 (N.of_nat order) - 1))%N in
      if PageBuddy page_head s
         && (N.of_nat order <=? page_order page_head s)%N
      then order
      else buddy_scan n' (S order) page pfn s
  end.

Definition is_free_buddy_page__clone (page : page_ptr) (s : state) : bool :=
  let pfn := page_to_pfn page in
  (buddy_scan (MAX_ORDER C) 0 page pfn s <? MAX_ORDER C)%nat.

(** *** Draining caches *)

(** The do-while loop of shake_page__clone. [nr] is an int: the answer of
    shrink_slab is truncated to 32 bits before it is compared with 10. *)
Fixpoint shrink_slab_loop (fuel : nat) (p : page_ptr) (s : state)
  : option state :=
  match fuel with
  | O => None
  | S fuel' =>
      let r := call_mm (shrink_slab 1000 GFP_KERNEL 1000) s in
      let nr := int_of (fst r) in
      let s1 := snd r in
      if page_count p s1 =? 0 then Some s1
      else if nr >? 10 then shrink_slab_loop fuel' p s1
      else Some s1
  end.

Definition shake_access (fuel : nat) (p : page_ptr) (access : Z) (s : state)
  : option state :=
  if access =? 0 then Some s else shrink_slab_loop fuel p s.

Definition shake_page__clone (fuel : nat) (p : page_ptr) (access : Z)
  (s : state) : option state :=
  if negb (PageSlab p s) then
    let s1 := snd (call_mm lru_add_drain_all s) in
    if PageLRU p s1 then Some s1
    else
      let s2 := snd (call_mm drain_all_pages s1) in
      if PageLRU p s2 || is_free_buddy_page__clone p s2 then Some s2
      else shake_access fuel p access s2
  else shake_access fuel p access s.

(** *** Safe acquisition of a reference *)

Definition get_any_page (p : page_ptr) (pfn : N) (mf_flags : Z) : M Z :=
  if negb (Z.land mf_flags (MF_COUNT_INCREASED C) =? 0) then ret 1
  else
    call_sys lock_system_sleep ;;
    call_sys (set_migratetype_isolate p) ;;
    head <- gets (fun s => compound_head K (mem_map s) p) ;;
    got <- get_page_unless_zero head ;;
    r <- (if negb got then
            free <- gets (is_free_buddy_page__clone p) ;;
            if free then
              pr_debug "get_any_page: %#lx free buddy page\n"
                       [Arg_num (Z.of_N pfn)] ;;
              SetPageHWPoison p ;;
              ret 0
            else
              f <- gets (fun s => flags (mem_map s p)) ;;
              pr_debug
                "get_any_page: %#lx: unknown zero refcount page type %lx\n"
                [Arg_num (Z.of_N pfn); Arg_num (Z.of_N f)] ;;
              ret (- EIO)
          else ret 1) ;;
    call_sys (unset_migratetype_isolate p) ;;
    call_sys unlock_system_sleep ;;
    ret r.

(** *** Unpoison *)

Definition dec_mce_bad_pages : M unit := fun s =>
  set_mce_bad_pages (atomic_long_dec (mce_bad_pages s)) s.

Definition unpoison_memory__clone (pfn : N) : M Z :=
  if negb (pfn_valid K pfn) then ret (- ENXIO)
  else
    let p := pfn_to_page pfn in
    page <- gets (fun s => compound_head K (mem_map s) p) ;;
    poisoned <- gets (PageHWPoison p) ;;
    if negb poisoned then
      pr_debug "MCE: Page was already unpoisoned %#lx\n"
               [Arg_num (Z.of_N pfn)] ;;
      ret 0
    else
      got <- get_page_unless_zero page ;;
      if negb got then
        was <- TestClearPageHWPoison p ;;
        (if was then dec_mce_bad_pages else ret tt) ;;
        pr_debug "MCE: Software-unpoisoned free page %#lx\n"
                 [Arg_num (Z.of_N pfn)] ;;
        ret 0
      else
        call_mm (lock_page_nosync page) ;;
        was <- TestClearPageHWPoison p ;;
        (if was then
           pr_debug "MCE: Software-unpoisoned page %#lx\n"
                    [Arg_num (Z.of_N pfn)] ;;
           dec_mce_bad_pages
         else ret tt) ;;
        let freeit := was in
        call_mm (unlock_page page) ;;
        put_page page ;;
        (if freeit then put_page page else ret tt) ;;
        ret 0.

(** *** Soft offline *)

(** The code after the [done] label. *)
Definition soft_offline_done (page : page_ptr) (r : Z) : M Z :=
  (fun s => set_mce_bad_pages (atomic_long_add 1 (mce_bad_pages s)) s) ;;
  SetPageHWPoison page ;;
  ret r.

(** From isolate_lru_page to the end of the function. *)
Definition soft_offline_migrate (page : page_ptr) (pfn : N) : M Z :=
  r0 <- call_mm (isolate_lru_page page) ;;
  r <- (if r0 =? 0 then
          r1 <- call_mm (migrate_pages [page]) ;;
          if negb (r1 =? 0) then
            f <- gets (fun s => flags (mem_map s page)) ;;
            pr_debug "soft offline: %#lx: migration failed %d, type %lx\n"
                     [Arg_num (Z.of_N pfn); Arg_num r1; Arg_num (Z.of_N f)] ;;
            ret (if r1 >? 0 then - EIO else r1)
          else ret r1
        else
          c <- gets (page_count page) ;;
          f <- gets (fun s => flags (mem_map s page)) ;;
          pr_debug
            "soft offline: %#lx: isolation failed: %d, page count %d, type %lx\n"
            [Arg_num (Z.of_N pfn); Arg_num r0; Arg_num c; Arg_num (Z.of_N f)] ;;
          ret r0) ;;
  if negb (r =? 0) then ret r else soft_offline_done page r.

(** From the second PageLRU test on: lock, invalidate, else migrate. *)
Definition soft_offline_lru (page : page_ptr) (pfn : N) : M Z :=
  on_lru <- gets (PageLRU page) ;;
  if negb on_lru then
    f <- gets (fun s => flags (mem_map s page)) ;;
    pr_debug "soft_offline: %#lx: unknown non LRU page type %lx\n"
             [Arg_num (Z.of_N pfn); Arg_num (Z.of_N f)] ;;
    ret (- EIO)
  else
    call_mm (lock_page page) ;;
    call_mm (wait_on_page_writeback page) ;;
    poisoned <- gets (PageHWPoison page) ;;
    if poisoned then
      call_mm (unlock_page page) ;;
      put_page page ;;
      pr_debug "soft offline: %#lx page already poisoned\n"
               [Arg_num (Z.of_N pfn)] ;;
      ret (- EBUSY)
    else
      r <- call_mm (invalidate_inode_page page) ;;
      call_mm (unlock_page page) ;;
      put_page page ;;
      if r =? 1 then
        pr_debug "soft_offline: %#lx: invalidated\n" [Arg_num (Z.of_N pfn)] ;;
        soft_offline_done page 0
      else soft_offline_migrate page pfn.

(** [None] when the shrink_slab loop of shake_page__clone has not finished
    within [fuel] rounds. *)
Definition soft_offline_page__clone (fuel : nat) (page : page_ptr)
  (mf_flags : Z) (s : state) : option (Z * state) :=
  let pfn := page_to_pfn page in
  let r1 := get_any_page page pfn mf_flags s in
  if fst r1 <? 0 then Some r1
  else if fst r1 =? 0 then Some (soft_offline_done page (fst r1) (snd r1))
  else if negb (PageLRU page (snd r1)) then
    match shake_page__clone fuel page 1 (snd (put_page page (snd r1))) with
    | None => None
    | Some s3 =>
        let r2 := get_any_page page pfn 0 s3 in
        if fst r2 <? 0 then Some r2
        else if fst r2 =? 0
             then Some (soft_offline_done page (fst r2) (snd r2))
             else Some (soft_offline_lru page pfn (snd r2))
    end
  else Some (soft_offline_lru page pfn (snd r1)).
(** *** Error handlers for the various types of pages *)

Inductive outcome := IGNORED | FAILED | DELAYED | RECOVERED.

Definition action_name (o : outcome) : string :=
  match o with
  | IGNORED => "Ignored"
  | FAILED => "Failed"
  | DELAYED => "Delayed"
  | RECOVERED => "Recovered"
  end.

Definition outcome_eqb (a b : outcome) : bool :=
  match a, b with
  | IGNORED, IGNORED | FAILED, FAILED
  | DELAYED, DELAYED | RECOVERED, RECOVERED => true
  | _, _ => false
  end.

Definition delete_from_lru_cache (p : page_ptr) : M Z :=
  r <- call_mm (isolate_lru_page p) ;;
  if r =? 0 then
    ClearPageActive p ;;
    ClearPageUnevictable p ;;
    page_cache_release p ;;
    ret 0
  else ret (- EIO).

Definition me_kernel (p : page_ptr) (pfn : N) : M outcome :=
  ret IGNORED.

Definition me_unknown (p : page_ptr) (pfn : N) : M outcome :=
  printk "KERN_ERR" "MCE %#lx: Unknown page state\n" [Arg_num (Z.of_N pfn)] ;;
  ret FAILED.

Definition me_pagecache_clean (p : page_ptr) (pfn : N) : M outcome :=
  delete_from_lru_cache p ;;
  anon <- gets (PageAnon p) ;;
  if anon then ret RECOVERED
  else
    m <- gets (page_mapping p) ;;
    match m with
    | None => ret FAILED
    | Some m =>
        has <- gets (fun s => has_error_remove_page K (the_world s) m) ;;
        if has then
          err <- call_mm (error_remove_page m p) ;;
          if negb (err =? 0) then
            printk "KERN_INFO" "MCE %#lx: Failed to punch page: %d\n"
                   [Arg_num (Z.of_N pfn); Arg_num err] ;;
            ret FAILED
          else
            priv <- gets (page_has_private p) ;;
            if priv then
              rel <- call_mm (try_to_release_page p GFP_NOIO) ;;
              if rel =? 0 then
                pr_debug "MCE %#lx: failed to release buffers\n"
                         [Arg_num (Z.of_N pfn)] ;;
                ret FAILED
              else ret RECOVERED
            else ret RECOVERED
        else
          r <- call_mm (invalidate_inode_page p) ;;
          if negb (r =? 0) then ret RECOVERED
          else
            printk "KERN_INFO" "MCE %#lx: Failed to invalidate\n"
                   [Arg_num (Z.of_N pfn)] ;;
            ret FAILED
    end.

Definition me_pagecache_dirty (p : page_ptr) (pfn : N) : M outcome :=
  m <- gets (page_mapping p) ;;
  SetPageError p ;;
  (match m with
   | Some m => call_mm (mapping_set_error m EIO) ;; ret tt
   | None => ret tt
   end) ;;
  me_pagecache_clean p pfn.

Definition me_swapcache_dirty (p : page_ptr) (pfn : N) : M outcome :=
  ClearPageDirty p ;;
  ClearPageUptodate p ;;
  r <- delete_from_lru_cache p ;;
  if r =? 0 then ret DELAYED else ret FAILED.

Definition me_swapcache_clean (p : page_ptr) (pfn : N) : M outcome :=
  call_mm (delete_from_swap_cache p) ;;
  r <- delete_from_lru_cache p ;;
  if r =? 0 then ret RECOVERED else ret FAILED.

Definition me_huge_page (p : page_ptr) (pfn : N) : M outcome :=
  ret FAILED.

(** The function pointers stored in the table. *)
Inductive handler :=
| fn_me_kernel
| fn_me_unknown
| fn_me_pagecache_clean
| fn_me_pagecache_dirty
| fn_me_swapcache_dirty
| fn_me_swapcache_clean
| fn_me_huge_page.

Definition handler_eqb (a b : handler) : bool :=
  match a, b with
  | fn_me_kernel, fn_me_kernel
  | fn_me_unknown, fn_me_unknown
  | fn_me_pagecache_clean, fn_me_pagecache_clean
  | fn_me_pagecache_dirty, fn_me_pagecache_dirty
  | fn_me_swapcache_dirty, fn_me_swapcache_dirty
  | fn_me_swapcache_clean, fn_me_swapcache_clean
  | fn_me_huge_page, fn_me_huge_page => true
  | _, _ => false
  end.

Definition call_handler (h : handler) : page_ptr -> N -> M outcome :=
  match h with
  | fn_me_kernel => me_kernel
  | fn_me_unknown => me_unknown
  | fn_me_pagecache_clean => me_pagecache_clean
  | fn_me_pagecache_dirty => me_pagecache_dirty
  | fn_me_swapcache_dirty => me_swapcache_dirty
  | fn_me_swapcache_clean => me_swapcache_clean
  | fn_me_huge_page => me_huge_page
  end.

(** *** The table of page states *)

Definition dirty : N := N.shiftl 1 (PG_dirty C).
Definition sc : N := N.shiftl 1 (PG_swapcache C).
Definition unevict : N := N.shiftl 1 (PG_unevictable C).
Definition mlock : N := N.shiftl 1 (PG_mlocked C).
Definition lru : N := N.shiftl 1 (PG_lru C).
Definition head : N := N.shiftl 1 (PG_head C).
Definition tail : N := N.shiftl 1 (PG_tail C).
Definition compound : N := N.shiftl 1 (PG_compound C).
Definition slab : N := N.shiftl 1 (PG_slab C).
Definition reserved : N := N.shiftl 1 (PG_reserved C).

Record page_state := mk_page_state {
  mask : N;
  res : N;
  msg : string;
  action : handler
}.

Definition error_states : list page_state :=
  [ mk_page_state reserved reserved "reserved kernel" fn_me_kernel;
    mk_page_state slab slab "kernel slab" fn_me_kernel ]
  ++ (if CONFIG_PAGEFLAGS_EXTENDED C
      then [ mk_page_state head head "huge" fn_me_huge_page;
             mk_page_state tail tail "huge" fn_me_huge_page ]
      else [ mk_page_state compound compound "huge" fn_me_huge_page ])
  ++ [ mk_page_state (N.lor sc dirty) (N.lor sc dirty) "swapcache"
         fn_me_swapcache_dirty;
       mk_page_state (N.lor sc dirty) sc "swapcache" fn_me_swapcache_clean;
       mk_page_state (N.lor unevict dirty) (N.lor unevict dirty)
         "unevictable LRU" fn_me_pagecache_dirty;
       mk_page_state unevict unevict "unevictable LRU" fn_me_pagecache_clean;
       mk_page_state (N.lor mlock dirty) (N.lor mlock dirty) "mlocked LRU"
         fn_me_pagecache_dirty;
       mk_page_state mlock mlock "mlocked LRU" fn_me_pagecache_clean;
       mk_page_state (N.lor lru dirty) (N.lor lru dirty) "LRU"
         fn_me_pagecache_dirty;
       mk_page_state (N.lor lru dirty) lru "clean LRU" fn_me_pagecache_clean;
       mk_page_state 0 0 "unknown page state" fn_me_unknown ].

Definition action_result (pfn : N) (msg : string) (result : outcome)
  : M unit :=
  let page := pfn_to_page pfn in
  d <- gets (PageDirty page) ;;
  printk "KERN_ERR" "MCE %#lx: %s%s page recovery: %s\n"
         [Arg_num (Z.of_N pfn); Arg_str (if d then "dirty " else "");
          Arg_str msg; Arg_str (action_name result)].

Definition still_referenced_fmt : string :=
  "MCE %#lx: %s page still referenced by %d users\n".

Definition page_action (ps : page_state) (p : page_ptr) (pfn : N) : M Z :=
  result <- call_handler (action ps) p pfn ;;
  action_result pfn (msg ps) result ;;
  c <- gets (page_count p) ;;
  let count := int_of (c - 1) in
  let count :=
    if handler_eqb (action ps) fn_me_swapcache_dirty
       && outcome_eqb result DELAYED
    then int_of (count - 1) else count in
  result <- (if negb (count =? 0) then
               printk "KERN_ERR" still_referenced_fmt
                      [Arg_num (Z.of_N pfn); Arg_str (msg ps); Arg_num count] ;;
               ret FAILED
             else ret result) ;;
  ret (if outcome_eqb result RECOVERED || outcome_eqb result DELAYED
       then 0 else - EBUSY).

(** Modelled from the spec: the scan of the rule table is done by the
    caller of [page_action] (the hard-failure entry point), which this file
    does not contain. The spec words it as: scan the ordered table; for the
    first rule where [(attributes & mask) == value], invoke its recovery
    action with the page and its frame number. *)
Fixpoint first_match (table : list page_state) (attributes : N)
  : option page_state :=
  match table with
  | [] => None
  | ps :: rest =>
      if (N.land attributes (mask ps) =? res ps)%N then Some ps
      else first_match rest attributes
  end.

(** Modelled from the spec: classification followed by the dispatch of the
    selected rule; [None] when no rule matches. *)
Definition classify_and_dispatch (p : page_ptr) (pfn : N) (s : state)
  : option (Z * state) :=
  match first_match error_states (flags (mem_map s p)) with
  | Some ps => Some (page_action ps p pfn s)
  | None => None
  end.

(** *** Collecting the processes to notify *)

Definition add_to_kill (tsk : task_struct) (p : page_ptr)
  (vma : vm_area_struct) (to_kill : list struct_to_kill) (tkc : bool)
  : M (list struct_to_kill * bool) :=
  have <- (if tkc then ret true
           else
             got <- kmalloc GFP_ATOMIC ;;
             if got then ret true
             else
               printk "KERN_ERR"
                 "MCE: Out of memory while machine check handling\n" [] ;;
               ret false) ;;
  if negb have then ret (to_kill, false)
  else
    a <- gets (fun s => page_address_in_vma K (mem_map s) (the_world s) p vma) ;;
    let valid := negb (ulong_of a =? ulong_of (- EFAULT)) in
    (if valid then ret tt
     else pr_debug "MCE: Unable to find user space address %lx in %s\n"
                   [Arg_num (Z.of_N (page_to_pfn p)); Arg_str (comm tsk)]) ;;
    get_task_struct tsk ;;
    ret (to_kill ++ [mk_to_kill tsk (ulong_of a) valid], false).

Definition task_early_kill (tsk : task_struct) (s : state) : Z :=
  match mm tsk with
  | None => 0
  | Some _ =>
      if negb (Z.land (tflags tsk) (PF_MCE_PROCESS C) =? 0)
      then (if negb (Z.land (tflags tsk) (PF_MCE_EARLY C) =? 0) then 1 else 0)
      else sysctl_memory_failure_early_kill K (the_world s)
  end.

Definition same_mm (vma : vm_area_struct) (tsk : task_struct) : bool :=
  match mm tsk with
  | Some m => N.eqb (vm_mm vma) m
  | None => false
  end.

Fixpoint collect_anon_vmas (tsk : task_struct) (page : page_ptr)
  (chain : list vm_area_struct) (acc : list struct_to_kill * bool)
  : M (list struct_to_kill * bool) :=
  match chain with
  | [] => ret acc
  | vma :: rest =>
      mapped <- gets (fun s => page_mapped_in_vma K (mem_map s) (the_world s)
                                 page vma) ;;
      if negb mapped then collect_anon_vmas tsk page rest acc
      else if same_mm vma tsk then
        acc' <- add_to_kill tsk page vma (fst acc) (snd acc) ;;
        collect_anon_vmas tsk page rest acc'
      else collect_anon_vmas tsk page rest acc
  end.

Fixpoint collect_file_vmas (tsk : task_struct) (page : page_ptr)
  (vmas : list vm_area_struct) (acc : list struct_to_kill * bool)
  : M (list struct_to_kill * bool) :=
  match vmas with
  | [] => ret acc
  | vma :: rest =>
      if same_mm vma tsk then
        acc' <- add_to_kill tsk page vma (fst acc) (snd acc) ;;
        collect_file_vmas tsk page rest acc'
      else collect_file_vmas tsk page rest acc
  end.

Fixpoint collect_tasks
  (body : task_struct -> list struct_to_kill * bool -> M (list struct_to_kill * bool))
  (tasks : list task_struct) (acc : list struct_to_kill * bool)
  : M (list struct_to_kill * bool) :=
  match tasks with
  | [] => ret acc
  | t :: rest =>
      early <- gets (task_early_kill t) ;;
      if early =? 0 then collect_tasks body rest acc
      else
        acc' <- body t acc ;;
        collect_tasks body rest acc'
  end.

Definition collect_procs_anon (page : page_ptr) (to_kill : list struct_to_kill)
  (tkc : bool) : M (list struct_to_kill * bool) :=
  call_sys tasklist_read_lock ;;
  av <- gets (fun s => page_lock_anon_vma K (mem_map s) (the_world s) page) ;;
  r <- (match av with
        | None => ret (to_kill, tkc)
        | Some chain =>
            tasks <- gets (fun s => for_each_process K (the_world s)) ;;
            r <- collect_tasks
                   (fun t acc => collect_anon_vmas t page chain acc)
                   tasks (to_kill, tkc) ;;
            call_sys (page_unlock_anon_vma page) ;;
            ret r
        end) ;;
  call_sys tasklist_read_unlock ;;
  ret r.

Definition collect_procs_file (page : page_ptr) (to_kill : list struct_to_kill)
  (tkc : bool) : M (list struct_to_kill * bool) :=
  m <- gets (fun s => mapping (mem_map s page)) ;;
  match m with
  | MAPPING_FILE f =>
      let m := file_space f in
      call_sys tasklist_read_lock ;;
      call_sys (i_mmap_lock m) ;;
      tasks <- gets (fun s => for_each_process K (the_world s)) ;;
      idx <- gets (fun s => index (mem_map s page)) ;;
      let pgoff :=
        (N.shiftl idx (PAGE_CACHE_SHIFT C - PAGE_SHIFT C) mod 2 ^ 64)%N in
      r <- collect_tasks
             (fun t acc s =>
                collect_file_vmas t page
                  (vma_prio_tree K (the_world s) m pgoff) acc s)
             tasks (to_kill, tkc) ;;
      call_sys (i_mmap_unlock m) ;;
      call_sys tasklist_read_unlock ;;
      ret r
  | _ => ret (to_kill, tkc)
  end.

Definition collect_procs (page : page_ptr) (tokill : list struct_to_kill)
  : M (list struct_to_kill) :=
  emit (Ev_enter_collect_procs page) ;;
  m <- gets (fun s => mapping (mem_map s page)) ;;
  match m with
  | MAPPING_NULL => ret tokill
  | _ =>
      tk <- kmalloc GFP_NOIO ;;
      if negb tk then ret tokill
      else
        anon <- gets (PageAnon page) ;;
        r <- (if anon then collect_procs_anon page tokill true
              else collect_procs_file page tokill true) ;;
        kfree (snd r) ;;
        ret (fst r)
  end.

(** *** Killing the collected processes *)

Definition kill_proc_ao (t : task_struct) (addr trapno : Z) (pfn : N)
  : M Z :=
  printk "KERN_ERR"
    "MCE %#lx: Killing %s:%d early due to hardware memory corruption\n"
    [Arg_num (Z.of_N pfn); Arg_str (comm t); Arg_num (pid t)] ;;
  let si := mksiginfo SIGBUS 0 BUS_MCEERR_AO addr trapno (PAGE_SHIFT C) in
  r <- call_sys (send_sig_info SIGBUS si (tid t)) ;;
  (if r <? 0 then
     printk "KERN_INFO" "MCE: Error sending signal to %s:%d: %d\n"
            [Arg_str (comm t); Arg_num (pid t); Arg_num r]
   else ret tt) ;;
  ret r.

(** The list head is a parameter that the caller reads after the call, so
    the result is what the head links when the function returns. The body
    of list_for_each_entry_safe drops the task reference and frees the
    entry; it has no list_del, so every entry, freed, is still linked. *)
Fixpoint kill_procs_ao (to_kill : list struct_to_kill) (doit : bool) (trapno : Z)
  (fail : bool) (pfn : N) : M (list struct_to_kill) :=
  match to_kill with
  | [] => ret []
  | tk :: next =>
      (if doit then
         if fail || negb (addr_valid tk) then
           printk "KERN_ERR"
  "MCE %#lx: forcibly killing %s:%d because of failure to unmap corrupted page\n"
             [Arg_num (Z.of_N pfn); Arg_str (comm (tsk tk));
              Arg_num (pid (tsk tk))] ;;
           call_sys (force_sig SIGKILL (tid (tsk tk))) ;;
           ret tt
         else
           r <- kill_proc_ao (tsk tk) (addr tk) trapno pfn ;;
           if r <? 0 then
             printk "KERN_ERR"
  "MCE %#lx: Cannot send advisory machine check signal to %s:%d\n"
               [Arg_num (Z.of_N pfn); Arg_str (comm (tsk tk));
                Arg_num (pid (tsk tk))]
           else ret tt
       else ret tt) ;;
      put_task_struct (tsk tk) ;;
      kfree true ;;
      linked <- kill_procs_ao next doit trapno fail pfn ;;
      ret (tk :: linked)
  end.

(** *** Removing the user space mappings *)

Definition N_UNMAP_TRIES : nat := 5.

Definition TTU_UNMAP : Z := 0.
Definition TTU_IGNORE_MLOCK : Z := Z.shiftl 1 8.
Definition TTU_IGNORE_ACCESS : Z := Z.shiftl 1 9.
Definition TTU_IGNORE_HWPOISON : Z := Z.shiftl 1 10.

(** The retry loop; [r0] is the value of [ret] before the iteration (it is
    assigned in the first one). *)
Fixpoint unmap_loop (tries : nat) (r0 : Z) (p : page_ptr) (pfn : N) (ttu : Z)
  : M Z :=
  match tries with
  | O => ret r0
  | S tries' =>
      r <- call_mm (try_to_unmap p ttu) ;;
      if r =? SWAP_SUCCESS then ret r
      else
        pr_debug "MCE %#lx: try_to_unmap retry needed %d\n"
                 [Arg_num (Z.of_N pfn); Arg_num r] ;;
        unmap_loop tries' r p pfn ttu
  end.

(** Propagation of the dirty bit from the PTEs to the page: the new values
    of [kill] and [ttu]. *)
Definition propagate_dirty (p : page_ptr) (pfn : N) (ttu : Z)
  : M (bool * Z) :=
  m <- gets (page_mapping p) ;;
  d <- gets (PageDirty p) ;;
  match m with
  | Some m =>
      cap <- gets (fun s => mapping_cap_writeback_dirty K (the_world s) m) ;;
      if negb d && cap then
        r <- call_mm (page_mkclean p) ;;
        if negb (r =? 0) then SetPageDirty p ;; ret (true, ttu)
        else
          printk "KERN_INFO"
  "MCE %#lx: corrupted page was clean: dropped without side effects\n"
            [Arg_num (Z.of_N pfn)] ;;
          ret (false, Z.lor ttu TTU_IGNORE_HWPOISON)
      else ret (true, ttu)
  | None => ret (true, ttu)
  end.

(** The statements after the three early returns, from the swap-cache test
    on, given the values of [kill] and [ttu] after the propagation. *)
Definition unmap_and_kill (p : page_ptr) (pfn : N) (trapno : Z)
  (kill : bool) (ttu : Z) : M Z :=
  tokill <- (if kill then collect_procs p [] else ret []) ;;
  r <- unmap_loop N_UNMAP_TRIES 0 p pfn ttu ;;
  (if negb (r =? SWAP_SUCCESS) then
     mc <- gets (page_mapcount p) ;;
     printk "KERN_ERR" "MCE %#lx: failed to unmap page (mapcount=%d)\n"
            [Arg_num (Z.of_N pfn); Arg_num mc]
   else ret tt) ;;
  d <- gets (PageDirty p) ;;
  kill_procs_ao tokill d trapno (negb (r =? SWAP_SUCCESS)) pfn ;;
  ret r.

Definition hwpoison_user_mappings (p : page_ptr) (pfn : N) (trapno : Z)
  : M Z :=
  kernel_owned <- gets (fun s => PageReserved p s || PageSlab p s) ;;
  if kernel_owned then ret SWAP_SUCCESS
  else
    mapped <- gets (page_mapped p) ;;
    if negb mapped then ret SWAP_SUCCESS
    else
      unsupported <- gets (fun s => PageCompound p s || PageKsm p s) ;;
      if unsupported then ret SWAP_FAIL
      else
        let ttu := Z.lor (Z.lor TTU_UNMAP TTU_IGNORE_MLOCK) TTU_IGNORE_ACCESS in
        in_sc <- gets (PageSwapCache p) ;;
        ttu <- (if in_sc then
                  printk "KERN_ERR"
                    "MCE %#lx: keeping poisoned page in swap cache\n"
                    [Arg_num (Z.of_N pfn)] ;;
                  ret (Z.lor ttu TTU_IGNORE_HWPOISON)
                else ret ttu) ;;
        kt <- propagate_dirty p pfn ttu ;;
        unmap_and_kill p pfn trapno (fst kt) (snd kt).

(** The flags handed to try_to_unmap before the propagation step: the
    swap-cache test of [hwpoison_user_mappings]. *)
Definition unmap_flags (p : page_ptr) (pfn : N) : M Z :=
  let ttu := Z.lor (Z.lor TTU_UNMAP TTU_IGNORE_MLOCK) TTU_IGNORE_ACCESS in
  in_sc <- gets (PageSwapCache p) ;;
  if in_sc then
    printk "KERN_ERR" "MCE %#lx: keeping poisoned page in swap cache\n"
           [Arg_num (Z.of_N pfn)] ;;
    ret (Z.lor ttu TTU_IGNORE_HWPOISON)
  else ret ttu.

(** The values of [kill] and [ttu] after the propagation step, and the
    state it leaves. *)
Definition after_propagation (p : page_ptr) (pfn : N) (s : state)
  : (bool * Z) * state :=
  propagate_dirty p pfn (fst (unmap_flags p pfn s))
    (snd (unmap_flags p pfn s)).

(** The run of [hwpoison_user_mappings] past its three early returns, cut
    just before the kill step: the notify list that was collected, the
    result of the unmap loop, and the state in which [kill_procs_ao] is
    called. *)
Definition before_kill (p : page_ptr) (pfn : N) (s : state)
  : list struct_to_kill * Z * state :=
  let kt := after_propagation p pfn s in
  let c := (if fst (fst kt) then collect_procs p [] else ret [])
             (snd kt) in
  let u := unmap_loop N_UNMAP_TRIES 0 p pfn (snd (fst kt)) (snd c) in
  let w := (if negb (fst u =? SWAP_SUCCESS) then
              mc <- gets (page_mapcount p) ;;
              printk "KERN_ERR"
                "MCE %#lx: failed to unmap page (mapcount=%d)\n"
                [Arg_num (Z.of_N pfn); Arg_num mc]
            else ret tt) (snd u) in
  (fst c, fst u, snd w).

(** *** Reading the trace *)

Definition signal_of (e : event) : list (delivery * signal * N) :=
  match e with
  | Ev_call (send_sig_info sig _ t) => [(Advisory, sig, t)]
  | Ev_call (force_sig sig t) => [(Forced, sig, t)]
  | _ => []
  end.

(** The signals requested so far, oldest first: how each was sent (the
    catchable send_sig_info or the uncatchable force_sig), which signal, and
    to which task. *)
Definition signals (t : list event) : list (delivery * signal * N) :=
  flat_map signal_of t.

Definition forced_kill (tk : struct_to_kill) : delivery * signal * N :=
  (Forced, SIGKILL, tid (tsk tk)).

Definition is_still_referenced (e : event) : bool :=
  match e with
  | Ev_printk _ fmt _ => String.eqb fmt still_referenced_fmt
  | _ => false
  end.

Definition is_collect (e : event) : bool :=
  match e with
  | Ev_enter_collect_procs _ => true
  | _ => false
  end.

Definition collector_runs (t : list event) : nat :=
  List.length (filter is_collect t).

Definition is_evacuation (e : event) : bool :=
  match e with
  | Ev_call (invalidate_inode_page _) => true
  | Ev_call (migrate_pages _) => true
  | _ => false
  end.

Definition evacuations (t : list event) : nat :=
  List.length (filter is_evacuation t).

Definition sleep_lock_of (e : event) : Z :=
  match e with
  | Ev_call lock_system_sleep => 1
  | Ev_call unlock_system_sleep => -1
  | _ => 0
  end.

(** How many times the system sleep lock is held after a trace. *)
Definition sleep_locks_held (t : list event) : Z :=
  fold_right (fun e n => sleep_lock_of e + n) 0 t.

Definition isolation_of (p : page_ptr) (e : event) : Z :=
  match e with
  | Ev_call (set_migratetype_isolate q) => if N.eqb q p then 1 else 0
  | Ev_call (unset_migratetype_isolate q) => if N.eqb q p then -1 else 0
  | _ => 0
  end.

(** How many isolations of the page block of [p] are outstanding. *)
Definition isolations_held (p : page_ptr) (t : list event) : Z :=
  fold_right (fun e n => isolation_of p e + n) 0 t.

Definition is_printk (e : event) : Prop :=
  match e with
  | Ev_printk _ _ _ => True
  | _ => False
  end.

(** The signal, if any, that the kill step sends for one entry. *)
Definition signal_for (doit fail : bool) (tk : struct_to_kill)
  : list (delivery * signal * N) :=
  if doit then
    if fail || negb (addr_valid tk) then [forced_kill tk]
    else [(Advisory, SIGBUS, tid (tsk tk))]
  else [].

(** How many entries of a notify list name the task [t]. *)
Definition entries_of (t : N) (to_kill : list struct_to_kill) : nat :=
  count_occ N.eq_dec (map (fun tk => tid (tsk tk)) to_kill) t.

Definition is_kfree (e : event) : bool :=
  match e with
  | Ev_call kfree_to_kill => true
  | _ => false
  end.

(** How many notify entries have been handed back to the allocator. *)
Definition kfree_calls (t : list event) : nat :=
  List.length (filter is_kfree t).


(** [m] keeps the observation [f]: whatever the state it runs in, [f] reads
    the same after it. *)
Definition keeps {X A : Type} (f : state -> X) (m : M A) : Prop :=
  forall s, f (snd (m s)) = f s.

Definition is_try_to_unmap (e : event) : bool :=
  match e with
  | Ev_call (try_to_unmap _ _) => true
  | _ => false
  end.

(** How many times try_to_unmap has been called. *)
Definition unmap_calls (t : list event) : nat :=
  List.length (filter is_try_to_unmap t).

(** The test of one round of the scan of is_free_buddy_page__clone: the
    block of order [order] that contains [page] is headed by a buddy page of
    at least that order. *)
Definition buddy_covers (order : nat) (page : page_ptr) (s : state) : bool :=
  let page_head :=
    (page - N.land (page_to_pfn page) (N.shiftl 1 (N.of_nat order) - 1))%N in
  PageBuddy page_head s && (N.of_nat order <=? page_order page_head s)%N.

(** The notify entries that are neither on the list nor in the
    preallocated slot: live entries minus the entries of the list minus the
    slot when it is filled. The collector keeps this number. *)
Definition notify_balance (acc : list struct_to_kill * bool) (s : state) : Z :=
  to_kill_live s - Z.of_nat (List.length (fst acc))
  - (if snd acc then 1 else 0).

(** A task the collector may put on the list: it has an address space, and
    if it chose a policy of its own (PF_MCE_PROCESS), that policy is early
    kill (PF_MCE_EARLY). *)
Definition may_notify (t : task_struct) : Prop :=
  mm t <> None
  /\ (Z.land (tflags t) (PF_MCE_PROCESS C) <> 0 ->
      Z.land (tflags t) (PF_MCE_EARLY C) <> 0).

(** [r] is the result of a collecting step started from the list and slot
    [acc] in state [s]: the list grew at its tail by entries for tasks in
    [Q], and the balance of notify entries is the same. *)
Definition grows (Q : task_struct -> Prop)
  (acc : list struct_to_kill * bool) (s : state)
  (r : (list struct_to_kill * bool) * state) : Prop :=
  (exists new, fst (fst r) = fst acc ++ new
               /\ Forall (fun tk => Q (tsk tk)) new)
  /\ notify_balance (fst r) (snd r) = notify_balance acc s.

(** The calls that soft offline makes to services that may change page
    descriptors. *)
Definition so_mm_call (c : kcall) : bool :=
  match c with
  | lru_add_drain_all | drain_all_pages | shrink_slab _ _ _
  | put_compound_page _ | __put_single_page _
  | lock_page _ | unlock_page _ | wait_on_page_writeback _
  | invalidate_inode_page _ | isolate_lru_page _ | migrate_pages _ => true
  | _ => false
  end.

Definition page_lock_of (p : page_ptr) (e : event) : Z :=
  match e with
  | Ev_call (lock_page q) => if N.eqb q p then 1 else 0
  | Ev_call (lock_page_nosync q) => if N.eqb q p then 1 else 0
  | Ev_call (unlock_page q) => if N.eqb q p then -1 else 0
  | _ => 0
  end.

(** How many times the lock of page [p] is held after a trace. *)
Definition page_locks_held (p : page_ptr) (t : list event) : Z :=
  fold_right (fun e n => page_lock_of p e + n) 0 t.

(** The calls of [so_mm_call] other than taking and releasing a page
    lock. *)
Definition so_unlocked_call (c : kcall) : bool :=
  match c with
  | lock_page _ | unlock_page _ => false
  | _ => so_mm_call c
  end.

(** The calls that page_action and the handlers make to services that may
    change page descriptors. *)
Definition me_mm_call (c : kcall) : bool :=
  match c with
  | isolate_lru_page _ | put_compound_page _ | __put_single_page _
  | delete_from_swap_cache _ | error_remove_page _ _
  | try_to_release_page _ _ | mapping_set_error _ _
  | invalidate_inode_page _ => true
  | _ => false
  end.

(** Every result of a computation satisfies [P]. *)
Definition yields {A : Type} (P : A -> Prop) (m : M A) : Prop :=
  forall s, P (fst (m s)).

(** The outcomes that the return statements of each handler name. *)
Definition possible_outcomes (h : handler) : list outcome :=
  match h with
  | fn_me_kernel => [IGNORED]
  | fn_me_unknown => [FAILED]
  | fn_me_huge_page => [FAILED]
  | fn_me_pagecache_clean => [RECOVERED; FAILED]
  | fn_me_pagecache_dirty => [RECOVERED; FAILED]
  | fn_me_swapcache_dirty => [DELAYED; FAILED]
  | fn_me_swapcache_clean => [RECOVERED; FAILED]
  end.

(** What shake_page__clone reads in [int nr] after a call of shrink_slab is
    never more than ten. *)
Definition shrink_slab_quiet : Prop :=
  forall m w,
    int_of (fst (fst (kernel K (shrink_slab 1000 GFP_KERNEL 1000) m w))) <= 10.

End Engine.

(** ** A sample kernel

    A configuration and an oracle to run the engine on: the page-flag
    numbering of 2.6.34 with extended page flags, and collaborators that
    behave as mm/ does in the simple cases. isolate_lru_page takes a
    reference and clears PG_lru; invalidate_inode_page drops a clean file
    page from the page cache together with the reference of the cache;
    migrate_pages moves the content away and drops the references of the
    cache and of the isolation; try_to_unmap loses against a racing mapper;
    one process, which asked for early kill, maps every page. *)

Definition sample_config : config :=
  {| PG_error := 1; PG_uptodate := 3; PG_dirty := 4; PG_lru := 5;
     PG_active := 6; PG_slab := 7; PG_reserved := 10; PG_private := 11;
     PG_private_2 := 12; PG_head := 14; PG_tail := 15; PG_compound := 14;
     PG_swapcache := 16; PG_buddy := 19; PG_unevictable := 21;
     PG_mlocked := 22; PG_hwpoison := 24;
     CONFIG_PAGEFLAGS_EXTENDED := true; MAX_ORDER := 11;
     MF_COUNT_INCREASED := 1; PF_MCE_PROCESS := 128;
     PF_MCE_EARLY := 134217728; PAGE_SHIFT := 12; PAGE_CACHE_SHIFT := 12 |}.

Definition drop_from_cache (refs : Z) (pg : page) : page :=
  mkpage (flags pg) (_count pg - refs) (_mapcount pg) (private pg)
         MAPPING_NULL (index pg).

Definition sample_call (c : kcall) (m : mem) (w : unit) : Z * mem * unit :=
  match c with
  | isolate_lru_page p =>
      if N.testbit (flags (m p)) 5
      then (0, upd_page m p (set_count (_count (m p) + 1)
                               (set_flags (N.clearbit (flags (m p)) 5) (m p))),
            w)
      else (- EBUSY, m, w)
  | invalidate_inode_page p =>
      match mapping (m p) with
      | MAPPING_FILE _ =>
          if N.testbit (flags (m p)) 4 then (0, m, w)
          else (1, upd_page m p (drop_from_cache 1 (m p)), w)
      | _ => (0, m, w)
      end
  | migrate_pages [p] => (0, upd_page m p (drop_from_cache 2 (m p)), w)
  | try_to_unmap _ _ => (SWAP_AGAIN, m, w)
  | kmalloc_to_kill _ => (1, m, w)
  | _ => (0, m, w)
  end.

Definition sample_task : task_struct :=
  {| tid := 7; pid := 1234; comm := "db"; mm := Some 1%N;
     tflags := 134217856 |}.

Definition sample_vma : vm_area_struct := {| vma_id := 1; vm_mm := 1 |}.

Definition sample_kernel : kernel_api unit :=
  {| kernel := sample_call;
     compound_head := fun _ p => p;
     pfn_valid := fun pfn => (pfn <? 1024)%N;
     mapping_cap_writeback_dirty := fun _ _ => true;
     has_error_remove_page := fun _ _ => false;
     for_each_process := fun _ => [sample_task];
     sysctl_memory_failure_early_kill := fun _ => 0;
     page_lock_anon_vma := fun _ _ _ => Some [sample_vma];
     vma_prio_tree := fun _ _ _ => [sample_vma];
     page_mapped_in_vma := fun _ _ _ _ => true;
     page_address_in_vma := fun _ _ _ _ => 139637976731648 |}.

Definition free_page : page :=
  {| flags := 0; _count := 0; _mapcount := -1; private := 0;
     mapping := MAPPING_NULL; index := 0 |}.

(** A memory whose frame 8 holds [pg]; the other frames are unused. *)
Definition sample_mem (pg : page) : mem :=
  fun q => if N.eqb q 8 then pg else free_page.

Definition sample_state (pg : page) : state unit :=
  {| mem_map := sample_mem pg; mce_bad_pages := 0;
     task_usage := fun _ => 1; to_kill_live := 0; trace := [];
     the_world := tt |}.

(** A clean page of a file, on the LRU, held by the page cache only. *)
Definition clean_file_page : page :=
  {| flags := N.shiftl 1 5; _count := 1; _mapcount := -1; private := 0;
     mapping := MAPPING_FILE 3; index := 0 |}.

(** The same page, dirty: invalidation refuses it, migration takes it. *)
Definition dirty_file_page : page :=
  {| flags := N.lor (N.shiftl 1 5) (N.shiftl 1 4); _count := 1;
     _mapcount := -1; private := 0; mapping := MAPPING_FILE 3; index := 0 |}.

(** A clean file page mapped by one process. *)
Definition mapped_clean_file_page : page :=
  {| flags := N.shiftl 1 5; _count := 2; _mapcount := 0; private := 0;
     mapping := MAPPING_FILE 3; index := 0 |}.

(** A dirty swap-cache page on the LRU with [refs] references. *)
Definition swapcache_dirty_page (refs : Z) : page :=
  {| flags := N.lor (N.lor (N.shiftl 1 16) (N.shiftl 1 4)) (N.shiftl 1 5);
     _count := refs; _mapcount := -1; private := 0;
     mapping := MAPPING_ANON 2; index := 0 |}.

(** An anonymous page mapped by one process, clean or dirty. *)
Definition mapped_anon_page (is_dirty : bool) : page :=
  {| flags := if is_dirty then N.lor (N.shiftl 1 5) (N.shiftl 1 4)
              else N.shiftl 1 5;
     _count := 2; _mapcount := 0; private := 0;
     mapping := MAPPING_ANON 2; index := 0 |}.

(** A page of the buddy allocator: free, order 0. *)
Definition buddy_page : page :=
  {| flags := N.shiftl 1 19; _count := 0; _mapcount := -1; private := 0;
     mapping := MAPPING_NULL; index := 0 |}.

(** A reserved kernel page. *)
Definition reserved_page : page :=
  {| flags := N.shiftl 1 10; _count := 1; _mapcount := -1; private := 0;
     mapping := MAPPING_NULL; index := 0 |}.

(** The rule of the table for dirty swap-cache pages, with the masks of the
    sample configuration. *)
Definition swapcache_dirty_rule : page_state :=
  mk_page_state 65552 65552 "swapcache" fn_me_swapcache_dirty.

(** What a run of soft offline returned and the reference count it left on
    frame 8. *)
Definition result_and_count (r : option (Z * state unit)) : option (Z * Z) :=
  option_map (fun rs => (fst rs, _count (mem_map (snd rs) 8%N))) r.

(** The head page of a huge page, mapped by one process. *)
Definition mapped_huge_page : page :=
  {| flags := N.shiftl 1 14; _count := 2; _mapcount := 0; private := 0;
     mapping := MAPPING_ANON 2; index := 0 |}.

(** A free page that was poisoned, and the state that holds it: one page
    on the ledger. *)
Definition poisoned_free_page : page :=
  {| flags := N.lor (N.shiftl 1 19) (N.shiftl 1 24); _count := 0;
     _mapcount := -1; private := 0; mapping := MAPPING_NULL; index := 0 |}.

Definition poisoned_state : state unit :=
  {| mem_map := sample_mem poisoned_free_page; mce_bad_pages := 1;
     task_usage := fun _ => 1; to_kill_live := 0; trace := [];
     the_world := tt |}.

(** The notify entry for the process of the sample kernel. *)
Definition sample_entry : struct_to_kill :=
  mk_to_kill sample_task 139637976731648 true.

(** The state after the collector has put [sample_entry] on the list: one
    live notify entry, which holds one of the two references on the task. *)
Definition notified_state : state unit :=
  {| mem_map := sample_mem (mapped_anon_page true); mce_bad_pages := 0;
     task_usage := fun _ => 2; to_kill_live := 1; trace := [];
     the_world := tt |}.

(** * Theorems *)

Section Proofs.

Context {world : Type}.
Variable C : config.
Variable K : kernel_api world.

Local Abbreviation state := (state world).

Notation "x <- m ;; k" := (bind m (fun x => k))
  (at level 61, m at next level, right associativity).
Notation "m ;; k" := (bind m (fun _ => k))
  (at level 61, right associativity).

(** ** Arithmetic and bit lemmas *)

Lemma long_of_in_range (z : Z) : LONG_MIN <= z <= LONG_MAX -> long_of z = z.
Proof.
  unfold long_of, wrap, LONG_MIN, LONG_MAX. intros H.
  rewrite Z.mod_small; lia.
Qed.

Lemma int_of_in_range (z : Z) : INT_MIN <= z <= INT_MAX -> int_of z = z.
Proof.
  unfold int_of, wrap, INT_MIN, INT_MAX. intros H.
  rewrite Z.mod_small; lia.
Qed.

Lemma test_bit_mask (f nr : N) :
  test_bit nr f = true -> N.land f (N.shiftl 1 nr) = N.shiftl 1 nr.
Proof.
  unfold test_bit. intros H. rewrite N.shiftl_1_l.
  apply N.bits_inj. intros i.
  rewrite N.land_spec, N.pow2_bits_eqb.
  destruct (N.eqb_spec nr i) as [->|_].
  - now rewrite H.
  - apply andb_false_r.
Qed.

(** ** Frame lemmas: what depends on the page descriptors only *)

Lemma buddy_scan_mem (s1 s2 : state) (n order : nat) (page : page_ptr) (pfn : N) :
  mem_map s1 = mem_map s2 ->
  buddy_scan C n order page pfn s1 = buddy_scan C n order page pfn s2.
Proof.
  intros E. revert order.
  induction n as [|n IH]; intros order; simpl; [reflexivity|].
  unfold PageBuddy, page_flag, page_order. rewrite E, IH. reflexivity.
Qed.

Lemma is_free_buddy_mem (s1 s2 : state) (p : page_ptr) :
  mem_map s1 = mem_map s2 ->
  is_free_buddy_page__clone C p s1 = is_free_buddy_page__clone C p s2.
Proof.
  intros E. unfold is_free_buddy_page__clone.
  now rewrite (buddy_scan_mem s1 s2 _ _ _ _ E).
Qed.

Lemma set_page_flag_test (nr : N) (p : page_ptr) (s : state) :
  page_flag nr p (snd (set_page_flag nr p s)) = true.
Proof.
  unfold page_flag, set_page_flag, modify_page, upd_page, test_bit. simpl.
  rewrite N.eqb_refl. simpl. apply N.setbit_eq.
Qed.

(** ** Safe acquisition *)

(** C9. Called with MF_COUNT_INCREASED set, get_any_page returns 1 at once:
    the state is the one it was called in, so no lock was taken, no page
    block isolated, no poison bit set and no reference count changed. *)
Theorem get_any_page_count_increased (p : page_ptr) (pfn : N) (mf_flags : Z)
  (s : state) :
  Z.land mf_flags (MF_COUNT_INCREASED C) <> 0 ->
  get_any_page C K p pfn mf_flags s = (1, s).
Proof.
  intros H. unfold get_any_page.
  destruct (Z.eqb_spec (Z.land mf_flags (MF_COUNT_INCREASED C)) 0) as [E|_].
  - contradiction.
  - reflexivity.
Qed.

Lemma sleep_locks_held_app (t1 t2 : list event) :
  sleep_locks_held (t1 ++ t2) = sleep_locks_held t1 + sleep_locks_held t2.
Proof.
  unfold sleep_locks_held. induction t1 as [|e t1 IH]; simpl; [reflexivity|].
  rewrite IH. lia.
Qed.

Lemma isolations_held_app (p : page_ptr) (t1 t2 : list event) :
  isolations_held p (t1 ++ t2) = isolations_held p t1 + isolations_held p t2.
Proof.
  unfold isolations_held. induction t1 as [|e t1 IH]; simpl; [reflexivity|].
  rewrite IH. lia.
Qed.

(** C3. Without MF_COUNT_INCREASED, get_any_page has three results, decided
    by the reference count of the head page and by the free-page detector:
    0 with the poison bit set, -EIO with the page descriptors untouched, or
    1 with the count of the head page raised by one. In each case the trace
    grows by lock, isolate, at most a debug message, un-isolate, unlock: the
    isolation and the system sleep lock are released when it returns. *)
Theorem get_any_page_results (p : page_ptr) (pfn : N) (mf_flags : Z)
  (s : state) :
  Z.land mf_flags (MF_COUNT_INCREASED C) = 0 ->
  let hd := compound_head K (mem_map s) p in
  let r := fst (get_any_page C K p pfn mf_flags s) in
  let s' := snd (get_any_page C K p pfn mf_flags s) in
  (_count (mem_map s hd) = 0 -> is_free_buddy_page__clone C p s = true ->
     r = 0 /\ PageHWPoison C p s' = true /\
     forall q, _count (mem_map s' q) = _count (mem_map s q))
  /\ (_count (mem_map s hd) = 0 -> is_free_buddy_page__clone C p s = false ->
     r = - EIO /\ mem_map s' = mem_map s)
  /\ (_count (mem_map s hd) <> 0 ->
     r = 1 /\
     _count (mem_map s' hd) = atomic_inc (_count (mem_map s hd)) /\
     forall q, flags (mem_map s' q) = flags (mem_map s q))
  /\ (r = 0 \/ r = - EIO \/ r = 1)
  /\ (exists dbg,
        trace s' = trace s
                   ++ [Ev_call lock_system_sleep;
                       Ev_call (set_migratetype_isolate p)]
                   ++ dbg
                   ++ [Ev_call (unset_migratetype_isolate p);
                       Ev_call unlock_system_sleep]
        /\ Forall is_printk dbg)
  /\ sleep_locks_held (trace s') = sleep_locks_held (trace s)
  /\ isolations_held p (trace s') = isolations_held p (trace s).
Proof.
  intros H hd r s'. subst r s'. unfold get_any_page.
  rewrite H. simpl.
  unfold bind, ret, gets, call_sys, get_page_unless_zero, pr_debug, printk,
    emit, SetPageHWPoison; simpl.
  fold hd.
  set (s2 := mkstate (mem_map s) (mce_bad_pages s) (task_usage s)
               (to_kill_live s) _ _).
  assert (Efree : is_free_buddy_page__clone C p s2
                  = is_free_buddy_page__clone C p s)
    by (apply is_free_buddy_mem; reflexivity).
  destruct (Z.eqb_spec (_count (mem_map s hd)) 0) as [Ez|Enz]; simpl.
  - rewrite Efree.
    destruct (is_free_buddy_page__clone C p s) eqn:Ef; simpl.
    + refine (conj _ (conj _ (conj _ (conj _ (conj _ (conj _ _)))))).
      * intros _ _. split; [reflexivity|]. split.
        -- unfold PageHWPoison, page_flag, upd_page, test_bit.
           simpl. rewrite N.eqb_refl. simpl. apply N.setbit_eq.
        -- intros q. unfold upd_page. simpl.
           destruct (N.eqb_spec q p) as [->|]; reflexivity.
      * intros _ Hf. discriminate Hf.
      * intros Hc. contradiction.
      * now left.
      * eexists [_]. split.
        -- rewrite <- !app_assoc. simpl. reflexivity.
        -- repeat constructor.
      * rewrite !sleep_locks_held_app. simpl. lia.
      * rewrite !isolations_held_app. simpl. rewrite N.eqb_refl. lia.
    + refine (conj _ (conj _ (conj _ (conj _ (conj _ (conj _ _)))))).
      * intros _ Hf. discriminate Hf.
      * intros _ _. split; reflexivity.
      * intros Hc. contradiction.
      * right. now left.
      * eexists [_]. split.
        -- rewrite <- !app_assoc. simpl. reflexivity.
        -- repeat constructor.
      * rewrite !sleep_locks_held_app. simpl. lia.
      * rewrite !isolations_held_app. simpl. rewrite N.eqb_refl. lia.
  - refine (conj _ (conj _ (conj _ (conj _ (conj _ (conj _ _)))))).
    + intros Hc. contradiction.
    + intros Hc. contradiction.
    + intros _. split; [reflexivity|]. split.
      * unfold upd_page. simpl. now rewrite N.eqb_refl.
      * intros q. unfold upd_page. simpl.
        destruct (N.eqb_spec q hd) as [->|]; reflexivity.
    + right. now right.
    + exists []. split.
      * rewrite <- !app_assoc. simpl. reflexivity.
      * constructor.
    + rewrite !sleep_locks_held_app. simpl. lia.
    + rewrite !isolations_held_app. simpl. rewrite N.eqb_refl. lia.
Qed.

(** ** Unpoison *)

(** C7. On a valid frame whose page is not marked poisoned, unpoison
    returns 0 and changes neither the ledger nor any page descriptor (so the
    poison bit stays clear and every reference count is as before); all it
    does is emit a debug message. *)
Theorem unpoison_not_poisoned (pfn : N) (s : state) :
  pfn_valid K pfn = true ->
  PageHWPoison C (pfn_to_page pfn) s = false ->
  let r := fst (unpoison_memory__clone C K pfn s) in
  let s' := snd (unpoison_memory__clone C K pfn s) in
  r = 0
  /\ mce_bad_pages s' = mce_bad_pages s
  /\ mem_map s' = mem_map s
  /\ PageHWPoison C (pfn_to_page pfn) s' = false
  /\ page_count K (pfn_to_page pfn) s' = page_count K (pfn_to_page pfn) s
  /\ task_usage s' = task_usage s
  /\ the_world s' = the_world s
  /\ signals (trace s') = signals (trace s).
Proof.
  intros Hv Hp r s'. subst r s'. unfold unpoison_memory__clone.
  rewrite Hv. simpl. unfold bind, gets. simpl. rewrite Hp. simpl.
  unfold pr_debug, printk, emit, ret. simpl.
  repeat split.
  - exact Hp.
  - unfold signals. rewrite flat_map_app. simpl. apply app_nil_r.
Qed.

(** ** The table and the dispatcher *)

Lemma first_match_kernel (f : N) :
  test_bit (PG_reserved C) f = true \/ test_bit (PG_slab C) f = true ->
  exists ps, first_match (error_states C) f = Some ps
             /\ action ps = fn_me_kernel.
Proof.
  intros H. unfold error_states. simpl.
  destruct (N.land f (reserved C) =? reserved C)%N eqn:Er.
  - eexists. split; reflexivity.
  - assert (Hs : test_bit (PG_slab C) f = true).
    { destruct H as [H|H]; [|exact H].
      apply test_bit_mask in H. unfold reserved in Er.
      rewrite H, N.eqb_refl in Er. discriminate. }
    apply test_bit_mask in Hs. unfold slab. rewrite Hs, N.eqb_refl.
    eexists. split; reflexivity.
Qed.

(** C8. For a page with the reserved or the slab bit set, the first rule of
    the table that matches carries me_kernel; that handler returns IGNORED
    in the state it was called in; and the dispatch of the rule changes no
    page descriptor (no flag, no count, no mapping) and reports -EBUSY. *)
Theorem kernel_pages_ignored (p : page_ptr) (pfn : N) (s : state) :
  PageReserved C p s = true \/ PageSlab C p s = true ->
  exists ps,
    first_match (error_states C) (flags (mem_map s p)) = Some ps
    /\ action ps = fn_me_kernel
    /\ call_handler C K (action ps) p pfn s = (IGNORED, s)
    /\ exists s',
         classify_and_dispatch C K p pfn s = Some (- EBUSY, s')
         /\ mem_map s' = mem_map s
         /\ mce_bad_pages s' = mce_bad_pages s
         /\ the_world s' = the_world s.
Proof.
  intros H.
  destruct (first_match_kernel (flags (mem_map s p)) H) as [ps [Hm Ha]].
  exists ps. split; [exact Hm|]. split; [exact Ha|].
  split; [rewrite Ha; reflexivity|].
  unfold classify_and_dispatch. rewrite Hm.
  unfold page_action. rewrite Ha. simpl.
  unfold bind, me_kernel, ret, action_result, gets, printk, emit. simpl.
  match goal with
  | |- context [negb (?c =? 0)] => destruct (negb (c =? 0))
  end; simpl; eexists; (split; [reflexivity|]); simpl; auto.
Qed.

Lemma action_result_mem (pfn : N) (m : string) (o : outcome) (s : state) :
  mem_map (snd (action_result C pfn m o s)) = mem_map s.
Proof. reflexivity. Qed.

Lemma page_action_steps (ps : page_state) (p : page_ptr) (pfn : N)
  (s : state) :
  let a := call_handler C K (action ps) p pfn s in
  let s2 := snd (action_result C pfn (msg ps) (fst a) (snd a)) in
  let count0 := int_of (page_count K p s2 - 1) in
  let count :=
    if handler_eqb (action ps) fn_me_swapcache_dirty
       && outcome_eqb (fst a) DELAYED
    then int_of (count0 - 1) else count0 in
  page_action C K ps p pfn s
  = if negb (count =? 0)
    then (- EBUSY,
          snd (printk "KERN_ERR" still_referenced_fmt
                 [Arg_num (Z.of_N pfn); Arg_str (msg ps); Arg_num count] s2))
    else (if outcome_eqb (fst a) RECOVERED || outcome_eqb (fst a) DELAYED
          then 0 else - EBUSY, s2).
Proof.
  intros a s2 count0 count. unfold page_action, bind, gets.
  cbn beta iota delta [fst snd]. fold a. fold s2. fold count0. fold count.
  destruct (negb (count =? 0)); reflexivity.
Qed.

(** C1, as amended. For a rule that carries me_swapcache_dirty whose
    handler returned DELAYED: with three references left on the page (the
    one of the caller, the one of the swap cache and one more) the
    dispatcher counts one user left, logs it and returns -EBUSY; with two
    references left it counts none, logs nothing more and returns 0. *)
Theorem page_action_swapcache_dirty (ps : page_state) (p : page_ptr)
  (pfn : N) (s : state) :
  action ps = fn_me_swapcache_dirty ->
  fst (me_swapcache_dirty C K p pfn s) = DELAYED ->
  let s1 := snd (me_swapcache_dirty C K p pfn s) in
  let s2 := snd (action_result C pfn (msg ps) DELAYED s1) in
  let r := fst (page_action C K ps p pfn s) in
  let s' := snd (page_action C K ps p pfn s) in
  (page_count K p s1 = 3 ->
     r = - EBUSY
     /\ trace s' = trace s2
                   ++ [Ev_printk "KERN_ERR" still_referenced_fmt
                         [Arg_num (Z.of_N pfn); Arg_str (msg ps); Arg_num 1]])
  /\ (page_count K p s1 = 2 -> r = 0 /\ s' = s2).
Proof.
  intros Ha Hd s1 s2 r s'. subst r s'.
  rewrite page_action_steps. rewrite Ha.
  change (call_handler C K fn_me_swapcache_dirty p pfn s)
    with (me_swapcache_dirty C K p pfn s).
  rewrite Hd. fold s1. fold s2.
  cbn [handler_eqb outcome_eqb andb orb].
  assert (Hc : page_count K p s2 = page_count K p s1) by reflexivity.
  rewrite Hc.
  split; intros E; rewrite E.
  - replace (int_of (int_of (3 - 1) - 1)) with 1
      by (vm_compute; reflexivity).
    cbn [Z.eqb negb fst snd]. split; reflexivity.
  - replace (int_of (int_of (2 - 1) - 1)) with 0
      by (vm_compute; reflexivity).
    cbn [Z.eqb negb fst snd]. split; reflexivity.
Qed.

(** ** The kill step *)

Lemma signals_app (t1 t2 : list event) :
  signals (t1 ++ t2) = signals t1 ++ signals t2.
Proof. unfold signals. apply flat_map_app. Qed.

Lemma signals_snoc_printk (t : list event) (l f : string)
  (a : list printk_arg) :
  signals (t ++ [Ev_printk l f a]) = signals t.
Proof. rewrite signals_app. simpl. apply app_nil_r. Qed.

Lemma kfree_calls_app (t1 t2 : list event) :
  kfree_calls (t1 ++ t2) = (kfree_calls t1 + kfree_calls t2)%nat.
Proof. unfold kfree_calls. now rewrite filter_app, length_app. Qed.

Lemma bind_eq {A B : Type} (m : state -> A * state)
  (k : A -> state -> B * state) (s : state) :
  bind m k s = k (fst (m s)) (snd (m s)).
Proof. reflexivity. Qed.

(** One step into a sequence: the first computation runs, the rest is
    applied to its result and state. *)
Ltac bind_step := rewrite bind_eq; cbv beta.

Lemma put_task_struct_spec (t : task_struct) (s : state) :
  let s' := snd (put_task_struct K t s) in
  signals (trace s') = signals (trace s)
  /\ to_kill_live s' = to_kill_live s
  /\ kfree_calls (trace s') = kfree_calls (trace s)
  /\ mem_map s' = mem_map s
  /\ mce_bad_pages s' = mce_bad_pages s
  /\ (forall x, task_usage s' x
                = if N.eqb x (tid t) then atomic_dec (task_usage s x)
                  else task_usage s x).
Proof.
  cbv zeta. unfold put_task_struct, bind, gets, ret. cbn [fst snd].
  match goal with
  | |- context [if ?c =? 0 then _ else _] => destruct (c =? 0)
  end; unfold call_sys; cbn [fst snd trace to_kill_live mem_map mce_bad_pages
                              task_usage];
    rewrite ?signals_app, ?kfree_calls_app; cbn; rewrite ?app_nil_r;
    repeat split; lia.
Qed.

Lemma kfree_true_spec (s : state) :
  let s' := snd (kfree K true s) in
  signals (trace s') = signals (trace s)
  /\ to_kill_live s' = to_kill_live s - 1
  /\ kfree_calls (trace s') = S (kfree_calls (trace s))
  /\ mem_map s' = mem_map s
  /\ mce_bad_pages s' = mce_bad_pages s
  /\ task_usage s' = task_usage s.
Proof.
  cbv zeta. unfold kfree, bind, call_sys, add_to_kill_live.
  cbn [fst snd trace to_kill_live mem_map mce_bad_pages task_usage].
  rewrite signals_app, kfree_calls_app. cbn. rewrite app_nil_r.
  repeat split; lia.
Qed.

Lemma kill_proc_ao_spec (t : task_struct) (a trapno : Z) (pfn : N)
  (s : state) :
  let s' := snd (kill_proc_ao C K t a trapno pfn s) in
  signals (trace s') = signals (trace s) ++ [(Advisory, SIGBUS, tid t)]
  /\ to_kill_live s' = to_kill_live s
  /\ kfree_calls (trace s') = kfree_calls (trace s)
  /\ mem_map s' = mem_map s
  /\ mce_bad_pages s' = mce_bad_pages s
  /\ task_usage s' = task_usage s.
Proof.
  cbv zeta. unfold kill_proc_ao, bind, ret, printk, emit, call_sys.
  cbn [fst snd trace to_kill_live mem_map mce_bad_pages task_usage the_world].
  match goal with
  | |- context [if ?c <? 0 then _ else _] => destruct (c <? 0)
  end; cbn [fst snd trace to_kill_live mem_map mce_bad_pages task_usage];
    rewrite ?signals_app, ?kfree_calls_app; cbn; rewrite ?app_nil_r;
    repeat split; lia.
Qed.

Lemma kill_procs_ao_cons (tk : struct_to_kill) (next : list struct_to_kill)
  (doit : bool) (trapno : Z) (fail : bool) (pfn : N) (s : state) :
  exists s1 : state,
    snd (kill_procs_ao C K (tk :: next) doit trapno fail pfn s)
    = snd (kill_procs_ao C K next doit trapno fail pfn s1)
    /\ signals (trace s1) = signals (trace s) ++ signal_for doit fail tk
    /\ to_kill_live s1 = to_kill_live s - 1
    /\ kfree_calls (trace s1) = S (kfree_calls (trace s))
    /\ mem_map s1 = mem_map s
    /\ mce_bad_pages s1 = mce_bad_pages s
    /\ (forall t, task_usage s1 t
                  = if N.eqb t (tid (tsk tk)) then atomic_dec (task_usage s t)
                    else task_usage s t).
Proof.
  cbn [kill_procs_ao].
  unfold bind at 1.
  match goal with
  | |- context [snd ((if doit then ?x else ?y) s)] =>
      set (b := snd ((if doit then x else y) s))
  end.
  assert (Hb : signals (trace b) = signals (trace s) ++ signal_for doit fail tk
               /\ to_kill_live b = to_kill_live s
               /\ kfree_calls (trace b) = kfree_calls (trace s)
               /\ mem_map b = mem_map s
               /\ mce_bad_pages b = mce_bad_pages s
               /\ task_usage b = task_usage s).
  { subst b. unfold signal_for.
    destruct doit; [destruct (fail || negb (addr_valid tk))|].
    - unfold bind, ret, printk, emit, call_sys.
      cbn [fst snd trace to_kill_live mem_map mce_bad_pages task_usage].
      rewrite !signals_app, !kfree_calls_app. cbn. rewrite app_nil_r.
      repeat split; lia.
    - rewrite bind_eq.
      pose proof (kill_proc_ao_spec (tsk tk) (addr tk) trapno pfn s) as H.
      cbv zeta in H.
      destruct (fst (kill_proc_ao C K (tsk tk) (addr tk) trapno pfn s) <? 0).
      + unfold printk, emit.
        cbn [fst snd trace to_kill_live mem_map mce_bad_pages task_usage].
        rewrite signals_app, kfree_calls_app. cbn. rewrite app_nil_r.
        rewrite Nat.add_0_r. exact H.
      + exact H.
    - cbn. rewrite app_nil_r. repeat split. }
  unfold bind at 1.
  set (s2 := snd (put_task_struct K (tsk tk) b)).
  pose proof (put_task_struct_spec (tsk tk) b) as H2. cbv zeta in H2.
  fold s2 in H2.
  unfold bind at 1.
  set (s3 := snd (kfree K true s2)).
  pose proof (kfree_true_spec s2) as H3. cbv zeta in H3. fold s3 in H3.
  exists s3. split; [reflexivity|].
  destruct Hb as [B1 [B2 [B3 [B4 [B5 B6]]]]].
  destruct H2 as [P1 [P2 [P3 [P4 [P5 P6]]]]].
  destruct H3 as [F1 [F2 [F3 [F4 [F5 F6]]]]].
  repeat split; try congruence; try lia.
  intros t. rewrite F6, P6, B6. reflexivity.
Qed.

Lemma kill_procs_ao_signals (to_kill : list struct_to_kill) (doit : bool)
  (trapno : Z) (fail : bool) (pfn : N) (s : state) :
  signals (trace (snd (kill_procs_ao C K to_kill doit trapno fail pfn s)))
  = signals (trace s) ++ flat_map (signal_for doit fail) to_kill.
Proof.
  revert s. induction to_kill as [|tk next IH]; intros s.
  - simpl. now rewrite app_nil_r.
  - destruct (kill_procs_ao_cons tk next doit trapno fail pfn s)
      as [s1 [E [Hs _]]].
    rewrite E, IH, Hs, <- app_assoc. reflexivity.
Qed.

(** The kill step unlinks nothing: the head links the same entries when it
    returns. *)
Lemma kill_procs_ao_links (to_kill : list struct_to_kill) (doit : bool)
  (trapno : Z) (fail : bool) (pfn : N) (s : state) :
  fst (kill_procs_ao C K to_kill doit trapno fail pfn s) = to_kill.
Proof.
  revert s. induction to_kill as [|tk next IH]; intros s.
  - reflexivity.
  - cbn [kill_procs_ao]. do 4 bind_step. unfold ret. cbn [fst].
    f_equal. apply IH.
Qed.

Lemma kill_procs_ao_frees (to_kill : list struct_to_kill) (doit : bool)
  (trapno : Z) (fail : bool) (pfn : N) (s : state) :
  let s' := snd (kill_procs_ao C K to_kill doit trapno fail pfn s) in
  to_kill_live s' = to_kill_live s - Z.of_nat (List.length to_kill)
  /\ kfree_calls (trace s')
     = (kfree_calls (trace s) + List.length to_kill)%nat
  /\ (forall t, task_usage s' t
                = Nat.iter (entries_of t to_kill) atomic_dec (task_usage s t))
  /\ mem_map s' = mem_map s
  /\ mce_bad_pages s' = mce_bad_pages s.
Proof.
  revert s. induction to_kill as [|tk next IH]; intros s; cbv zeta.
  - simpl. repeat split; lia.
  - destruct (kill_procs_ao_cons tk next doit trapno fail pfn s)
      as [s1 [E [_ [Hl [Hk [Hm [Hb Hu]]]]]]].
    rewrite E. destruct (IH s1) as [Il [Ik [Iu [Im Ib]]]].
    repeat split.
    + rewrite Il, Hl. simpl List.length. lia.
    + rewrite Ik, Hk. simpl List.length. lia.
    + intros t. rewrite Iu, Hu. unfold entries_of. simpl map. simpl count_occ.
      destruct (N.eq_dec (tid (tsk tk)) t) as [->|Hne].
      * rewrite N.eqb_refl. now rewrite Nat.iter_succ_r.
      * destruct (N.eqb_spec t (tid (tsk tk))) as [->|_];
          [contradiction|reflexivity].
    + now rewrite Im.
    + now rewrite Ib.
Qed.

(** C10. Whatever [doit] and [fail] are, the kill step goes through the
    whole notify list: the number of live notify entries drops by the length
    of the list (each entry is handed to kfree), and the usage count of each
    task is decremented once for every entry that names it. No entry of the
    list is left allocated or holding a task reference; page descriptors and
    the ledger are not touched. The list is not emptied: no entry is
    unlinked, so when the step returns the head links the same entries, all
    of them freed. *)
Theorem kill_procs_ao_consumes (to_kill : list struct_to_kill) (doit : bool)
  (trapno : Z) (fail : bool) (pfn : N) (s : state) :
  let s' := snd (kill_procs_ao C K to_kill doit trapno fail pfn s) in
  to_kill_live s' = to_kill_live s - Z.of_nat (List.length to_kill)
  /\ kfree_calls (trace s')
     = (kfree_calls (trace s) + List.length to_kill)%nat
  /\ (forall t, task_usage s' t
                = Nat.iter (entries_of t to_kill) atomic_dec (task_usage s t))
  /\ mem_map s' = mem_map s
  /\ mce_bad_pages s' = mce_bad_pages s
  /\ fst (kill_procs_ao C K to_kill doit trapno fail pfn s) = to_kill.
Proof.
  cbv zeta.
  destruct (kill_procs_ao_frees to_kill doit trapno fail pfn s)
    as [Hl [Hk [Hu [Hm Hb]]]].
  repeat split; try assumption.
  apply kill_procs_ao_links.
Qed.

(** ** What a computation keeps *)

Lemma keeps_ret {X A : Type} (f : state -> X) (a : A) : keeps f (ret a).
Proof. intros s. reflexivity. Qed.

Lemma keeps_gets {X A : Type} (f : state -> X) (g : state -> A) :
  keeps f (gets g).
Proof. intros s. reflexivity. Qed.

Lemma keeps_bind {X A B : Type} (f : state -> X) (m : state -> A * state)
  (k : A -> state -> B * state) :
  keeps f m -> (forall a, keeps f (k a)) -> keeps f (bind m k).
Proof.
  intros Hm Hk s. rewrite bind_eq. rewrite (Hk _ _). apply Hm.
Qed.

Lemma keeps_emit {X : Type} (g : list event -> X) (e : event) :
  (forall t, g (t ++ [e]) = g t) ->
  keeps (fun s : state => g (trace s)) (emit e).
Proof. intros H s. apply H. Qed.

Lemma keeps_printk {X : Type} (g : list event -> X) (l f : string)
  (a : list printk_arg) :
  (forall t, g (t ++ [Ev_printk l f a]) = g t) ->
  keeps (fun s : state => g (trace s)) (printk l f a).
Proof. intros H s. apply H. Qed.

Lemma keeps_pr_debug {X : Type} (g : list event -> X) (f : string)
  (a : list printk_arg) :
  (forall t, g (t ++ [Ev_printk "KERN_DEBUG" f a]) = g t) ->
  keeps (fun s : state => g (trace s)) (pr_debug f a).
Proof. intros H s. apply H. Qed.

Lemma keeps_call_sys {X : Type} (g : list event -> X) (c : kcall) :
  (forall t, g (t ++ [Ev_call c]) = g t) ->
  keeps (fun s : state => g (trace s)) (call_sys K c).
Proof. intros H s. apply H. Qed.

Lemma keeps_call_mm {X : Type} (g : list event -> X) (c : kcall) :
  (forall t, g (t ++ [Ev_call c]) = g t) ->
  keeps (fun s : state => g (trace s)) (call_mm K c).
Proof. intros H s. apply H. Qed.

Lemma signals_ignores (e : event) (t : list event) :
  signal_of e = [] -> signals (t ++ [e]) = signals t.
Proof.
  intros H. rewrite signals_app. simpl. rewrite H. simpl. apply app_nil_r.
Qed.

Lemma collector_runs_app (t1 t2 : list event) :
  collector_runs (t1 ++ t2) = (collector_runs t1 + collector_runs t2)%nat.
Proof. unfold collector_runs. now rewrite filter_app, length_app. Qed.

Lemma collector_runs_ignores (e : event) (t : list event) :
  is_collect e = false -> collector_runs (t ++ [e]) = collector_runs t.
Proof.
  intros H. rewrite collector_runs_app. unfold collector_runs at 2. simpl.
  rewrite H. simpl. lia.
Qed.

Lemma kfree_calls_ignores (e : event) (t : list event) :
  is_kfree e = false -> kfree_calls (t ++ [e]) = kfree_calls t.
Proof.
  intros H. rewrite kfree_calls_app. unfold kfree_calls at 2. simpl.
  rewrite H. simpl. lia.
Qed.

Lemma evacuations_app (t1 t2 : list event) :
  evacuations (t1 ++ t2) = (evacuations t1 + evacuations t2)%nat.
Proof. unfold evacuations. now rewrite filter_app, length_app. Qed.

Lemma evacuations_ignores (e : event) (t : list event) :
  is_evacuation e = false -> evacuations (t ++ [e]) = evacuations t.
Proof.
  intros H. rewrite evacuations_app. unfold evacuations at 2. simpl.
  rewrite H. simpl. lia.
Qed.

(** A leaf of a computation: a primitive, settled by computation or by the
    class of the event it appends. *)
Ltac keeps_leaf :=
  first
    [ apply keeps_ret
    | apply keeps_gets
    | solve [intros ?s; reflexivity]
    | apply keeps_printk; intros ?t
    | apply keeps_pr_debug; intros ?t
    | apply keeps_call_sys; intros ?t
    | apply keeps_call_mm; intros ?t
    | apply keeps_emit; intros ?t ];
  try first
    [ apply signals_ignores; reflexivity
    | apply collector_runs_ignores; reflexivity
    | apply kfree_calls_ignores; reflexivity
    | apply evacuations_ignores; reflexivity ].

(** The structure of a computation: binds and branches, down to leaves. *)
Ltac keeps_walk :=
  repeat match goal with
         | |- keeps _ (bind _ _) => apply keeps_bind; [|intros ?a]
         | |- keeps _ (if ?c then _ else _) => destruct c
         | |- keeps _ (match ?x with _ => _ end) => destruct x
         end.

Lemma kmalloc_keeps_signals (gfp : gfp_t) :
  keeps (fun s : state => signals (trace s)) (kmalloc K gfp).
Proof. unfold kmalloc. keeps_walk; keeps_leaf. Qed.

Lemma add_to_kill_keeps_signals (t : task_struct) (p : page_ptr)
  (vma : vm_area_struct) (to_kill : list struct_to_kill) (tkc : bool) :
  keeps (fun s : state => signals (trace s)) (add_to_kill K t p vma to_kill tkc).
Proof.
  unfold add_to_kill. keeps_walk;
    try apply kmalloc_keeps_signals; keeps_leaf.
Qed.

(** ** The collector sends no signal *)

Lemma collect_anon_vmas_keeps_signals (t : task_struct) (page : page_ptr)
  (chain : list vm_area_struct) (acc : list struct_to_kill * bool) :
  keeps (fun s : state => signals (trace s))
        (collect_anon_vmas K t page chain acc).
Proof.
  revert acc. induction chain as [|vma rest IH]; intros acc;
    cbn [collect_anon_vmas].
  - keeps_leaf.
  - keeps_walk; try apply IH; try apply add_to_kill_keeps_signals;
      keeps_leaf.
Qed.

Lemma collect_file_vmas_keeps_signals (t : task_struct) (page : page_ptr)
  (vmas : list vm_area_struct) (acc : list struct_to_kill * bool) :
  keeps (fun s : state => signals (trace s))
        (collect_file_vmas K t page vmas acc).
Proof.
  revert acc. induction vmas as [|vma rest IH]; intros acc;
    cbn [collect_file_vmas].
  - keeps_leaf.
  - keeps_walk; try apply IH; try apply add_to_kill_keeps_signals;
      keeps_leaf.
Qed.

Lemma collect_tasks_keeps {X : Type} (f : state -> X)
  (body : task_struct -> list struct_to_kill * bool
          -> state -> (list struct_to_kill * bool) * state)
  (tasks : list task_struct) (acc : list struct_to_kill * bool) :
  (forall t a, keeps f (body t a)) ->
  keeps f (collect_tasks C K body tasks acc).
Proof.
  intros Hb. revert acc. induction tasks as [|t rest IH]; intros acc;
    cbn [collect_tasks].
  - apply keeps_ret.
  - apply keeps_bind; [apply keeps_gets|intros early].
    destruct (early =? 0); [apply IH|].
    apply keeps_bind; [apply Hb|intros acc']. apply IH.
Qed.

Lemma collect_procs_anon_keeps_signals (page : page_ptr)
  (to_kill : list struct_to_kill) (tkc : bool) :
  keeps (fun s : state => signals (trace s))
        (collect_procs_anon C K page to_kill tkc).
Proof.
  unfold collect_procs_anon. keeps_walk;
    try (apply collect_tasks_keeps; intros;
         apply collect_anon_vmas_keeps_signals);
    keeps_leaf.
Qed.

Lemma collect_procs_file_keeps_signals (page : page_ptr)
  (to_kill : list struct_to_kill) (tkc : bool) :
  keeps (fun s : state => signals (trace s))
        (collect_procs_file C K page to_kill tkc).
Proof.
  unfold collect_procs_file. keeps_walk;
    try (apply collect_tasks_keeps; intros tsk0 acc0 st0;
         exact (collect_file_vmas_keeps_signals _ _ _ _ st0));
    keeps_leaf.
Qed.

Lemma kfree_keeps_signals (present : bool) :
  keeps (fun s : state => signals (trace s)) (kfree K present).
Proof. unfold kfree. keeps_walk; keeps_leaf. Qed.

Lemma collect_procs_keeps_signals (page : page_ptr)
  (tokill : list struct_to_kill) :
  keeps (fun s : state => signals (trace s)) (collect_procs C K page tokill).
Proof.
  unfold collect_procs. keeps_walk;
    try apply kmalloc_keeps_signals;
    try apply collect_procs_anon_keeps_signals;
    try apply collect_procs_file_keeps_signals;
    try apply kfree_keeps_signals;
    keeps_leaf.
Qed.

(** ** The unmap loop and the propagation step *)

Lemma unmap_loop_keeps {X : Type} (f : state -> X) (tries : nat) (r0 : Z)
  (p : page_ptr) (pfn : N) (ttu : Z) :
  keeps f (call_mm K (try_to_unmap p ttu)) ->
  (forall fmt a, keeps f (pr_debug fmt a)) ->
  keeps f (unmap_loop K tries r0 p pfn ttu).
Proof.
  intros Hc Hp. revert r0. induction tries as [|n IH]; intros r0;
    cbn [unmap_loop].
  - apply keeps_ret.
  - apply keeps_bind; [exact Hc|intros r].
    destruct (r =? SWAP_SUCCESS); [apply keeps_ret|].
    apply keeps_bind; [apply Hp|intros _]. apply IH.
Qed.

Lemma propagate_dirty_keeps {X : Type} (f : state -> X) (p : page_ptr)
  (pfn : N) (ttu : Z) :
  keeps f (call_mm K (page_mkclean p)) ->
  keeps f (SetPageDirty C p) ->
  (forall l fmt a, keeps f (printk l fmt a)) ->
  keeps f (propagate_dirty C K p pfn ttu).
Proof.
  intros Hc Hd Hp. unfold propagate_dirty.
  keeps_walk; try exact Hc; try exact Hd; try apply Hp;
    first [apply keeps_ret | apply keeps_gets].
Qed.

(** ** The unmap-and-notify protocol *)

Lemma hwpoison_user_mappings_kill_step (p : page_ptr) (pfn : N) (trapno : Z)
  (s : state) :
  PageReserved C p s || PageSlab C p s = false ->
  page_mapped p s = true ->
  PageCompound C p s || PageKsm p s = false ->
  hwpoison_user_mappings C K p pfn trapno s
  = (snd (fst (before_kill C K p pfn s)),
     snd (kill_procs_ao C K (fst (fst (before_kill C K p pfn s)))
            (PageDirty C p (snd (before_kill C K p pfn s))) trapno
            (negb (snd (fst (before_kill C K p pfn s)) =? SWAP_SUCCESS)) pfn
            (snd (before_kill C K p pfn s)))).
Proof.
  intros H1 H2 H3.
  unfold hwpoison_user_mappings, before_kill, after_propagation, unmap_flags,
    gets.
  cbv zeta.
  rewrite bind_eq. cbn [fst snd]. rewrite H1.
  rewrite bind_eq. cbn [fst snd]. rewrite H2. cbn [negb].
  rewrite bind_eq. cbn [fst snd]. rewrite H3.
  rewrite bind_eq. cbn [fst snd].
  rewrite bind_eq. rewrite bind_eq.
  unfold unmap_and_kill, gets.
  rewrite !bind_eq. cbn [fst snd].
  unfold ret at 1. reflexivity.
Qed.

Lemma flat_map_signal_for_fail (doit : bool) (l : list struct_to_kill) :
  flat_map (signal_for doit true) l = if doit then map forced_kill l else [].
Proof.
  induction l as [|tk l IH]; simpl.
  - now destruct doit.
  - rewrite IH. unfold signal_for. destruct doit; reflexivity.
Qed.

(** An observation kept by every step before the kill step, apart from the
    collector, is the same at the kill step as at the start when the
    collector does not run or keeps it too. *)
Lemma before_kill_keeps {X : Type} (f : state -> X) (p : page_ptr) (pfn : N)
  (s : state) :
  keeps f (call_mm K (page_mkclean p)) ->
  (forall ttu, keeps f (call_mm K (try_to_unmap p ttu))) ->
  (forall l fmt a, keeps f (printk l fmt a)) ->
  keeps f (SetPageDirty C p) ->
  (fst (fst (after_propagation C K p pfn s)) = true ->
   keeps f (collect_procs C K p [])) ->
  f (snd (before_kill C K p pfn s)) = f s.
Proof.
  intros Hc Hu' Hp Hd Hcol. unfold before_kill. cbv zeta. cbn [snd].
  set (kt := after_propagation C K p pfn s) in *.
  set (c := (if fst (fst kt) then collect_procs C K p [] else ret [])
              (snd kt)).
  set (u := unmap_loop K N_UNMAP_TRIES 0 p pfn (snd (fst kt)) (snd c)).
  assert (Hk : f (snd kt) = f s).
  { subst kt. unfold after_propagation.
    rewrite (propagate_dirty_keeps f p pfn _ Hc Hd Hp).
    unfold unmap_flags. cbv zeta. rewrite bind_eq. unfold gets.
    cbn [fst snd]. destruct (PageSwapCache C p s); [|reflexivity].
    rewrite bind_eq. unfold ret. cbn [snd]. apply Hp. }
  assert (Hcc : f (snd c) = f (snd kt)).
  { subst c. destruct (fst (fst kt)); [|reflexivity].
    apply Hcol. reflexivity. }
  assert (Hu : f (snd u) = f (snd c)).
  { subst u. apply unmap_loop_keeps; [apply Hu'|intros; apply Hp]. }
  destruct (negb (fst u =? SWAP_SUCCESS)).
  - rewrite bind_eq. unfold gets. cbn [fst snd].
    rewrite (Hp _ _ _ (snd u)). congruence.
  - unfold ret. cbn [snd]. congruence.
Qed.

Lemma before_kill_signals (p : page_ptr) (pfn : N) (s : state) :
  signals (trace (snd (before_kill C K p pfn s))) = signals (trace s).
Proof.
  apply (before_kill_keeps (fun s : state => signals (trace s))).
  - keeps_leaf.
  - intros ttu. keeps_leaf.
  - intros l fmt a. keeps_leaf.
  - keeps_leaf.
  - intros _. apply collect_procs_keeps_signals.
Qed.

(** C2, as amended. In a run of hwpoison_user_mappings that gets past the
    early returns and whose unmap loop does not end with SWAP_SUCCESS, the
    signals of the run are decided by the dirty flag at the kill step: if
    the page is dirty, every entry of the collected notify list gets one
    forced SIGKILL, in list order, and no advisory signal is sent; if the
    page is clean, no signal at all is sent. *)
Theorem unmap_failure_forces_kill (p : page_ptr) (pfn : N) (trapno : Z)
  (s : state) :
  PageReserved C p s || PageSlab C p s = false ->
  page_mapped p s = true ->
  PageCompound C p s || PageKsm p s = false ->
  let tokill := fst (fst (before_kill C K p pfn s)) in
  let r := snd (fst (before_kill C K p pfn s)) in
  let s3 := snd (before_kill C K p pfn s) in
  let final := hwpoison_user_mappings C K p pfn trapno s in
  r <> SWAP_SUCCESS ->
  fst final = r
  /\ signals (trace (snd final))
     = signals (trace s)
       ++ (if PageDirty C p s3 then map forced_kill tokill else []).
Proof.
  intros H1 H2 H3 tokill r s3 final Hr. subst final.
  rewrite (hwpoison_user_mappings_kill_step p pfn trapno s H1 H2 H3).
  fold tokill r s3. cbn [fst snd]. split; [reflexivity|].
  rewrite kill_procs_ao_signals.
  destruct (Z.eqb_spec r SWAP_SUCCESS) as [E|_]; [contradiction|].
  cbn [negb]. rewrite flat_map_signal_for_fail.
  subst s3. now rewrite before_kill_signals.
Qed.

Lemma after_propagation_clean (p : page_ptr) (pfn : N) (s : state)
  (m : address_space) :
  PageDirty C p s = false ->
  page_mapping C p s = Some m ->
  mapping_cap_writeback_dirty K (the_world s) m = true ->
  fst (fst (kernel K (page_mkclean p) (mem_map s) (the_world s))) = 0 ->
  fst (fst (after_propagation C K p pfn s)) = false.
Proof.
  intros Hd Hm Hcap Hclean. unfold after_propagation.
  set (a := unmap_flags C p pfn s).
  assert (Ea : mem_map (snd a) = mem_map s /\ the_world (snd a) = the_world s).
  { subst a. unfold unmap_flags. cbv zeta. rewrite bind_eq. unfold gets.
    cbn [fst snd]. destruct (PageSwapCache C p s); split; reflexivity. }
  destruct Ea as [Em Ew].
  assert (E1 : page_mapping C p (snd a) = Some m).
  { unfold page_mapping, PageSwapCache, page_flag in *. now rewrite Em. }
  assert (E2 : PageDirty C p (snd a) = false).
  { unfold PageDirty, page_flag in *. now rewrite Em. }
  unfold propagate_dirty, gets.
  rewrite bind_eq. cbn [fst snd]. rewrite bind_eq. cbn [fst snd].
  rewrite E1. rewrite bind_eq. cbn [fst snd].
  rewrite E2, Ew, Hcap. cbn [negb andb].
  rewrite bind_eq. unfold call_mm at 1 2. cbn [fst snd].
  rewrite Em, Ew, Hclean. cbn [Z.eqb negb].
  rewrite bind_eq. unfold ret. reflexivity.
Qed.

(** C6. In a run of hwpoison_user_mappings that gets past the early
    returns, if the page is not dirty, its mapping can write back dirty
    data, and page_mkclean finds no dirty PTE, then the collector is not
    entered, no notify entry is allocated or freed, the notify list is
    empty and no signal of either kind is sent. *)
Theorem clean_page_no_notification (p : page_ptr) (pfn : N) (trapno : Z)
  (s : state) (m : address_space) :
  PageReserved C p s || PageSlab C p s = false ->
  page_mapped p s = true ->
  PageCompound C p s || PageKsm p s = false ->
  PageDirty C p s = false ->
  page_mapping C p s = Some m ->
  mapping_cap_writeback_dirty K (the_world s) m = true ->
  fst (fst (kernel K (page_mkclean p) (mem_map s) (the_world s))) = 0 ->
  let s' := snd (hwpoison_user_mappings C K p pfn trapno s) in
  fst (fst (before_kill C K p pfn s)) = []
  /\ signals (trace s') = signals (trace s)
  /\ collector_runs (trace s') = collector_runs (trace s)
  /\ to_kill_live s' = to_kill_live s
  /\ kfree_calls (trace s') = kfree_calls (trace s).
Proof.
  intros H1 H2 H3 Hd Hm Hcap Hclean s'. subst s'.
  pose proof (after_propagation_clean p pfn s m Hd Hm Hcap Hclean) as Hk.
  rewrite (hwpoison_user_mappings_kill_step p pfn trapno s H1 H2 H3).
  cbn [snd].
  assert (Hl : fst (fst (before_kill C K p pfn s)) = []).
  { unfold before_kill. cbv zeta. cbn [fst]. rewrite Hk. reflexivity. }
  rewrite Hl. cbn [kill_procs_ao]. unfold ret at 1 2 3 4. cbn [snd].
  split; [reflexivity|].
  assert (Hno : fst (fst (after_propagation C K p pfn s)) = true ->
                forall (X : Type) (f : state -> X),
                  keeps f (collect_procs C K p [])).
  { rewrite Hk. discriminate. }
  split; [|split; [|split]].
  - apply (before_kill_keeps (fun s : state => signals (trace s)));
      try (intros; keeps_leaf). intros E. now apply Hno.
  - apply (before_kill_keeps (fun s : state => collector_runs (trace s)));
      try (intros; keeps_leaf). intros E. now apply Hno.
  - apply (before_kill_keeps to_kill_live);
      try (intros; keeps_leaf). intros E. now apply Hno.
  - apply (before_kill_keeps (fun s : state => kfree_calls (trace s)));
      try (intros; keeps_leaf). intros E. now apply Hno.
Qed.

(** ** Soft offline *)





Lemma put_page_ledger (p : page_ptr) :
  keeps mce_bad_pages (put_page C K p).
Proof. unfold put_page. keeps_walk; keeps_leaf. Qed.







Lemma some_pair {A B : Type} (x : A * B) (a : A) (b : B) :
  Some x = Some (a, b) -> a = fst x /\ b = snd x.
Proof. intros [= ->]. split; reflexivity. Qed.




(** * Further properties of the code *)

(** ** The kill step, entry by entry *)

(** X1. The signals of the kill step are those of its entries in list
    order: nothing when [doit] is clear; when it is set, a forced SIGKILL
    for an entry if [fail] is set or the entry has no valid address, and
    the advisory SIGBUS otherwise. *)
Theorem kill_procs_ao_sends (to_kill : list struct_to_kill) (doit : bool)
  (trapno : Z) (fail : bool) (pfn : N) (s : state) :
  signals (trace (snd (kill_procs_ao C K to_kill doit trapno fail pfn s)))
  = signals (trace s)
    ++ flat_map (fun tk =>
                   if doit then
                     if fail || negb (addr_valid tk)
                     then [(Forced, SIGKILL, tid (tsk tk))]
                     else [(Advisory, SIGBUS, tid (tsk tk))]
                   else []) to_kill.
Proof. apply kill_procs_ao_signals. Qed.

(** ** Early returns of the unmap-and-notify protocol *)

(** X2. For a reserved or slab page, and for a page that no process maps,
    hwpoison_user_mappings returns SWAP_SUCCESS in the state it was called
    in: nothing is collected, unmapped or signalled. *)
Theorem hwpoison_user_mappings_nothing_to_unmap (p : page_ptr) (pfn : N)
  (trapno : Z) (s : state) :
  PageReserved C p s || PageSlab C p s || negb (page_mapped p s) = true ->
  hwpoison_user_mappings C K p pfn trapno s = (SWAP_SUCCESS, s).
Proof.
  intros H. unfold hwpoison_user_mappings.
  bind_step. unfold gets at 1 2. cbn [fst snd].
  destruct (PageReserved C p s || PageSlab C p s); [reflexivity|].
  cbn [orb] in H.
  bind_step. unfold gets at 1 2. cbn [fst snd].
  rewrite H. reflexivity.
Qed.

(** X3. For a mapped compound or KSM page (not reserved, not slab),
    hwpoison_user_mappings returns SWAP_FAIL in the state it was called in,
    without trying to unmap. *)
Theorem hwpoison_user_mappings_unsupported (p : page_ptr) (pfn : N)
  (trapno : Z) (s : state) :
  PageReserved C p s || PageSlab C p s = false ->
  page_mapped p s = true ->
  PageCompound C p s || PageKsm p s = true ->
  hwpoison_user_mappings C K p pfn trapno s = (SWAP_FAIL, s).
Proof.
  intros H1 H2 H3. unfold hwpoison_user_mappings.
  bind_step. unfold gets at 1 2. cbn [fst snd]. rewrite H1.
  bind_step. unfold gets at 1 2. cbn [fst snd]. rewrite H2. cbn [negb].
  bind_step. unfold gets at 1 2. cbn [fst snd]. rewrite H3.
  reflexivity.
Qed.

(** ** The retry loop *)

Lemma unmap_calls_app (t1 t2 : list event) :
  unmap_calls (t1 ++ t2) = (unmap_calls t1 + unmap_calls t2)%nat.
Proof. unfold unmap_calls. now rewrite filter_app, length_app. Qed.

Lemma unmap_loop_calls (tries : nat) (r0 : Z) (p : page_ptr) (pfn : N)
  (ttu : Z) (s : state) :
  exists n : nat,
    unmap_calls (trace (snd (unmap_loop K tries r0 p pfn ttu s)))
    = (unmap_calls (trace s) + n)%nat
    /\ (n <= tries)%nat
    /\ (0 < tries -> 0 < n)%nat
    /\ (fst (unmap_loop K tries r0 p pfn ttu s) <> SWAP_SUCCESS ->
        0 < tries -> n = tries)%nat.
Proof.
  revert r0 s. induction tries as [|k IH]; intros r0 s; cbn [unmap_loop].
  - exists 0%nat. unfold ret. cbn [fst snd].
    repeat split; try lia.
  - bind_step.
    set (c := call_mm K (try_to_unmap p ttu) s).
    assert (Hc : unmap_calls (trace (snd c)) = S (unmap_calls (trace s))).
    { subst c. unfold call_mm. cbn [snd trace].
      rewrite unmap_calls_app. cbn. lia. }
    destruct (Z.eqb_spec (fst c) SWAP_SUCCESS) as [Hs|Hf].
    + exists 1%nat. unfold ret. cbn [fst snd].
      repeat split; try lia; intros H; contradiction.
    + bind_step.
      set (s1 := snd (pr_debug
                        "MCE %#lx: try_to_unmap retry needed %d\n"
                        [Arg_num (Z.of_N pfn); Arg_num (fst c)] (snd c))).
      assert (H1 : unmap_calls (trace s1) = S (unmap_calls (trace s))).
      { subst s1. unfold pr_debug, printk, emit. cbn [snd trace].
        rewrite unmap_calls_app, Hc. cbn. lia. }
      destruct (IH (fst c) s1) as [n [En [Hle [Hpos Hall]]]].
      exists (S n). rewrite En, H1.
      split; [lia|]. split; [lia|]. split; [lia|].
      intros Hr _. destruct k as [|k'].
      * assert (n = 0)%nat by lia. lia.
      * rewrite (Hall Hr); lia.
Qed.

(** X4. The retry loop of hwpoison_user_mappings calls try_to_unmap at
    least once and at most N_UNMAP_TRIES = 5 times, and when it does not
    end with SWAP_SUCCESS it has used all five tries. *)
Theorem unmap_loop_tries (p : page_ptr) (pfn : N) (ttu : Z) (s : state) :
  exists n : nat,
    unmap_calls (trace (snd (unmap_loop K N_UNMAP_TRIES 0 p pfn ttu s)))
    = (unmap_calls (trace s) + n)%nat
    /\ (1 <= n <= 5)%nat
    /\ (fst (unmap_loop K N_UNMAP_TRIES 0 p pfn ttu s) <> SWAP_SUCCESS ->
        n = 5%nat).
Proof.
  destruct (unmap_loop_calls N_UNMAP_TRIES 0 p pfn ttu s)
    as [n [En [Hle [Hpos Hall]]]].
  unfold N_UNMAP_TRIES in *.
  exists n. split; [exact En|]. split; [lia|].
  intros H. apply Hall; [exact H|lia].
Qed.

(** ** The free-page detector *)

Lemma buddy_scan_spec (n order : nat) (page : page_ptr) (s : state) :
  (order <= buddy_scan C n order page (page_to_pfn page) s <= order + n)%nat
  /\ ((buddy_scan C n order page (page_to_pfn page) s < order + n)%nat <->
      exists k, (order <= k < order + n)%nat
                /\ buddy_covers C k page s = true).
Proof.
  revert order. induction n as [|n IH]; intros order; cbn [buddy_scan].
  - split; [lia|]. split; [lia|]. intros [k [Hk _]]. lia.
  - fold (buddy_covers C order page s).
    destruct (buddy_covers C order page s) eqn:E.
    + split; [lia|]. split; [|lia].
      intros _. exists order. split; [lia|exact E].
    + destruct (IH (S order)) as [Hb Hiff]. split; [lia|].
      split.
      * intros H. destruct (proj1 Hiff) as [k [Hk Hc]]; [lia|].
        exists k. split; [lia|exact Hc].
      * intros [k [Hk Hc]]. 
        assert (k <> order) by (intros ->; congruence).
        assert (buddy_scan C n (S order) page (page_to_pfn page) s
                < S order + n)%nat; [|lia].
        apply (proj2 Hiff). exists k. split; [lia|exact Hc].
Qed.

(** X5. is_free_buddy_page__clone reports a page free exactly when, for some
    order below MAX_ORDER, the block of that order around the page is headed
    by a buddy page whose order is at least that large. *)
Theorem is_free_buddy_page_iff (page : page_ptr) (s : state) :
  is_free_buddy_page__clone C page s = true <->
  exists order, (order < MAX_ORDER C)%nat
                /\ buddy_covers C order page s = true.
Proof.
  unfold is_free_buddy_page__clone. cbv zeta.
  destruct (buddy_scan_spec (MAX_ORDER C) 0 page s) as [_ Hiff].
  rewrite Nat.ltb_lt. cbn [Nat.add] in Hiff. rewrite Hiff.
  split; intros [k [Hk Hc]]; exists k; (split; [lia|exact Hc]).
Qed.

(** ** Unpoison *)

(** X6. Unpoison of a frame number that is not valid returns -ENXIO in the
    state it was called in. *)
Theorem unpoison_invalid_frame (pfn : N) (s : state) :
  pfn_valid K pfn = false ->
  unpoison_memory__clone C K pfn s = (- ENXIO, s).
Proof.
  intros H. unfold unpoison_memory__clone. rewrite H. reflexivity.
Qed.

(** X7. Unpoison of a poisoned page that has no reference (a free page)
    clears the poison bit, takes one off the ledger and returns 0; it takes
    no page lock, drops no reference and leaves every reference count and
    every other page as they were. *)
Theorem unpoison_free_page (pfn : N) (s : state) :
  pfn_valid K pfn = true ->
  PageHWPoison C (pfn_to_page pfn) s = true ->
  _count (mem_map s (compound_head K (mem_map s) (pfn_to_page pfn))) = 0 ->
  LONG_MIN < mce_bad_pages s <= LONG_MAX ->
  let r := fst (unpoison_memory__clone C K pfn s) in
  let s' := snd (unpoison_memory__clone C K pfn s) in
  r = 0
  /\ PageHWPoison C (pfn_to_page pfn) s' = false
  /\ mce_bad_pages s' = mce_bad_pages s - 1
  /\ (forall q, _count (mem_map s' q) = _count (mem_map s q))
  /\ (forall q, q <> pfn_to_page pfn -> mem_map s' q = mem_map s q)
  /\ trace s'
     = trace s ++ [Ev_printk "KERN_DEBUG"
                     "MCE: Software-unpoisoned free page %#lx\n"
                     [Arg_num (Z.of_N pfn)]].
Proof.
  intros Hv Hp Hc Hrange r s'. subst r s'.
  assert (E : unpoison_memory__clone C K pfn s
              = (0, snd (pr_debug "MCE: Software-unpoisoned free page %#lx\n"
                           [Arg_num (Z.of_N pfn)]
                           (snd (dec_mce_bad_pages
                                   (snd (clear_page_flag (PG_hwpoison C)
                                           (pfn_to_page pfn) s))))))).
  { unfold unpoison_memory__clone. rewrite Hv. cbn [negb].
    unfold gets. do 2 bind_step. cbn [fst snd]. rewrite Hp. cbn [negb].
    bind_step. unfold get_page_unless_zero. rewrite Hc.
    cbn [Z.eqb fst snd negb].
    unfold TestClearPageHWPoison, gets.
    do 2 bind_step. cbn [fst snd].
    do 2 bind_step. unfold ret at 1 2. cbn [fst snd]. rewrite Hp.
    do 2 bind_step. reflexivity. }
  rewrite E. cbn [fst snd].
  unfold pr_debug, printk, emit, dec_mce_bad_pages, set_mce_bad_pages,
    clear_page_flag, modify_page, PageHWPoison, page_flag, test_bit, upd_page.
  cbn [fst snd mem_map mce_bad_pages trace].
  split; [reflexivity|]. split.
  { rewrite N.eqb_refl. cbn [flags set_flags]. apply N.clearbit_eq. }
  split.
  { unfold atomic_long_dec. apply long_of_in_range.
    unfold LONG_MIN, LONG_MAX in *. lia. }
  split.
  { intros q. destruct (N.eqb_spec q (pfn_to_page pfn)) as [->|_];
      reflexivity. }
  split; [|reflexivity].
  intros q Hq. destruct (N.eqb_spec q (pfn_to_page pfn)) as [->|_];
    [contradiction|reflexivity].
Qed.

(** X8. Unpoison returns 0 or -ENXIO, and it never adds to the ledger: the
    ledger is left as it was or decremented once, and it is left as it was
    whenever the page was not marked poisoned at the call. *)
Theorem unpoison_ledger (pfn : N) (s : state) :
  let r := fst (unpoison_memory__clone C K pfn s) in
  let s' := snd (unpoison_memory__clone C K pfn s) in
  (r = 0 \/ r = - ENXIO)
  /\ (mce_bad_pages s' = mce_bad_pages s
      \/ mce_bad_pages s' = atomic_long_dec (mce_bad_pages s))
  /\ (PageHWPoison C (pfn_to_page pfn) s = false ->
      mce_bad_pages s' = mce_bad_pages s).
Proof.
  cbv zeta.
  set (P := fun rs : Z * state =>
              (fst rs = 0 \/ fst rs = - ENXIO)
              /\ (mce_bad_pages (snd rs) = mce_bad_pages s
                  \/ mce_bad_pages (snd rs)
                     = atomic_long_dec (mce_bad_pages s))
              /\ (PageHWPoison C (pfn_to_page pfn) s = false ->
                  mce_bad_pages (snd rs) = mce_bad_pages s)).
  change (P (unpoison_memory__clone C K pfn s)).
  unfold unpoison_memory__clone.
  destruct (pfn_valid K pfn); cbn [negb].
  2:{ subst P. cbv beta. unfold ret. cbn [fst snd]. auto. }
  unfold gets. do 2 bind_step. cbn [fst snd].
  destruct (PageHWPoison C (pfn_to_page pfn) s) eqn:Hp; cbn [negb].
  2:{ bind_step. subst P. cbv beta. unfold ret, pr_debug, printk, emit.
      cbn [fst snd mce_bad_pages]. auto. }
  bind_step.
  set (g := get_page_unless_zero
              (compound_head K (mem_map s) (pfn_to_page pfn)) s).
  assert (Eg : mce_bad_pages (snd g) = mce_bad_pages s).
  { subst g. unfold get_page_unless_zero.
    destruct (_ =? 0); reflexivity. }
  assert (Htc : forall s0 : state,
            mce_bad_pages (snd (TestClearPageHWPoison C (pfn_to_page pfn) s0))
            = mce_bad_pages s0).
  { intros s0. reflexivity. }
  destruct (fst g); cbn [negb].
  - do 4 bind_step.
    set (tc := TestClearPageHWPoison C (pfn_to_page pfn)
                 (snd (call_mm K (lock_page_nosync
                                    (compound_head K (mem_map s)
                                       (pfn_to_page pfn))) (snd g)))).
    assert (Etc : mce_bad_pages (snd tc) = mce_bad_pages s).
    { subst tc. rewrite Htc. exact Eg. }
    do 2 bind_step. subst P. cbv beta. unfold ret. cbn [fst snd].
    split; [auto|].
    assert (Hfin : forall (b : bool) (s1 : state),
              mce_bad_pages
                (snd ((if b then put_page C K
                                   (compound_head K (mem_map s)
                                      (pfn_to_page pfn))
                       else (fun s2 : state => (tt, s2)))
                        (snd (put_page C K
                                (compound_head K (mem_map s)
                                   (pfn_to_page pfn))
                                (snd (call_mm K
                                        (unlock_page
                                           (compound_head K (mem_map s)
                                              (pfn_to_page pfn))) s1))))))
              = mce_bad_pages s1).
    { intros b s1. destruct b; cbn [snd];
        rewrite ?put_page_ledger; reflexivity. }
    rewrite Hfin.
    destruct (fst tc).
    + bind_step. unfold dec_mce_bad_pages, set_mce_bad_pages, pr_debug,
        printk, emit. cbn [snd mce_bad_pages]. rewrite Etc.
      split; [now right|discriminate].
    + unfold ret. cbn [snd]. rewrite Etc. split; [now left|discriminate].
  - do 3 bind_step.
    set (tc := TestClearPageHWPoison C (pfn_to_page pfn) (snd g)).
    assert (Etc : mce_bad_pages (snd tc) = mce_bad_pages s).
    { subst tc. rewrite Htc. exact Eg. }
    subst P. cbv beta. unfold ret, pr_debug, printk, emit.
    cbn [fst snd mce_bad_pages]. split; [auto|].
    destruct (fst tc).
    + unfold dec_mce_bad_pages, set_mce_bad_pages. cbn [snd mce_bad_pages].
      rewrite Etc. split; [now right|discriminate].
    + cbn [snd]. rewrite Etc. split; [now left|discriminate].
Qed.

(** ** The dispatcher *)

(** X9. page_action returns 0 or -EBUSY, and it returns 0 exactly when the
    handler of the rule returned RECOVERED or DELAYED and no reference is
    left on the page beyond the one of the caller (and the one of the swap
    cache after a DELAYED me_swapcache_dirty). *)
Theorem page_action_result (ps : page_state) (p : page_ptr) (pfn : N)
  (s : state) :
  let a := call_handler C K (action ps) p pfn s in
  let count0 := int_of (page_count K p (snd a) - 1) in
  let count :=
    if handler_eqb (action ps) fn_me_swapcache_dirty
       && outcome_eqb (fst a) DELAYED
    then int_of (count0 - 1) else count0 in
  (fst (page_action C K ps p pfn s) = 0
   \/ fst (page_action C K ps p pfn s) = - EBUSY)
  /\ (fst (page_action C K ps p pfn s) = 0 <->
      (fst a = RECOVERED \/ fst a = DELAYED) /\ count = 0).
Proof.
  intros a count0 count.
  rewrite page_action_steps. fold a.
  assert (Hc : page_count K p
                 (snd (action_result C pfn (msg ps) (fst a) (snd a)))
               = page_count K p (snd a)) by reflexivity.
  rewrite Hc. fold count0. fold count.
  destruct (Z.eqb_spec count 0) as [Hz|Hnz]; cbn [negb fst].
  - destruct (fst a) eqn:Ea; cbn [outcome_eqb orb].
    + split; [now right|]. split.
      * intros H. unfold EBUSY in H. lia.
      * intros [[H|H] _]; discriminate H.
    + split; [now right|]. split.
      * intros H. unfold EBUSY in H. lia.
      * intros [[H|H] _]; discriminate H.
    + split; [now left|]. split; [intros _; split; [now right|exact Hz]|].
      reflexivity.
    + split; [now left|]. split; [intros _; split; [now left|exact Hz]|].
      reflexivity.
  - split; [now right|]. split.
    + intros H. unfold EBUSY in H. lia.
    + intros [_ H]. contradiction.
Qed.

(** X10. A rule that carries me_kernel, me_unknown or me_huge_page is
    always reported as a failure: page_action returns -EBUSY whatever the
    page and the kernel. *)
Theorem page_action_unhandled (ps : page_state) (p : page_ptr) (pfn : N)
  (s : state) :
  action ps = fn_me_kernel \/ action ps = fn_me_unknown
  \/ action ps = fn_me_huge_page ->
  fst (page_action C K ps p pfn s) = - EBUSY.
Proof.
  intros H. rewrite page_action_steps.
  assert (Ha : fst (call_handler C K (action ps) p pfn s) = IGNORED
               \/ fst (call_handler C K (action ps) p pfn s) = FAILED).
  { destruct H as [H|[H|H]]; rewrite H; [left|right|right]; reflexivity. }
  destruct (negb _); [reflexivity|].
  cbn [fst]. destruct Ha as [Ha|Ha]; rewrite Ha; reflexivity.
Qed.

(** ** Scheduling a process for a later kill *)

(** X11. With the preallocated entry at hand, add_to_kill does not call
    the allocator: it appends one entry for the task at the tail of the
    list, takes one reference on the task and hands the preallocated entry
    over (the slot is empty afterwards); the entry is marked invalid exactly
    when page_address_in_vma answered -EFAULT. *)
Theorem add_to_kill_preallocated (t : task_struct) (p : page_ptr)
  (vma : vm_area_struct) (to_kill : list struct_to_kill) (s : state) :
  let a := page_address_in_vma K (mem_map s) (the_world s) p vma in
  let r := add_to_kill K t p vma to_kill true s in
  fst r = (to_kill
           ++ [mk_to_kill t (ulong_of a)
                 (negb (ulong_of a =? ulong_of (- EFAULT)))], false)
  /\ to_kill_live (snd r) = to_kill_live s
  /\ (forall x, task_usage (snd r) x
                = if N.eqb x (tid t) then atomic_inc (task_usage s x)
                  else task_usage s x)
  /\ filter (fun e => match e with Ev_call _ => true | _ => false end)
       (trace (snd r))
     = filter (fun e => match e with Ev_call _ => true | _ => false end)
         (trace s)
  /\ mem_map (snd r) = mem_map s.
Proof.
  intros a r. subst r a.
  set (a := page_address_in_vma K (mem_map s) (the_world s) p vma).
  set (P := fun rs : (list struct_to_kill * bool) * state =>
              fst rs = (to_kill
                        ++ [mk_to_kill t (ulong_of a)
                              (negb (ulong_of a =? ulong_of (- EFAULT)))],
                        false)
              /\ to_kill_live (snd rs) = to_kill_live s
              /\ (forall x, task_usage (snd rs) x
                            = if N.eqb x (tid t)
                              then atomic_inc (task_usage s x)
                              else task_usage s x)
              /\ filter (fun e => match e with
                                  | Ev_call _ => true
                                  | _ => false
                                  end) (trace (snd rs))
                 = filter (fun e => match e with
                                    | Ev_call _ => true
                                    | _ => false
                                    end) (trace s)
              /\ mem_map (snd rs) = mem_map s).
  change (P (add_to_kill K t p vma to_kill true s)).
  unfold add_to_kill. bind_step. unfold ret at 1 2. cbn [fst snd negb].
  unfold gets. bind_step. cbn [fst snd].
  do 2 bind_step. subst P. cbv beta. subst a.
  destruct (negb (ulong_of _ =? ulong_of (- EFAULT))).
  - unfold ret, get_task_struct.
    cbn [fst snd to_kill_live task_usage trace mem_map].
    repeat split.
  - unfold ret, get_task_struct, pr_debug, printk, emit.
    cbn [fst snd to_kill_live task_usage trace mem_map].
    rewrite filter_app. cbn [filter]. rewrite app_nil_r.
    repeat split.
Qed.

(** ** The collector: what it puts on the list and what it allocates *)

Lemma grows_refl (Q : task_struct -> Prop)
  (acc : list struct_to_kill * bool) (s : state) :
  grows Q acc s (acc, s).
Proof.
  split; [|reflexivity]. exists []. cbn [fst]. rewrite app_nil_r.
  split; [reflexivity|constructor].
Qed.

Lemma grows_trans (Q : task_struct -> Prop)
  (acc : list struct_to_kill * bool) (s : state)
  (r1 r2 : (list struct_to_kill * bool) * state) :
  grows Q acc s r1 -> grows Q (fst r1) (snd r1) r2 -> grows Q acc s r2.
Proof.
  intros [[n1 [E1 F1]] B1] [[n2 [E2 F2]] B2]. split; [|congruence].
  exists (n1 ++ n2). rewrite E2, E1, app_assoc. split; [reflexivity|].
  apply Forall_app. split; assumption.
Qed.

Lemma grows_weaken (Q Q' : task_struct -> Prop)
  (acc : list struct_to_kill * bool) (s : state)
  (r : (list struct_to_kill * bool) * state) :
  (forall t, Q t -> Q' t) -> grows Q acc s r -> grows Q' acc s r.
Proof.
  intros H [[n [E F]] B]. split; [|exact B].
  exists n. split; [exact E|].
  eapply Forall_impl; [|exact F]. intros tk. apply H.
Qed.

(** A step that leaves the list, the slot and the number of live entries
    alone. *)
Lemma grows_step (Q : task_struct -> Prop)
  (acc : list struct_to_kill * bool) (s s1 : state)
  (r : (list struct_to_kill * bool) * state) :
  to_kill_live s1 = to_kill_live s ->
  grows Q acc s1 r -> grows Q acc s r.
Proof.
  intros E [H B]. split; [exact H|].
  rewrite B. unfold notify_balance. now rewrite E.
Qed.

Lemma grows_after (Q : task_struct -> Prop)
  (acc acc1 : list struct_to_kill * bool) (s s1 s2 : state) :
  to_kill_live s2 = to_kill_live s1 ->
  grows Q acc s (acc1, s1) -> grows Q acc s (acc1, s2).
Proof.
  intros E [H B]. split; [exact H|].
  cbn [fst snd] in *. rewrite <- B. unfold notify_balance. now rewrite E.
Qed.

Lemma kmalloc_cases (gfp : gfp_t) (s : state) :
  (fst (kmalloc K gfp s) = true
   /\ to_kill_live (snd (kmalloc K gfp s)) = to_kill_live s + 1)
  \/ (fst (kmalloc K gfp s) = false
      /\ to_kill_live (snd (kmalloc K gfp s)) = to_kill_live s).
Proof.
  unfold kmalloc. rewrite bind_eq.
  destruct (fst (call_sys K (kmalloc_to_kill gfp) s) =? 0).
  - right. split; reflexivity.
  - left. rewrite bind_eq. split; reflexivity.
Qed.

Lemma add_to_kill_grows (t : task_struct) (p : page_ptr)
  (vma : vm_area_struct) (acc : list struct_to_kill * bool) (s : state) :
  grows (eq t) acc s (add_to_kill K t p vma (fst acc) (snd acc) s).
Proof.
  destruct acc as [l tkc]. cbn [fst snd].
  assert (Hadd : forall s1 : state,
            to_kill_live s1 + (if tkc then 1 else 0) = to_kill_live s + 1 ->
            grows (eq t) (l, tkc) s
              ((a <- gets (fun s0 : state =>
                             page_address_in_vma K (mem_map s0) (the_world s0)
                               p vma);;
                (if negb (ulong_of a =? ulong_of (- EFAULT))
                 then ret tt
                 else pr_debug
                        "MCE: Unable to find user space address %lx in %s\n"
                        [Arg_num (Z.of_N (page_to_pfn p));
                         Arg_str (comm t)]);;
                get_task_struct t;;
                ret (l ++ [mk_to_kill t (ulong_of a)
                             (negb (ulong_of a =? ulong_of (- EFAULT)))],
                     false)) s1)).
  { intros s1 E.
    match goal with |- grows _ _ _ ?x => set (r := x) end.
    assert (E1 : exists e, fst r = (l ++ [e], false) /\ tsk e = t).
    { subst r. unfold gets. bind_step. cbn [fst snd]. do 2 bind_step.
      unfold ret at 2. cbn [fst]. eexists. split; reflexivity. }
    assert (E2 : to_kill_live (snd r) = to_kill_live s1).
    { subst r. unfold gets. bind_step. cbn [fst snd]. do 2 bind_step.
      unfold ret at 2. cbn [snd]. destruct (negb _); reflexivity. }
    destruct E1 as [e [E1 Ee]].
    split.
    - exists [e]. rewrite E1. cbn [fst]. split; [reflexivity|].
      constructor; [now symmetry|constructor].
    - unfold notify_balance. rewrite E1, E2. cbn [fst snd].
      rewrite length_app. cbn [List.length]. destruct tkc; lia. }
  unfold add_to_kill. destruct tkc.
  - bind_step. unfold ret at 1 2. cbn [fst snd negb].
    apply Hadd. reflexivity.
  - bind_step. bind_step.
    pose proof (kmalloc_cases GFP_ATOMIC s) as Hk.
    destruct (kmalloc K GFP_ATOMIC s) as [got s1]. cbn [fst snd] in *.
    destruct Hk as [[-> El]|[-> El]].
    + unfold ret at 1 2. cbn [fst snd negb]. apply Hadd. unfold ret. cbn [snd]. lia.
    + bind_step. unfold ret at 1 2 3. cbn [fst snd negb].
      unfold ret, printk, emit. cbn [fst snd].
      apply (grows_after _ _ _ s s _ El). apply grows_refl.
Qed.

Lemma collect_anon_vmas_grows (t : task_struct) (page : page_ptr)
  (chain : list vm_area_struct) (acc : list struct_to_kill * bool)
  (s : state) :
  grows (eq t) acc s (collect_anon_vmas K t page chain acc s).
Proof.
  revert acc s. induction chain as [|vma rest IH]; intros acc s;
    cbn [collect_anon_vmas].
  - apply grows_refl.
  - unfold gets. bind_step. cbn [fst snd].
    destruct (negb _); [apply IH|].
    destruct (same_mm vma t); [|apply IH].
    bind_step. eapply grows_trans; [apply add_to_kill_grows|apply IH].
Qed.

Lemma collect_file_vmas_grows (t : task_struct) (page : page_ptr)
  (vmas : list vm_area_struct) (acc : list struct_to_kill * bool)
  (s : state) :
  grows (eq t) acc s (collect_file_vmas K t page vmas acc s).
Proof.
  revert acc s. induction vmas as [|vma rest IH]; intros acc s;
    cbn [collect_file_vmas].
  - apply grows_refl.
  - destruct (same_mm vma t); [|apply IH].
    bind_step. eapply grows_trans; [apply add_to_kill_grows|apply IH].
Qed.

Lemma task_early_kill_may_notify (t : task_struct) (s : state) :
  task_early_kill C K t s <> 0 -> may_notify C t.
Proof.
  unfold task_early_kill, may_notify.
  destruct (mm t) as [m|]; [|intros H; now contradiction H].
  intros H. split; [discriminate|].
  intros Hp. destruct (Z.eqb_spec (Z.land (tflags t) (PF_MCE_PROCESS C)) 0)
    as [E|_]; [contradiction|].
  cbn [negb] in H.
  destruct (Z.eqb_spec (Z.land (tflags t) (PF_MCE_EARLY C)) 0) as [E|E];
    [now contradiction H|exact E].
Qed.

Lemma collect_tasks_grows
  (body : task_struct -> list struct_to_kill * bool
          -> state -> (list struct_to_kill * bool) * state)
  (tasks : list task_struct) (acc : list struct_to_kill * bool) (s : state) :
  (forall t a s0, grows (eq t) a s0 (body t a s0)) ->
  grows (may_notify C) acc s (collect_tasks C K body tasks acc s).
Proof.
  intros Hb. revert acc s. induction tasks as [|t rest IH]; intros acc s;
    cbn [collect_tasks].
  - apply grows_refl.
  - unfold gets. bind_step. cbn [fst snd].
    destruct (Z.eqb_spec (task_early_kill C K t s) 0) as [E|E]; [apply IH|].
    bind_step. eapply grows_trans; [|apply IH].
    eapply grows_weaken; [|apply Hb].
    intros t' <-. exact (task_early_kill_may_notify t s E).
Qed.

Lemma collect_procs_anon_grows (page : page_ptr)
  (acc : list struct_to_kill * bool) (s : state) :
  grows (may_notify C) acc s
    (collect_procs_anon C K page (fst acc) (snd acc) s).
Proof.
  unfold collect_procs_anon. bind_step. unfold gets. bind_step.
  cbn [fst snd].
  set (s1 := snd (call_sys K tasklist_read_lock s)).
  apply (grows_step _ _ s s1); [reflexivity|].
  match goal with
  | |- grows _ _ _ (bind ?m _ ?st) =>
      assert (Hr : grows (may_notify C) acc s1 (m st))
  end.
  { destruct (page_lock_anon_vma K _ _ page) as [chain|].
    - bind_step. cbn [fst snd]. do 2 bind_step.
      unfold ret. cbn [fst snd].
      match goal with
      | |- grows _ _ _ (fst ?x, _) => set (ct := x)
      end.
      assert (Hct : grows (may_notify C) acc s1 ct).
      { subst ct. rewrite <- (surjective_pairing acc).
        apply collect_tasks_grows. intros. apply collect_anon_vmas_grows. }
      rewrite (surjective_pairing ct) in Hct.
      apply (grows_after _ _ _ _ _ _ eq_refl) in Hct. exact Hct.
    - unfold ret. rewrite <- surjective_pairing. apply grows_refl. }
  match type of Hr with grows _ _ _ ?x => set (r := x) in * end.
  do 2 bind_step. unfold ret. cbn [fst snd].
  rewrite (surjective_pairing r) in Hr.
  apply (grows_after _ _ _ _ _ _ eq_refl) in Hr. exact Hr.
Qed.

Lemma collect_procs_file_grows (page : page_ptr)
  (acc : list struct_to_kill * bool) (s : state) :
  grows (may_notify C) acc s
    (collect_procs_file C K page (fst acc) (snd acc) s).
Proof.
  unfold collect_procs_file. unfold gets. bind_step. cbn [fst snd].
  destruct (mapping (mem_map s page));
    try (unfold ret; rewrite <- surjective_pairing; apply grows_refl).
  do 4 bind_step. cbn [fst snd].
  set (s1 := snd (call_sys K (i_mmap_lock (file_space m))
                    (snd (call_sys K tasklist_read_lock s)))).
  apply (grows_step _ _ s s1); [reflexivity|].
  match goal with
  | |- grows _ _ _ (bind ?m _ ?st) =>
      assert (Hr : grows (may_notify C) acc s1 (m st))
  end.
  { rewrite <- (surjective_pairing acc). apply collect_tasks_grows.
    intros t a s0. apply collect_file_vmas_grows. }
  match type of Hr with grows _ _ _ ?x => set (r := x) in * end.
  do 3 bind_step. unfold ret. cbn [fst snd].
  rewrite (surjective_pairing r) in Hr.
  apply (grows_after _ _ _ _ _ _ eq_refl) in Hr. exact Hr.
Qed.

Lemma collect_procs_grows (page : page_ptr) (tokill : list struct_to_kill)
  (s : state) :
  exists new,
    fst (collect_procs C K page tokill s) = tokill ++ new
    /\ Forall (fun tk => may_notify C (tsk tk)) new
    /\ to_kill_live (snd (collect_procs C K page tokill s))
       = to_kill_live s + Z.of_nat (List.length new).
Proof.
  set (P := fun r : list struct_to_kill * state =>
              exists new,
                fst r = tokill ++ new
                /\ Forall (fun tk => may_notify C (tsk tk)) new
                /\ to_kill_live (snd r)
                   = to_kill_live s + Z.of_nat (List.length new)).
  change (P (collect_procs C K page tokill s)).
  assert (Hnone : forall s1 : state,
            to_kill_live s1 = to_kill_live s -> P (tokill, s1)).
  { intros s1 E. exists []. cbn [fst snd List.length].
    rewrite app_nil_r. split; [reflexivity|]. split; [constructor|lia]. }
  assert (Hrest : P ((tk <- kmalloc K GFP_NOIO;;
                      (if negb tk
                       then ret tokill
                       else
                        anon <- gets (PageAnon page);;
                        r <- (if anon
                              then collect_procs_anon C K page tokill true
                              else collect_procs_file C K page tokill true);;
                        kfree K (snd r);; ret (fst r)))
                       (snd (emit (Ev_enter_collect_procs page) s)))).
  { bind_step.
    set (s0 := snd (emit (Ev_enter_collect_procs page) s)).
    pose proof (kmalloc_cases GFP_NOIO s0) as Hk.
    destruct (kmalloc K GFP_NOIO s0) as [got s1]. cbn [fst snd] in *.
    destruct Hk as [[-> El]|[-> El]]; cbn [negb].
    - unfold gets. bind_step. cbn [fst snd].
      match goal with
      | |- P (bind ?m _ ?st) =>
          assert (Hr : grows (may_notify C) (tokill, true) s1 (m st))
      end.
      { destruct (PageAnon page s1).
        - apply (collect_procs_anon_grows page (tokill, true)).
        - apply (collect_procs_file_grows page (tokill, true)). }
      match type of Hr with grows _ _ _ ?x => set (r := x) in * end.
      do 2 bind_step. unfold ret. cbn [fst snd].
      destruct Hr as [[new [En Fn]] Hb].
      exists new. cbn [fst snd]. split; [exact En|]. split; [exact Fn|].
      unfold notify_balance in Hb. cbn [fst snd] in Hb.
      rewrite En, length_app in Hb. cbn [fst snd] in Hb.
      assert (E0 : to_kill_live s1 = to_kill_live s + 1) by (rewrite El; reflexivity).
      fold r. unfold kfree. destruct (snd (fst r)); cbv iota.
      + rewrite bind_eq. unfold add_to_kill_live, call_sys.
        cbn [snd to_kill_live]. lia.
      + unfold ret. cbn [snd]. lia.
    - apply Hnone. rewrite El. reflexivity. }
  unfold collect_procs. bind_step. unfold gets at 1. bind_step.
  cbn [fst snd].
  destruct (mapping (mem_map _ page)); try exact Hrest.
  apply Hnone. reflexivity.
Qed.

(** X12. collect_procs only adds to the tail of the list it is given, and
    it leaks no notify entry: when it returns, the number of live entries
    has grown by exactly the number of entries it added (the preallocated
    entry is either on the list or freed). *)
Theorem collect_procs_accounts (page : page_ptr)
  (tokill : list struct_to_kill) (s : state) :
  exists new,
    fst (collect_procs C K page tokill s) = tokill ++ new
    /\ to_kill_live (snd (collect_procs C K page tokill s))
       = to_kill_live s + Z.of_nat (List.length new).
Proof.
  destruct (collect_procs_grows page tokill s) as [new [E [_ L]]].
  exists new. split; assumption.
Qed.

(** X13. Every entry that collect_procs adds names a task that has an
    address space and that has not opted out of early kill: a kernel thread,
    or a process with PF_MCE_PROCESS set and PF_MCE_EARLY clear, is never
    put on the notify list. *)
Theorem collect_procs_only_willing (page : page_ptr) (s : state)
  (tk : struct_to_kill) :
  In tk (fst (collect_procs C K page [] s)) ->
  mm (tsk tk) <> None
  /\ (Z.land (tflags (tsk tk)) (PF_MCE_PROCESS C) <> 0 ->
      Z.land (tflags (tsk tk)) (PF_MCE_EARLY C) <> 0).
Proof.
  destruct (collect_procs_grows page [] s) as [new [E [F _]]].
  rewrite E. cbn [app]. intros H.
  rewrite Forall_forall in F. exact (F tk H).
Qed.

Lemma hwpoison_user_mappings_bypass_eq (p : page_ptr) (pfn : N)
  (trapno : Z) (s : state) :
  PageReserved C p s || PageSlab C p s || negb (page_mapped p s) = true ->
  hwpoison_user_mappings C K p pfn trapno s = (SWAP_SUCCESS, s).
Proof.
  intros H. unfold hwpoison_user_mappings.
  bind_step. unfold gets at 1 2. cbn [fst snd].
  destruct (PageReserved C p s || PageSlab C p s); [reflexivity|].
  cbn [orb] in H.
  bind_step. unfold gets at 1 2. cbn [fst snd].
  rewrite H. reflexivity.
Qed.

Lemma hwpoison_user_mappings_unsupported_eq (p : page_ptr) (pfn : N)
  (trapno : Z) (s : state) :
  PageReserved C p s || PageSlab C p s = false ->
  page_mapped p s = true ->
  PageCompound C p s || PageKsm p s = true ->
  hwpoison_user_mappings C K p pfn trapno s = (SWAP_FAIL, s).
Proof.
  intros H1 H2 H3. unfold hwpoison_user_mappings.
  bind_step. unfold gets at 1 2. cbn [fst snd]. rewrite H1.
  bind_step. unfold gets at 1 2. cbn [fst snd]. rewrite H2. cbn [negb].
  bind_step. unfold gets at 1 2. cbn [fst snd]. rewrite H3.
  reflexivity.
Qed.

Lemma kill_procs_ao_live (to_kill : list struct_to_kill) (doit : bool)
  (trapno : Z) (fail : bool) (pfn : N) (s : state) :
  to_kill_live (snd (kill_procs_ao C K to_kill doit trapno fail pfn s))
  = to_kill_live s - Z.of_nat (List.length to_kill).
Proof.
  revert s. induction to_kill as [|tk next IH]; intros s.
  - cbn [kill_procs_ao List.length]. unfold ret. cbn [snd]. lia.
  - destruct (kill_procs_ao_cons tk next doit trapno fail pfn s)
      as [s1 [E [_ [Hl _]]]].
    rewrite E, IH, Hl. cbn [List.length]. lia.
Qed.

(** X14. hwpoison_user_mappings leaks no notify entry: on every path, the
    early returns included, the number of live entries when it returns is
    the number when it was called (what the collector allocated, the kill
    step freed). *)
Theorem hwpoison_user_mappings_no_leak (p : page_ptr) (pfn : N) (trapno : Z)
  (s : state) :
  to_kill_live (snd (hwpoison_user_mappings C K p pfn trapno s))
  = to_kill_live s.
Proof.
  destruct (PageReserved C p s || PageSlab C p s) eqn:H1.
  { rewrite hwpoison_user_mappings_bypass_eq by (rewrite H1; reflexivity).
    reflexivity. }
  destruct (page_mapped p s) eqn:H2.
  2:{ rewrite hwpoison_user_mappings_bypass_eq
        by (rewrite H1, H2; reflexivity).
      reflexivity. }
  destruct (PageCompound C p s || PageKsm p s) eqn:H3.
  { rewrite (hwpoison_user_mappings_unsupported_eq p pfn trapno s H1 H2 H3).
    reflexivity. }
  rewrite (hwpoison_user_mappings_kill_step p pfn trapno s H1 H2 H3).
  cbn [snd]. rewrite kill_procs_ao_live.
  unfold before_kill. cbv zeta. cbn [fst snd].
  set (kt := after_propagation C K p pfn s).
  assert (Hk : to_kill_live (snd kt) = to_kill_live s).
  { subst kt. unfold after_propagation.
    rewrite (propagate_dirty_keeps to_kill_live p pfn);
      try (intros; keeps_leaf); try keeps_leaf.
    unfold unmap_flags. cbv zeta. unfold gets. rewrite bind_eq.
    cbn [fst snd]. destruct (PageSwapCache C p s); reflexivity. }
  set (c := (if fst (fst kt) then collect_procs C K p [] else ret [])
              (snd kt)).
  assert (Hc : to_kill_live (snd c)
               = to_kill_live s + Z.of_nat (List.length (fst c))).
  { subst c. destruct (fst (fst kt)).
    - destruct (collect_procs_grows p [] (snd kt)) as [new [E [_ L]]].
      rewrite E, L, Hk. reflexivity.
    - unfold ret. cbn [fst snd List.length]. lia. }
  set (u := unmap_loop K N_UNMAP_TRIES 0 p pfn (snd (fst kt)) (snd c)).
  assert (Hu : to_kill_live (snd u) = to_kill_live (snd c)).
  { subst u. apply unmap_loop_keeps; intros; keeps_leaf. }
  assert (Hw : forall m : state -> unit * state,
            (m = ret tt \/ exists l f a, m = printk l f a) ->
            to_kill_live (snd (m (snd u))) = to_kill_live (snd u)).
  { intros m [->|[l [f [a ->]]]]; reflexivity. }
  destruct (negb (fst u =? SWAP_SUCCESS)).
  - rewrite bind_eq. unfold gets. cbn [fst snd].
    rewrite (Hw _ (or_intror (ex_intro _ _ (ex_intro _ _
                                (ex_intro _ _ eq_refl))))).
    lia.
  - rewrite (Hw _ (or_introl eq_refl)). lia.
Qed.

(** ** What soft offline keeps *)

Section SoftOfflineKeeps.

Context {X : Type}.
Variable f : state -> X.
Variable allowed : kcall -> bool.

Hypothesis Hmm : forall c, allowed c = true -> keeps f (call_mm K c).
Hypothesis Hdbg : forall fmt a, keeps f (pr_debug fmt a).
Hypothesis Hmod : forall q g, keeps f (modify_page q g).
Hypothesis Hset : forall v, keeps f (set_mce_bad_pages v).

Lemma put_page_keeps (p : page_ptr) :
  allowed (put_compound_page p) = true ->
  allowed (__put_single_page p) = true ->
  keeps f (put_page C K p).
Proof.
  intros A1 A2. unfold put_page.
  keeps_walk; try (apply Hmm; assumption); try apply Hmod;
    first [apply keeps_ret | apply keeps_gets].
Qed.

Lemma shrink_slab_loop_keeps (fuel : nat) (p : page_ptr) (s s' : state) :
  allowed (shrink_slab 1000 GFP_KERNEL 1000) = true ->
  shrink_slab_loop K fuel p s = Some s' -> f s' = f s.
Proof.
  intros A. revert s. induction fuel as [|n IH]; intros s;
    cbn [shrink_slab_loop]; [discriminate|].
  assert (E : f (snd (call_mm K (shrink_slab 1000 GFP_KERNEL 1000) s)) = f s)
    by (apply Hmm; exact A).
  destruct (page_count K p _ =? 0); [intros [= <-]; exact E|].
  destruct (_ >? 10); [|intros [= <-]; exact E].
  intros H. rewrite (IH _ H). exact E.
Qed.

Lemma shake_page_keeps (fuel : nat) (p : page_ptr) (access : Z)
  (s s' : state) :
  allowed lru_add_drain_all = true ->
  allowed drain_all_pages = true ->
  allowed (shrink_slab 1000 GFP_KERNEL 1000) = true ->
  shake_page__clone C K fuel p access s = Some s' -> f s' = f s.
Proof.
  intros A1 A2 A3.
  assert (Ha : forall s0 s1 : state,
            shake_access K fuel p access s0 = Some s1 -> f s1 = f s0).
  { intros s0 s1. unfold shake_access.
    destruct (access =? 0); [intros [= <-]; reflexivity|].
    apply shrink_slab_loop_keeps. exact A3. }
  unfold shake_page__clone.
  destruct (negb (PageSlab C p s)); [|apply Ha].
  assert (E1 : f (snd (call_mm K lru_add_drain_all s)) = f s)
    by (apply Hmm; exact A1).
  destruct (PageLRU C p _); [intros [= <-]; exact E1|].
  assert (E2 : f (snd (call_mm K drain_all_pages
                         (snd (call_mm K lru_add_drain_all s)))) = f s)
    by (rewrite (Hmm _ A2 _); exact E1).
  destruct (_ || _); [intros [= <-]; exact E2|].
  intros H. rewrite (Ha _ _ H). exact E2.
Qed.

Lemma soft_offline_done_keeps (page : page_ptr) (r : Z) :
  keeps f (soft_offline_done C page r).
Proof.
  unfold soft_offline_done.
  apply keeps_bind; [|intros _].
  - intros s. apply Hset.
  - apply keeps_bind; [apply Hmod|intros _; apply keeps_ret].
Qed.

Lemma soft_offline_migrate_keeps (page : page_ptr) (pfn : N) :
  allowed (isolate_lru_page page) = true ->
  allowed (migrate_pages [page]) = true ->
  keeps f (soft_offline_migrate C K page pfn).
Proof.
  intros A1 A2. unfold soft_offline_migrate.
  keeps_walk; try (apply Hmm; assumption); try apply Hdbg;
    try apply soft_offline_done_keeps;
    first [apply keeps_ret | apply keeps_gets].
Qed.

Lemma soft_offline_lru_keeps (page : page_ptr) (pfn : N) :
  (forall c, so_mm_call c = true -> allowed c = true) ->
  keeps f (soft_offline_lru C K page pfn).
Proof.
  intros A. unfold soft_offline_lru.
  keeps_walk;
    try (apply Hmm; apply A; reflexivity); try apply Hdbg;
    try (apply put_page_keeps; apply A; reflexivity);
    try apply soft_offline_done_keeps;
    try (apply soft_offline_migrate_keeps; apply A; reflexivity);
    first [apply keeps_ret | apply keeps_gets].
Qed.

Lemma soft_offline_keeps_with (fuel : nat) (page : page_ptr) (mf_flags : Z)
  (s : state) (r : Z) (s' : state) :
  allowed (put_compound_page page) = true ->
  allowed (__put_single_page page) = true ->
  allowed lru_add_drain_all = true ->
  allowed drain_all_pages = true ->
  allowed (shrink_slab 1000 GFP_KERNEL 1000) = true ->
  (forall mf, keeps f (get_any_page C K page (page_to_pfn page) mf)) ->
  keeps f (soft_offline_lru C K page (page_to_pfn page)) ->
  soft_offline_page__clone C K fuel page mf_flags s = Some (r, s') ->
  f s' = f s.
Proof.
  intros A1 A2 A3 A4 A5 Hgap Hlru. unfold soft_offline_page__clone. cbv zeta.
  set (r1 := get_any_page C K page (page_to_pfn page) mf_flags s).
  assert (E1 : f (snd r1) = f s) by apply Hgap.
  destruct (fst r1 <? 0).
  { intros H. apply some_pair in H as [_ ->]. exact E1. }
  destruct (fst r1 =? 0).
  { intros H. apply some_pair in H as [_ ->].
    rewrite soft_offline_done_keeps. exact E1. }
  destruct (negb (PageLRU C page (snd r1))).
  - destruct (shake_page__clone C K fuel page 1 _) as [s3|] eqn:Es;
      [|discriminate].
    apply shake_page_keeps in Es; try assumption.
    rewrite put_page_keeps in Es by assumption.
    set (r2 := get_any_page C K page (page_to_pfn page) 0 s3).
    assert (E2 : f (snd r2) = f s).
    { subst r2. rewrite Hgap. congruence. }
    destruct (fst r2 <? 0).
    { intros H. apply some_pair in H as [_ ->]. exact E2. }
    destruct (fst r2 =? 0).
    { intros H. apply some_pair in H as [_ ->].
      rewrite soft_offline_done_keeps. exact E2. }
    intros H. apply some_pair in H as [_ ->].
    rewrite Hlru. exact E2.
  - intros H. apply some_pair in H as [_ ->].
    rewrite Hlru. exact E1.
Qed.

Lemma soft_offline_keeps (fuel : nat) (page : page_ptr) (mf_flags : Z)
  (s : state) (r : Z) (s' : state) :
  (forall c, so_mm_call c = true -> allowed c = true) ->
  (forall mf, keeps f (get_any_page C K page (page_to_pfn page) mf)) ->
  soft_offline_page__clone C K fuel page mf_flags s = Some (r, s') ->
  f s' = f s.
Proof.
  intros A Hgap.
  apply soft_offline_keeps_with; try (apply A; reflexivity);
    [exact Hgap|apply soft_offline_lru_keeps; exact A].
Qed.

End SoftOfflineKeeps.

Lemma get_any_page_keeps_calls {X : Type} (f : state -> X) (p : page_ptr)
  (pfn : N) (mf_flags : Z) :
  keeps f (call_sys K lock_system_sleep) ->
  keeps f (call_sys K (set_migratetype_isolate p)) ->
  keeps f (call_sys K (unset_migratetype_isolate p)) ->
  keeps f (call_sys K unlock_system_sleep) ->
  (forall fmt a, keeps f (pr_debug fmt a)) ->
  (forall q g, keeps f (modify_page q g)) ->
  keeps f (get_any_page C K p pfn mf_flags).
Proof.
  intros H1 H2 H3 H4 Hp Hm. unfold get_any_page.
  destruct (negb _); [apply keeps_ret|].
  keeps_walk; try assumption; try apply Hp; try apply Hm;
    try apply keeps_ret; try apply keeps_gets.
  intros s. unfold get_page_unless_zero.
  destruct (_ =? 0); [reflexivity|]. cbn [snd]. apply Hm.
Qed.

Lemma unmap_calls_ignores (e : event) (t : list event) :
  is_try_to_unmap e = false -> unmap_calls (t ++ [e]) = unmap_calls t.
Proof.
  intros H. rewrite unmap_calls_app. unfold unmap_calls at 2.
  cbn [filter]. rewrite H. cbn [List.length]. lia.
Qed.

(** The leaves of soft offline for an observation of the trace that
    ignores every event of soft offline. *)
Ltac so_leaf lem :=
  first
    [ intros c Hc; destruct c; try discriminate Hc;
      apply keeps_call_mm; intros t0; apply lem; reflexivity
    | intros fmt a; apply keeps_pr_debug; intros t0; apply lem; reflexivity
    | intros; intros s0; reflexivity
    | intros mf; apply get_any_page_keeps_calls;
      first [ apply keeps_call_sys; intros t0; apply lem; reflexivity
            | intros fmt a; apply keeps_pr_debug; intros t0; apply lem;
              reflexivity
            | intros; intros s0; reflexivity ]
    | intros c Hc; exact Hc ].

(** X15. Soft offline kills nothing: whenever it returns, it has sent no
    signal of either kind, has not called try_to_unmap, has not run the
    collector of processes and has allocated no notify entry. *)
Theorem soft_offline_kills_nothing (fuel : nat) (page : page_ptr)
  (mf_flags : Z) (s : state) (r : Z) (s' : state) :
  soft_offline_page__clone C K fuel page mf_flags s = Some (r, s') ->
  signals (trace s') = signals (trace s)
  /\ unmap_calls (trace s') = unmap_calls (trace s)
  /\ collector_runs (trace s') = collector_runs (trace s)
  /\ to_kill_live s' = to_kill_live s.
Proof.
  intros H. split; [|split; [|split]].
  - apply (soft_offline_keeps (fun s : state => signals (trace s))
             so_mm_call) with (7 := H); so_leaf signals_ignores.
  - apply (soft_offline_keeps (fun s : state => unmap_calls (trace s))
             so_mm_call) with (7 := H); so_leaf unmap_calls_ignores.
  - apply (soft_offline_keeps (fun s : state => collector_runs (trace s))
             so_mm_call) with (7 := H); so_leaf collector_runs_ignores.
  - apply (soft_offline_keeps to_kill_live so_mm_call) with (7 := H);
      try (intros; intros s0; reflexivity).
    + intros c Hc. exact Hc.
    + intros mf. apply get_any_page_keeps_calls;
        intros; intros s0; reflexivity.
Qed.

(** ** Locks taken by soft offline *)

Lemma sleep_locks_held_snoc (e : event) (t : list event) :
  sleep_locks_held (t ++ [e]) = sleep_locks_held t + sleep_lock_of e.
Proof. rewrite sleep_locks_held_app. cbn. lia. Qed.

Lemma sleep_locks_held_ignores (e : event) (t : list event) :
  sleep_lock_of e = 0 -> sleep_locks_held (t ++ [e]) = sleep_locks_held t.
Proof. intros H. rewrite sleep_locks_held_snoc, H. lia. Qed.

Lemma isolations_held_snoc (p : page_ptr) (e : event) (t : list event) :
  isolations_held p (t ++ [e]) = isolations_held p t + isolation_of p e.
Proof. rewrite isolations_held_app. cbn. lia. Qed.

Lemma isolations_held_ignores (p : page_ptr) (e : event) (t : list event) :
  isolation_of p e = 0 -> isolations_held p (t ++ [e]) = isolations_held p t.
Proof. intros H. rewrite isolations_held_snoc, H. lia. Qed.

Lemma page_locks_held_app (p : page_ptr) (t1 t2 : list event) :
  page_locks_held p (t1 ++ t2) = page_locks_held p t1 + page_locks_held p t2.
Proof.
  unfold page_locks_held. induction t1 as [|e t1 IH]; cbn; [reflexivity|].
  rewrite IH. lia.
Qed.

Lemma page_locks_held_snoc (p : page_ptr) (e : event) (t : list event) :
  page_locks_held p (t ++ [e]) = page_locks_held p t + page_lock_of p e.
Proof. rewrite page_locks_held_app. cbn. lia. Qed.

Lemma page_locks_held_ignores (p : page_ptr) (e : event) (t : list event) :
  page_lock_of p e = 0 -> page_locks_held p (t ++ [e]) = page_locks_held p t.
Proof. intros H. rewrite page_locks_held_snoc, H. lia. Qed.

Lemma get_any_page_balanced (p : page_ptr) (pfn : N) (mf_flags : Z)
  (q : page_ptr) (s : state) :
  sleep_locks_held (trace (snd (get_any_page C K p pfn mf_flags s)))
  = sleep_locks_held (trace s)
  /\ isolations_held q (trace (snd (get_any_page C K p pfn mf_flags s)))
     = isolations_held q (trace s).
Proof.
  unfold get_any_page.
  destruct (negb _); [split; reflexivity|].
  unfold bind, ret, gets, call_sys, get_page_unless_zero, pr_debug, printk,
    emit, SetPageHWPoison; simpl.
  destruct (_ =? 0); simpl;
    [destruct (is_free_buddy_page__clone C p _); simpl|];
    rewrite ?sleep_locks_held_snoc, ?isolations_held_snoc; simpl;
    destruct (N.eqb p q); split; lia.
Qed.

Lemma so_unlocked_call_ok (c : kcall) :
  so_unlocked_call c = true ->
  so_mm_call c = true /\ forall p, page_lock_of p (Ev_call c) = 0.
Proof.
  destruct c; cbn; intros H; try discriminate H; split; reflexivity.
Qed.

Lemma soft_offline_lru_page_lock (page : page_ptr) (pfn : N) :
  keeps (fun s : state => page_locks_held page (trace s))
        (soft_offline_lru C K page pfn).
Proof.
  set (f := fun s : state => page_locks_held page (trace s)).
  assert (Hmm : forall c, so_unlocked_call c = true ->
                          keeps f (call_mm K c)).
  { intros c Hc. destruct (so_unlocked_call_ok c Hc) as [_ H0].
    apply keeps_call_mm. intros t. apply page_locks_held_ignores. apply H0. }
  assert (Hdbg : forall fmt a, keeps f (pr_debug fmt a)).
  { intros fmt a. apply keeps_pr_debug. intros t.
    apply page_locks_held_ignores. reflexivity. }
  assert (Hmod : forall q g, keeps f (modify_page q g))
    by (intros; intros s0; reflexivity).
  assert (Hset : forall v, keeps f (set_mce_bad_pages v))
    by (intros; intros s0; reflexivity).
  assert (Hput : keeps f (put_page C K page)).
  { apply (put_page_keeps f so_unlocked_call Hmm Hmod); reflexivity. }
  assert (Hcall : forall c s0,
            f (snd (call_mm K c s0)) = f s0 + page_lock_of page (Ev_call c)).
  { intros c s0. subst f. cbv beta. unfold call_mm. cbn [snd trace].
    apply page_locks_held_snoc. }
  intros s. unfold soft_offline_lru.
  unfold gets. bind_step. cbn [fst snd].
  destruct (PageLRU C page s); cbn [negb].
  2:{ do 2 bind_step. unfold ret. cbn [fst snd]. apply Hdbg. }
  do 3 bind_step. cbn [fst snd].
  set (s1 := snd (call_mm K (lock_page page) s)).
  set (s2 := snd (call_mm K (wait_on_page_writeback page) s1)).
  assert (E2 : f s2 = f s + 1).
  { subst s2 s1. rewrite !Hcall. cbn [page_lock_of].
    rewrite N.eqb_refl. lia. }
  destruct (PageHWPoison C page s2).
  - do 3 bind_step. unfold ret. cbn [snd].
    rewrite Hdbg, Hput, Hcall, E2. cbn [page_lock_of].
    rewrite N.eqb_refl. lia.
  - do 3 bind_step.
    set (s3 := snd (call_mm K (invalidate_inode_page page) s2)).
    set (s4 := snd (call_mm K (unlock_page page) s3)).
    set (s5 := snd (put_page C K page s4)).
    assert (E5 : f s5 = f s).
    { subst s5 s4 s3. rewrite Hput, !Hcall, E2. cbn [page_lock_of].
      rewrite N.eqb_refl. lia. }
    destruct (_ =? 1).
    + bind_step.
      rewrite (soft_offline_done_keeps f Hmod Hset), Hdbg. exact E5.
    + rewrite (soft_offline_migrate_keeps f so_unlocked_call Hmm Hdbg Hmod
                 Hset page pfn eq_refl eq_refl).
      exact E5.
Qed.

(** X16. Soft offline leaves no lock behind: whenever it returns, whatever
    the result, the system sleep lock, the isolation of the page block and
    the lock of the page are held as many times as when it was called. *)
Theorem soft_offline_releases_locks (fuel : nat) (page : page_ptr)
  (mf_flags : Z) (s : state) (r : Z) (s' : state) :
  soft_offline_page__clone C K fuel page mf_flags s = Some (r, s') ->
  sleep_locks_held (trace s') = sleep_locks_held (trace s)
  /\ isolations_held page (trace s') = isolations_held page (trace s)
  /\ page_locks_held page (trace s') = page_locks_held page (trace s).
Proof.
  intros H. split; [|split].
  - apply (soft_offline_keeps (fun s : state => sleep_locks_held (trace s))
             so_mm_call) with (7 := H).
    + intros c Hc. destruct c; try discriminate Hc;
        apply keeps_call_mm; intros t0; apply sleep_locks_held_ignores;
        reflexivity.
    + intros fmt a. apply keeps_pr_debug. intros t0.
      apply sleep_locks_held_ignores. reflexivity.
    + intros; intros s0; reflexivity.
    + intros; intros s0; reflexivity.
    + intros c Hc. exact Hc.
    + intros mf s0. apply (get_any_page_balanced _ _ _ page s0).
  - apply (soft_offline_keeps
             (fun s : state => isolations_held page (trace s))
             so_mm_call) with (7 := H).
    + intros c Hc. destruct c; try discriminate Hc;
        apply keeps_call_mm; intros t0; apply isolations_held_ignores;
        reflexivity.
    + intros fmt a. apply keeps_pr_debug. intros t0.
      apply isolations_held_ignores. reflexivity.
    + intros; intros s0; reflexivity.
    + intros; intros s0; reflexivity.
    + intros c Hc. exact Hc.
    + intros mf s0. apply (get_any_page_balanced _ _ _ page s0).
  - eapply (soft_offline_keeps_with
              (fun s : state => page_locks_held page (trace s))
              so_unlocked_call); [.. | exact H]; try reflexivity;
      first
        [ apply soft_offline_lru_page_lock
        | intros mf; apply get_any_page_keeps_calls;
          first [ apply keeps_call_sys; intros t0;
                  apply page_locks_held_ignores; reflexivity
                | intros fmt a; apply keeps_pr_debug; intros t0;
                  apply page_locks_held_ignores; reflexivity
                | intros; intros s0; reflexivity ]
        | intros c Hc; destruct (so_unlocked_call_ok c Hc) as [_ H0];
          apply keeps_call_mm; intros t; apply page_locks_held_ignores;
          apply H0
        | intros fmt a; apply keeps_pr_debug; intros t0;
          apply page_locks_held_ignores; reflexivity
        | intros; intros s0; reflexivity ].
Qed.

(** ** What page_action and the handlers leave alone *)

Section PageActionKeeps.

Context {X : Type}.
Variable f : state -> X.

Hypothesis Hmm : forall c, me_mm_call c = true -> keeps f (call_mm K c).
Hypothesis Hpk : forall l fmt a, keeps f (printk l fmt a).
Hypothesis Hmod : forall q g, keeps f (modify_page q g).

Ltac me_walk :=
  repeat (cbv beta zeta;
          match goal with
          | |- keeps _ (bind _ _) => apply keeps_bind; [|intros ?a]
          | |- keeps _ (if ?c then _ else _) => destruct c
          | |- keeps _ (match ?x with _ => _ end) => destruct x
          end).

Ltac me_leaf :=
  first [ apply keeps_ret | apply keeps_gets | apply Hpk | apply Hmod
        | apply Hmm; reflexivity ].

Lemma delete_from_lru_cache_keeps (p : page_ptr) :
  keeps f (delete_from_lru_cache C K p).
Proof.
  unfold delete_from_lru_cache, page_cache_release, put_page,
    ClearPageActive, ClearPageUnevictable, clear_page_flag.
  me_walk; me_leaf.
Qed.

Lemma me_pagecache_clean_keeps (p : page_ptr) (pfn : N) :
  keeps f (me_pagecache_clean C K p pfn).
Proof.
  unfold me_pagecache_clean, pr_debug.
  apply keeps_bind; [apply delete_from_lru_cache_keeps|intros _].
  me_walk; me_leaf.
Qed.

Lemma call_handler_keeps (h : handler) (p : page_ptr) (pfn : N) :
  keeps f (call_handler C K h p pfn).
Proof.
  destruct h; cbn [call_handler].
  - apply keeps_ret.
  - unfold me_unknown. me_walk; me_leaf.
  - apply me_pagecache_clean_keeps.
  - unfold me_pagecache_dirty, SetPageError, set_page_flag.
    apply keeps_bind; [apply keeps_gets|intros m].
    apply keeps_bind; [apply Hmod|intros _].
    apply keeps_bind; [|intros _; apply me_pagecache_clean_keeps].
    destruct m; me_walk; me_leaf.
  - unfold me_swapcache_dirty, ClearPageDirty, ClearPageUptodate,
      clear_page_flag.
    apply keeps_bind; [apply Hmod|intros _].
    apply keeps_bind; [apply Hmod|intros _].
    apply keeps_bind; [apply delete_from_lru_cache_keeps|intros r].
    me_walk; me_leaf.
  - unfold me_swapcache_clean.
    apply keeps_bind; [apply Hmm; reflexivity|intros _].
    apply keeps_bind; [apply delete_from_lru_cache_keeps|intros r].
    me_walk; me_leaf.
  - apply keeps_ret.
Qed.

Lemma page_action_keeps (ps : page_state) (p : page_ptr) (pfn : N) :
  keeps f (page_action C K ps p pfn).
Proof.
  unfold page_action.
  apply keeps_bind; [apply call_handler_keeps|intros result].
  unfold action_result. me_walk; me_leaf.
Qed.

End PageActionKeeps.

(** X17. page_action and the handlers it runs keep no books and kill
    nothing: for every rule, page and kernel, the ledger of poisoned pages,
    the usage counts of the tasks and the number of live notify entries are
    as they were, no signal has been sent, try_to_unmap has not been called
    and the collector of processes has not run. *)
Theorem page_action_no_bookkeeping (ps : page_state) (p : page_ptr) (pfn : N)
  (s : state) :
  let s' := snd (page_action C K ps p pfn s) in
  mce_bad_pages s' = mce_bad_pages s
  /\ task_usage s' = task_usage s
  /\ to_kill_live s' = to_kill_live s
  /\ signals (trace s') = signals (trace s)
  /\ unmap_calls (trace s') = unmap_calls (trace s)
  /\ collector_runs (trace s') = collector_runs (trace s).
Proof.
  cbv zeta. repeat split.
  - apply (page_action_keeps (fun s : state => mce_bad_pages s));
      intros; intros s0; reflexivity.
  - apply (page_action_keeps (fun s : state => task_usage s));
      intros; intros s0; reflexivity.
  - apply (page_action_keeps (fun s : state => to_kill_live s));
      intros; intros s0; reflexivity.
  - apply (page_action_keeps (fun s : state => signals (trace s))).
    + intros c Hc. destruct c; try discriminate Hc;
        apply keeps_call_mm; intros t0; apply signals_ignores; reflexivity.
    + intros l fmt a. apply keeps_printk. intros t0.
      apply signals_ignores. reflexivity.
    + intros; intros s0; reflexivity.
  - apply (page_action_keeps (fun s : state => unmap_calls (trace s))).
    + intros c Hc. destruct c; try discriminate Hc;
        apply keeps_call_mm; intros t0; apply unmap_calls_ignores;
        reflexivity.
    + intros l fmt a. apply keeps_printk. intros t0.
      apply unmap_calls_ignores. reflexivity.
    + intros; intros s0; reflexivity.
  - apply (page_action_keeps (fun s : state => collector_runs (trace s))).
    + intros c Hc. destruct c; try discriminate Hc;
        apply keeps_call_mm; intros t0; apply collector_runs_ignores;
        reflexivity.
    + intros l fmt a. apply keeps_printk. intros t0.
      apply collector_runs_ignores. reflexivity.
    + intros; intros s0; reflexivity.
Qed.

(** ** The outcomes of the handlers *)

Lemma yields_ret {A : Type} (P : A -> Prop) (a : A) :
  P a -> yields P (ret (world := world) a).
Proof. intros H s. exact H. Qed.

Lemma yields_bind {A B : Type} (P : B -> Prop) (m : state -> A * state)
  (k : A -> state -> B * state) :
  (forall a, yields P (k a)) -> yields P (bind m k).
Proof. intros H s. rewrite bind_eq. apply H. Qed.

Ltac yields_walk :=
  repeat (cbv beta zeta;
          match goal with
          | |- yields _ (bind _ _) => apply yields_bind; intros ?a
          | |- yields _ (if ?c then _ else _) => destruct c
          | |- yields _ (match ?x with _ => _ end) => destruct x
          end).

Lemma call_handler_yields (h : handler) (p : page_ptr) (pfn : N) :
  yields (fun o => In o (possible_outcomes h)) (call_handler C K h p pfn).
Proof.
  destruct h; cbn [call_handler possible_outcomes];
    unfold me_kernel, me_unknown, me_pagecache_dirty, me_pagecache_clean,
      me_swapcache_dirty, me_swapcache_clean, me_huge_page;
    yields_walk; apply yields_ret; cbn [In]; auto.
Qed.

(** X18. Each handler returns only the outcomes its return statements
    name: me_kernel IGNORED; me_unknown and me_huge_page FAILED; the two
    page-cache handlers and me_swapcache_clean RECOVERED or FAILED;
    me_swapcache_dirty DELAYED or FAILED. DELAYED therefore comes from
    me_swapcache_dirty alone, and the test of page_action for a DELAYED
    me_swapcache_dirty is the test for DELAYED. *)
Theorem handler_outcomes (h : handler) (p : page_ptr) (pfn : N) (s : state) :
  In (fst (call_handler C K h p pfn s)) (possible_outcomes h)
  /\ handler_eqb h fn_me_swapcache_dirty
     && outcome_eqb (fst (call_handler C K h p pfn s)) DELAYED
     = outcome_eqb (fst (call_handler C K h p pfn s)) DELAYED.
Proof.
  pose proof (call_handler_yields h p pfn s) as H. cbv beta in H.
  split; [exact H|].
  destruct h; cbn [possible_outcomes In] in H;
    cbn [handler_eqb andb]; try reflexivity;
    repeat match goal with
           | H0 : _ \/ _ |- _ => destruct H0 as [H0|H0]
           | H0 : False |- _ => destruct H0
           end;
    rewrite <- H; reflexivity.
Qed.

(** ** Termination of soft offline *)

Lemma shrink_slab_loop_quiet (fuel : nat) (p : page_ptr) (s : state) :
  shrink_slab_quiet K ->
  shrink_slab_loop K (S fuel) p s
  = Some (snd (call_mm K (shrink_slab 1000 GFP_KERNEL 1000) s)).
Proof.
  intros Hq. cbn [shrink_slab_loop]. cbv zeta.
  destruct (page_count K p _ =? 0); [reflexivity|].
  assert (E : (int_of (fst (call_mm K (shrink_slab 1000 GFP_KERNEL 1000) s))
               >? 10) = false).
  { unfold call_mm. cbn [fst]. rewrite Z.gtb_ltb. apply Z.ltb_ge.
    apply Hq. }
  rewrite E. reflexivity.
Qed.

Lemma shake_page_quiet (fuel : nat) (p : page_ptr) (access : Z) (s : state) :
  shrink_slab_quiet K ->
  shake_page__clone C K (S fuel) p access s <> None.
Proof.
  intros Hq.
  assert (Ha : forall s0, shake_access K (S fuel) p access s0 <> None).
  { intros s0. unfold shake_access.
    destruct (access =? 0); [discriminate|].
    rewrite shrink_slab_loop_quiet by exact Hq. discriminate. }
  unfold shake_page__clone.
  destruct (negb (PageSlab C p s)); [|apply Ha].
  destruct (PageLRU C p _); [discriminate|].
  destruct (_ || _); [discriminate|]. apply Ha.
Qed.

(** X19. Soft offline returns: when the value that the answer of shrink_slab
    takes in [int nr] is never more than ten, the loop of shake_page__clone
    stops after its first round, so one round of fuel is enough for soft
    offline to return on every page and in every state. *)
Theorem soft_offline_returns (fuel : nat) (page : page_ptr) (mf_flags : Z)
  (s : state) :
  shrink_slab_quiet K ->
  exists r s', soft_offline_page__clone C K (S fuel) page mf_flags s
               = Some (r, s').
Proof.
  intros Hq.
  destruct (soft_offline_page__clone C K (S fuel) page mf_flags s)
    as [[r s']|] eqn:E; [exists r, s'; reflexivity|].
  exfalso. revert E. unfold soft_offline_page__clone. cbv zeta.
  destruct (fst _ <? 0); [discriminate|].
  destruct (fst _ =? 0); [discriminate|].
  destruct (negb _); [|discriminate].
  destruct (shake_page__clone C K (S fuel) page 1 _) as [s3|] eqn:Es.
  - destruct (fst _ <? 0); [discriminate|].
    destruct (fst _ =? 0); discriminate.
  - exfalso. exact (shake_page_quiet fuel page 1 _ Hq Es).
Qed.



(** ** Soft offline of a free page, undone by unpoison *)

Lemma setbit_setbit (f n : N) : N.setbit (N.setbit f n) n = N.setbit f n.
Proof.
  apply N.bits_inj. intros i. rewrite !N.setbit_eqb.
  destruct (N.eqb n i); reflexivity.
Qed.

Lemma clearbit_setbit (f n : N) :
  N.testbit f n = false -> N.clearbit (N.setbit f n) n = f.
Proof.
  intros H. apply N.bits_inj. intros i.
  rewrite N.clearbit_eqb, N.setbit_eqb.
  destruct (N.eqb_spec n i) as [<-|_]; cbn; [now rewrite H|].
  apply andb_true_r.
Qed.

Lemma set_flags_same (pg : page) : set_flags (flags pg) pg = pg.
Proof. destruct pg. reflexivity. Qed.

Lemma get_any_page_free_run (p : page_ptr) (pfn : N) (mf_flags : Z)
  (s : state) :
  Z.land mf_flags (MF_COUNT_INCREASED C) = 0 ->
  _count (mem_map s (compound_head K (mem_map s) p)) = 0 ->
  is_free_buddy_page__clone C p s = true ->
  fst (get_any_page C K p pfn mf_flags s) = 0
  /\ mem_map (snd (get_any_page C K p pfn mf_flags s))
     = upd_page (mem_map s) p
         (set_flags (N.setbit (flags (mem_map s p)) (PG_hwpoison C))
            (mem_map s p))
  /\ mce_bad_pages (snd (get_any_page C K p pfn mf_flags s))
     = mce_bad_pages s.
Proof.
  intros H Hc Hf. unfold get_any_page. rewrite H. simpl.
  unfold bind, ret, gets, call_sys, get_page_unless_zero, pr_debug, printk,
    emit, SetPageHWPoison, set_page_flag, modify_page; simpl.
  rewrite Hc. simpl.
  match goal with
  | |- context [is_free_buddy_page__clone C p ?x] =>
      rewrite (is_free_buddy_mem x s p eq_refl)
  end.
  rewrite Hf. simpl. repeat split.
Qed.

Lemma unpoison_free_page_run (pfn : N) (s : state) :
  pfn_valid K pfn = true ->
  PageHWPoison C (pfn_to_page pfn) s = true ->
  _count (mem_map s (compound_head K (mem_map s) (pfn_to_page pfn))) = 0 ->
  unpoison_memory__clone C K pfn s
  = (0, snd (pr_debug "MCE: Software-unpoisoned free page %#lx\n"
               [Arg_num (Z.of_N pfn)]
               (snd (dec_mce_bad_pages
                       (snd (clear_page_flag (PG_hwpoison C)
                               (pfn_to_page pfn) s)))))).
Proof.
  intros Hv Hp Hc.
  unfold unpoison_memory__clone. rewrite Hv. cbn [negb].
  unfold gets. do 2 bind_step. cbn [fst snd]. rewrite Hp. cbn [negb].
  bind_step. unfold get_page_unless_zero. rewrite Hc.
  cbn [Z.eqb fst snd negb].
  unfold TestClearPageHWPoison, gets.
  do 2 bind_step. cbn [fst snd].
  do 2 bind_step. unfold ret at 1 2. cbn [fst snd]. rewrite Hp.
  do 2 bind_step. reflexivity.
Qed.

(** X21. Soft offline of a free page is undone by unpoison. For a page that
    is its own head, lies in a free block of the buddy allocator, has no
    reference and is not poisoned: soft offline returns 0, marks the page
    poisoned and adds one to the ledger; unpoison of its frame then returns 0
    and leaves every page descriptor and the ledger exactly as they were
    before the soft offline. *)
Theorem soft_offline_unpoison_round_trip (fuel : nat) (page : page_ptr)
  (mf_flags : Z) (s : state) :
  Z.land mf_flags (MF_COUNT_INCREASED C) = 0 ->
  (forall m, compound_head K m page = page) ->
  pfn_valid K (page_to_pfn page) = true ->
  _count (mem_map s page) = 0 ->
  is_free_buddy_page__clone C page s = true ->
  PageHWPoison C page s = false ->
  LONG_MIN <= mce_bad_pages s < LONG_MAX ->
  exists s1 s2,
    soft_offline_page__clone C K fuel page mf_flags s = Some (0, s1)
    /\ PageHWPoison C page s1 = true
    /\ mce_bad_pages s1 = mce_bad_pages s + 1
    /\ unpoison_memory__clone C K (page_to_pfn page) s1 = (0, s2)
    /\ (forall q, mem_map s2 q = mem_map s q)
    /\ mce_bad_pages s2 = mce_bad_pages s.
Proof.
  intros Hmf Hhead Hv Hc Hfree Hnp Hrange.
  assert (Hc' : _count (mem_map s (compound_head K (mem_map s) page)) = 0)
    by (rewrite Hhead; exact Hc).
  destruct (get_any_page_free_run page (page_to_pfn page) mf_flags s
              Hmf Hc' Hfree) as [G0 [Gm Gl]].
  set (s0 := snd (get_any_page C K page (page_to_pfn page) mf_flags s))
    in Gm, Gl.
  set (s1 := snd (soft_offline_done C page 0 s0)).
  assert (E1 : soft_offline_page__clone C K fuel page mf_flags s
               = Some (0, s1)).
  { unfold soft_offline_page__clone. cbv zeta. rewrite G0.
    cbn [Z.ltb Z.eqb Z.compare]. reflexivity. }
  assert (M1 : forall q,
            mem_map s1 q
            = if N.eqb q page
              then set_flags (N.setbit (flags (mem_map s page))
                                (PG_hwpoison C)) (mem_map s page)
              else mem_map s q).
  { intros q. subst s1. unfold soft_offline_done. rewrite !bind_eq.
    unfold ret, set_mce_bad_pages, SetPageHWPoison, set_page_flag,
      modify_page.
    cbn [fst snd mem_map]. rewrite Gm. unfold upd_page.
    rewrite N.eqb_refl.
    destruct (N.eqb q page); [|reflexivity].
    unfold set_flags. cbn [flags _count _mapcount private mapping index].
    rewrite setbit_setbit. reflexivity. }
  assert (L1 : mce_bad_pages s1 = mce_bad_pages s + 1).
  { subst s1. unfold soft_offline_done. rewrite !bind_eq.
    unfold ret, set_mce_bad_pages, SetPageHWPoison, set_page_flag,
      modify_page.
    cbn [fst snd mce_bad_pages]. rewrite Gl.
    unfold atomic_long_add. apply long_of_in_range.
    unfold LONG_MIN, LONG_MAX in *. lia. }
  assert (P1 : PageHWPoison C page s1 = true).
  { unfold PageHWPoison, page_flag, test_bit. rewrite M1, N.eqb_refl.
    cbn [flags set_flags]. apply N.setbit_eq. }
  assert (C1 : _count (mem_map s1 (compound_head K (mem_map s1)
                                     (pfn_to_page (page_to_pfn page)))) = 0).
  { unfold pfn_to_page, page_to_pfn. rewrite Hhead, M1, N.eqb_refl.
    cbn [_count set_flags]. exact Hc. }
  pose proof (unpoison_free_page_run (page_to_pfn page) s1 Hv P1 C1) as E2.
  eexists s1, _. split; [exact E1|]. split; [exact P1|].
  split; [exact L1|]. split; [exact E2|].
  unfold pr_debug, printk, emit, dec_mce_bad_pages, set_mce_bad_pages,
    clear_page_flag, modify_page, upd_page, pfn_to_page, page_to_pfn.
  cbn [fst snd mem_map mce_bad_pages].
  split.
  - intros q. rewrite !M1, N.eqb_refl.
    destruct (N.eqb q page) eqn:Eq; [|reflexivity].
    apply N.eqb_eq in Eq. subst q.
    unfold set_flags. cbn [flags _count _mapcount private mapping index].
    rewrite clearbit_setbit by exact Hnp.
    destruct (mem_map s page). reflexivity.
  - rewrite L1. unfold atomic_long_dec.
    replace (mce_bad_pages s + 1 - 1) with (mce_bad_pages s) by lia.
    apply long_of_in_range. unfold LONG_MIN, LONG_MAX in *. lia.
Qed.

End Proofs.

(** * The engine on the sample kernel *)

(** Witness of C9: a call with MF_COUNT_INCREASED on a page of the page
    cache. *)
Lemma get_any_page_count_increased_witness :
  get_any_page sample_config sample_kernel 8 8 1 (sample_state clean_file_page)
  = (1, sample_state clean_file_page).
Proof.
  apply get_any_page_count_increased. vm_compute. discriminate.
Defined.

(** Witness of C3: a page of the buddy allocator is reported free and
    poisoned, with the lock and the isolation released. *)
Lemma get_any_page_results_witness :
  fst (get_any_page sample_config sample_kernel 8 8 0
         (sample_state buddy_page)) = 0
  /\ PageHWPoison sample_config 8
       (snd (get_any_page sample_config sample_kernel 8 8 0
               (sample_state buddy_page))) = true
  /\ sleep_locks_held
       (trace (snd (get_any_page sample_config sample_kernel 8 8 0
                      (sample_state buddy_page)))) = 0.
Proof.
  destruct (get_any_page_results sample_config sample_kernel 8 8 0
              (sample_state buddy_page) eq_refl)
    as [Hfree [_ [_ [_ [_ [Hlock _]]]]]].
  destruct (Hfree eq_refl eq_refl) as [Hr [Hp _]].
  split; [exact Hr|]. split; [exact Hp|]. exact Hlock.
Defined.

(** Witness of C7: unpoison of a valid frame that is not poisoned. *)
Lemma unpoison_not_poisoned_witness :
  fst (unpoison_memory__clone sample_config sample_kernel 8
         (sample_state clean_file_page)) = 0
  /\ mce_bad_pages
       (snd (unpoison_memory__clone sample_config sample_kernel 8
               (sample_state clean_file_page))) = 0.
Proof.
  destruct (unpoison_not_poisoned sample_config sample_kernel 8
              (sample_state clean_file_page) eq_refl eq_refl)
    as [Hr [Hl _]].
  split; [exact Hr|exact Hl].
Defined.

(** Witness of C8: a reserved page. *)
Lemma kernel_pages_ignored_witness :
  exists ps,
    first_match (error_states sample_config) (flags reserved_page) = Some ps
    /\ action ps = fn_me_kernel.
Proof.
  destruct (kernel_pages_ignored sample_config sample_kernel 8 8
              (sample_state reserved_page) (or_introl eq_refl))
    as [ps [Hm [Ha _]]].
  exists ps. split; [exact Hm|exact Ha].
Defined.

(** Counterexample to C1 as stated: a dirty swap-cache page that is left
    with two references after me_swapcache_dirty returned DELAYED. The
    dispatcher finds no user left, logs no "still referenced" message and
    returns 0, not -EBUSY. *)
Lemma page_action_two_references_counterexample :
  first_match (error_states sample_config) (flags (swapcache_dirty_page 2))
  = Some swapcache_dirty_rule
  /\ fst (me_swapcache_dirty sample_config sample_kernel 8 8
            (sample_state (swapcache_dirty_page 2))) = DELAYED
  /\ page_count sample_kernel 8
       (snd (me_swapcache_dirty sample_config sample_kernel 8 8
               (sample_state (swapcache_dirty_page 2)))) = 2
  /\ fst (page_action sample_config sample_kernel swapcache_dirty_rule 8 8
            (sample_state (swapcache_dirty_page 2))) = 0
  /\ fst (page_action sample_config sample_kernel swapcache_dirty_rule 8 8
            (sample_state (swapcache_dirty_page 2))) <> - EBUSY
  /\ existsb is_still_referenced
       (trace (snd (page_action sample_config sample_kernel
                      swapcache_dirty_rule 8 8
                      (sample_state (swapcache_dirty_page 2))))) = false.
Proof.
  repeat split; try (vm_compute; reflexivity).
  vm_compute. discriminate.
Qed.

(** Witness of C1 as amended: the same page left with three references. *)
Lemma page_action_swapcache_dirty_witness :
  fst (page_action sample_config sample_kernel swapcache_dirty_rule 8 8
         (sample_state (swapcache_dirty_page 3))) = - EBUSY.
Proof.
  destruct (page_action_swapcache_dirty sample_config sample_kernel
              swapcache_dirty_rule 8 8 (sample_state (swapcache_dirty_page 3))
              eq_refl eq_refl) as [H3 _].
  destruct (H3 eq_refl) as [Hr _]. exact Hr.
Defined.

(** Counterexample to C2 as stated: a clean anonymous page mapped by a
    process that asked for early kill. The unmap loop fails, the notify list
    holds that process, and no signal is sent. *)
Lemma unmap_failure_clean_page_counterexample :
  fst (hwpoison_user_mappings sample_config sample_kernel 8 8 0
         (sample_state (mapped_anon_page false))) <> SWAP_SUCCESS
  /\ map (fun tk => tid (tsk tk))
       (fst (fst (before_kill sample_config sample_kernel 8 8
                    (sample_state (mapped_anon_page false))))) = [7%N]
  /\ signals (trace (snd (hwpoison_user_mappings sample_config sample_kernel
                            8 8 0 (sample_state (mapped_anon_page false)))))
     = [].
Proof.
  split; [vm_compute; discriminate|].
  split; vm_compute; reflexivity.
Qed.

(** Witness of C2 as amended: the same page, dirty. *)
Lemma unmap_failure_forces_kill_witness :
  signals (trace (snd (hwpoison_user_mappings sample_config sample_kernel
                         8 8 0 (sample_state (mapped_anon_page true)))))
  = [(Forced, SIGKILL, 7%N)].
Proof.
  destruct (unmap_failure_forces_kill sample_config sample_kernel 8 8 0
              (sample_state (mapped_anon_page true)) eq_refl eq_refl eq_refl)
    as [_ Hs].
  - vm_compute. discriminate.
  - rewrite Hs. vm_compute. reflexivity.
Defined.

(** Witness of C6: a clean file page mapped by one process. *)
Lemma clean_page_no_notification_witness :
  signals (trace (snd (hwpoison_user_mappings sample_config sample_kernel
                         8 8 0 (sample_state mapped_clean_file_page))))
  = []
  /\ collector_runs
       (trace (snd (hwpoison_user_mappings sample_config sample_kernel
                      8 8 0 (sample_state mapped_clean_file_page)))) = 0%nat.
Proof.
  destruct (clean_page_no_notification sample_config sample_kernel 8 8 0
              (sample_state mapped_clean_file_page) (file_space 3)
              eq_refl eq_refl eq_refl eq_refl eq_refl eq_refl eq_refl)
    as [_ [Hs [Hc _]]].
  split; [exact Hs|exact Hc].
Defined.


(** C5. The code against the claim, on the sample kernel. Soft offline of a
    clean file page held by the page cache only (one reference) succeeds by
    invalidation and leaves the page with no reference; soft offline of the
    same page when dirty succeeds by migration and leaves it with no
    reference either. In neither run is the count one above its value before
    the call. *)
Theorem soft_offline_drops_reference :
  _count clean_file_page = 1
  /\ result_and_count
       (soft_offline_page__clone sample_config sample_kernel 1 8 0
          (sample_state clean_file_page)) = Some (0, 0)
  /\ _count dirty_file_page = 1
  /\ result_and_count
       (soft_offline_page__clone sample_config sample_kernel 1 8 0
          (sample_state dirty_file_page)) = Some (0, 0).
Proof.
  repeat split; vm_compute; reflexivity.
Qed.

(** Witness of X2: a reserved page. *)
Lemma hwpoison_user_mappings_nothing_to_unmap_witness :
  hwpoison_user_mappings sample_config sample_kernel 8 8 0
    (sample_state reserved_page)
  = (SWAP_SUCCESS, sample_state reserved_page).
Proof.
  apply hwpoison_user_mappings_nothing_to_unmap. vm_compute. reflexivity.
Defined.

(** Witness of X3: the head page of a mapped huge page. *)
Lemma hwpoison_user_mappings_unsupported_witness :
  hwpoison_user_mappings sample_config sample_kernel 8 8 0
    (sample_state mapped_huge_page)
  = (SWAP_FAIL, sample_state mapped_huge_page).
Proof.
  apply hwpoison_user_mappings_unsupported; vm_compute; reflexivity.
Defined.

(** Witness of X6: a frame number beyond the sample memory. *)
Lemma unpoison_invalid_frame_witness :
  unpoison_memory__clone sample_config sample_kernel 5000
    (sample_state clean_file_page)
  = (- ENXIO, sample_state clean_file_page).
Proof. apply unpoison_invalid_frame. reflexivity. Defined.

(** Witness of X7: the poisoned free page of the sample. *)
Lemma unpoison_free_page_witness :
  fst (unpoison_memory__clone sample_config sample_kernel 8 poisoned_state)
  = 0
  /\ mce_bad_pages
       (snd (unpoison_memory__clone sample_config sample_kernel 8
               poisoned_state)) = 0.
Proof.
  assert (Hrange : LONG_MIN < mce_bad_pages poisoned_state <= LONG_MAX)
    by (vm_compute; split; congruence).
  destruct (unpoison_free_page sample_config sample_kernel 8 poisoned_state
              eq_refl eq_refl eq_refl Hrange) as [Hr [_ [Hl _]]].
  split; [exact Hr|exact Hl].
Defined.

(** Witness of X10: the rule for reserved pages on a reserved page. *)
Lemma page_action_unhandled_witness :
  fst (page_action sample_config sample_kernel
         (mk_page_state 1024 1024 "reserved kernel" fn_me_kernel) 8 8
         (sample_state reserved_page)) = - EBUSY.
Proof.
  apply page_action_unhandled. left. reflexivity.
Defined.

(** Witness of X13: the entry collected for the process of the sample
    kernel, which asked for early kill. *)
Lemma collect_procs_only_willing_witness :
  mm (tsk sample_entry) <> None.
Proof.
  refine (proj1 (collect_procs_only_willing sample_config sample_kernel 8
                   (sample_state (mapped_anon_page true)) sample_entry _)).
  vm_compute. left. reflexivity.
Defined.

Lemma soft_offline_kills_nothing_witness :
  match soft_offline_page__clone sample_config sample_kernel 1 8 0
          (sample_state clean_file_page) with
  | Some (r, s') => r = 0 /\ signals (trace s') = []
  | None => False
  end.
Proof.
  destruct (soft_offline_page__clone sample_config sample_kernel 1 8 0
              (sample_state clean_file_page)) as [[r s']|] eqn:E.
  - split.
    + vm_compute in E. injection E as Er _. symmetry. exact Er.
    + exact (proj1 (soft_offline_kills_nothing sample_config sample_kernel
                      1 8 0 (sample_state clean_file_page) r s' E)).
  - vm_compute in E. discriminate E.
Defined.

Lemma soft_offline_releases_locks_witness :
  match soft_offline_page__clone sample_config sample_kernel 1 8 0
          (sample_state clean_file_page) with
  | Some (r, s') => r = 0 /\ page_locks_held 8 (trace s') = 0
  | None => False
  end.
Proof.
  destruct (soft_offline_page__clone sample_config sample_kernel 1 8 0
              (sample_state clean_file_page)) as [[r s']|] eqn:E.
  - split.
    + vm_compute in E. injection E as Er _. symmetry. exact Er.
    + exact (proj2 (proj2 (soft_offline_releases_locks sample_config
                             sample_kernel 1 8 0
                             (sample_state clean_file_page) r s' E))).
  - vm_compute in E. discriminate E.
Defined.

Lemma soft_offline_returns_witness :
  exists r s', soft_offline_page__clone sample_config sample_kernel 1 8 0
                 (sample_state reserved_page) = Some (r, s').
Proof.
  apply (soft_offline_returns sample_config sample_kernel 0 8 0
           (sample_state reserved_page)).
  intros m w. vm_compute. discriminate.
Defined.


Lemma soft_offline_unpoison_round_trip_witness :
  exists s1 s2,
    soft_offline_page__clone sample_config sample_kernel 0 8 0
      (sample_state buddy_page) = Some (0, s1)
    /\ PageHWPoison sample_config 8 s1 = true
    /\ mce_bad_pages s1 = 0 + 1
    /\ unpoison_memory__clone sample_config sample_kernel 8 s1 = (0, s2)
    /\ (forall q, mem_map s2 q = sample_mem buddy_page q)
    /\ mce_bad_pages s2 = 0.
Proof.
  apply (soft_offline_unpoison_round_trip sample_config sample_kernel 0 8 0
           (sample_state buddy_page)).
  - reflexivity.
  - intros m. reflexivity.
  - reflexivity.
  - reflexivity.
  - vm_compute. reflexivity.
  - reflexivity.
  - cbn. unfold LONG_MIN, LONG_MAX. lia.
Defined.

(** Counterexample to C10 as stated: the kill step on a list of one entry.
    The entry is freed and its task reference released, but it is not
    unlinked: the list that the head links at the return is not empty. *)
Lemma kill_procs_ao_list_left_counterexample :
  to_kill_live
    (snd (kill_procs_ao sample_config sample_kernel [sample_entry] true 0
            false 8 notified_state)) = 0
  /\ kfree_calls
       (trace (snd (kill_procs_ao sample_config sample_kernel [sample_entry]
                      true 0 false 8 notified_state))) = 1%nat
  /\ task_usage
       (snd (kill_procs_ao sample_config sample_kernel [sample_entry] true 0
               false 8 notified_state)) 7 = 1
  /\ fst (kill_procs_ao sample_config sample_kernel [sample_entry] true 0
            false 8 notified_state) = [sample_entry]
  /\ fst (kill_procs_ao sample_config sample_kernel [sample_entry] true 0
            false 8 notified_state) <> [].
Proof.
  repeat split; try (vm_compute; reflexivity).
  vm_compute. discriminate.
Qed.
